(** * theClimberDiary: the ping server of [main.py]

    A shallow embedding of [main.py] (an aiohttp application serving a
    static directory and one [/ping] endpoint) together with the parts of
    the Python runtime and of the aiohttp, aiohttp_cors, logging and ssl
    libraries that the program calls.

    The model:
    - [PyStr]      Python [str] values as lists of code points;
    - [PyInt]      [int(str)] and [int.__repr__] of CPython;
    - [Runtime]    exceptions, the world state and the effect monad;
    - [Logging]    the [logging] module (root logger, handlers, [basicConfig],
                   the loggers below the root and the handler of last resort);
    - [Web]        requests, responses, the router, the CORS hook, the site,
                   and the records aiohttp logs by itself (the access record
                   of every request, the record of an exception that left a
                   handler);
    - [Main]       the program itself, function by function;
    - [Literal]    the integer literals as a grammar, to compare [int()] with;
    - [Frames]     the notions the properties are stated with;
    - [Sample]     concrete platforms, worlds and requests;
    - [Observations] what a run shows: log lines, answers, readiness.

    The proofs:
    - [IntFacts]     the parser reads exactly the literals of the grammar;
    - [EffectFacts]  what the logging calls and [handle_ping] do to the world;
    - [FrameFacts]   what the whole program leaves untouched;
    - [ProgramFacts] routing, the response hook, the release of the port;
    - [Claims]       the properties of the specification, C1 to C10;
    - [ServingFacts] the answers and the log lines of the requests served;
    - [ScopeFacts]   the start of the site and the scope around the server;
    - [Coverage]     further properties of the program, X1 to X19. *)

From Stdlib Require Import ZArith NArith List String Ascii Bool Lia.
From stdpp Require Import base option list gmap.
Import ListNotations.
Local Open Scope N_scope.

(* ===================================================================== *)
(** ** Python strings *)
(* ===================================================================== *)

Module PyStr.

(** A Python [str] is a sequence of Unicode code points. *)
Definition pystr := list N.

(** An ASCII literal of the source text. *)
Definition py (s : string) : pystr :=
  List.map N_of_ascii (list_ascii_of_string s).

(** [str.lower] restricted to the ASCII letters. *)
Definition ascii_lower (c : N) : N :=
  if (65 <=? c) && (c <=? 90) then c + 32 else c.

Definition lower (s : pystr) : pystr := List.map ascii_lower s.

Definition pystr_eqb (a b : pystr) : bool := bool_decide (a = b).

(** [sep.join(parts)] *)
Fixpoint str_join (sep : pystr) (parts : list pystr) : pystr :=
  match parts with
  | [] => []
  | [p] => p
  | p :: rest => p ++ sep ++ str_join sep rest
  end.

End PyStr.
Export PyStr.

(* ===================================================================== *)
(** ** Python integers and their text form *)
(* ===================================================================== *)

(** The Unicode character database, for the code points outside ASCII:
    which are white space ([Py_UNICODE_ISSPACE]) and which are decimal
    digits, with their value ([Py_UNICODE_TODECIMAL], 0..9). The table
    depends on the Unicode version the interpreter was built with. *)
Record Unicode := {
  ucd_isspace : N -> bool;
  ucd_todecimal : N -> option N;
  ucd_todecimal_range : forall c d, ucd_todecimal c = Some d -> d < 10
}.

Module PyInt.

(** [Py_ISSPACE]: the white space of the C locale. *)
Definition Py_ISSPACE (c : N) : bool :=
  ((9 <=? c) && (c <=? 13)) || (c =? 32).

(** [_PyLong_DigitValue[c] < 10]: the value of an ASCII decimal digit. *)
Definition digit_value (c : N) : option N :=
  if (48 <=? c) && (c <=? 57) then Some (c - 48) else None.

(** [Py_UNICODE_ISSPACE]: a fixed table below 128 (it has the separators
    0x1C..0x1F, which [Py_ISSPACE] has not), the database above. *)
Definition Py_UNICODE_ISSPACE (U : Unicode) (ch : N) : bool :=
  if ch <? 128
  then ((9 <=? ch) && (ch <=? 13)) || ((28 <=? ch) && (ch <=? 32))
  else ucd_isspace U ch.

(** [Py_UNICODE_TODECIMAL]: [None] stands for the C result -1. *)
Definition Py_UNICODE_TODECIMAL (U : Unicode) (ch : N) : option N :=
  if ch <? 128 then digit_value ch else ucd_todecimal U ch.

(** The loop of [_PyUnicode_TransformDecimalAndSpaceToASCII]: code points
    below 127 are copied, other white space becomes a blank, other
    decimal digits become ASCII digits, and anything else becomes a
    question mark at which the output is cut. *)
Fixpoint transform_loop (U : Unicode) (u : pystr) : pystr :=
  match u with
  | [] => []
  | ch :: rest =>
      if ch <? 127 then ch :: transform_loop U rest
      else if Py_UNICODE_ISSPACE U ch then 32 :: transform_loop U rest
      else match Py_UNICODE_TODECIMAL U ch with
           | None => [63]
           | Some decimal => (48 + decimal) :: transform_loop U rest
           end
  end.

(** [_PyUnicode_TransformDecimalAndSpaceToASCII]: an ASCII string is
    returned as it is. *)
Definition transform (U : Unicode) (u : pystr) : pystr :=
  if forallb (fun ch => ch <? 128) u then u else transform_loop U u.

Fixpoint skip_space (s : pystr) : pystr :=
  match s with
  | c :: rest => if Py_ISSPACE c then skip_space rest else s
  | [] => []
  end.

(** The scanning loop of [long_from_non_binary_base] for base 10. It
    runs over digits and underscores; [prev_us] is [prev == '_'],
    [digits] counts the digits seen and [acc] is their value. [None] is
    the jump to [onError] (two underscores in a row, or an underscore
    last); otherwise the count, the value and the unread rest. *)
Fixpoint scan (s : pystr) (prev_us : bool) (digits acc : N)
  : option (N * N * pystr) :=
  match s with
  | c :: rest =>
      if c =? 95 then
        if prev_us then None else scan rest true digits acc
      else match digit_value c with
           | Some d => scan rest false (digits + 1) (acc * 10 + d)
           | None => if prev_us then None else Some (digits, acc, s)
           end
  | [] => if prev_us then None else Some (digits, acc, [])
  end.

(** [_PY_LONG_MAX_STR_DIGITS_THRESHOLD] *)
Definition MAX_STR_DIGITS_THRESHOLD : N := 640.

(** The guard on the length of a conversion between [int] and [str]:
    [max_str_digits] is [sys.get_int_max_str_digits()], 0 when the guard
    is off (as in interpreters that predate it). *)
Definition exceeds_limit (max_str_digits digits : N) : bool :=
  (MAX_STR_DIGITS_THRESHOLD <? digits)
  && (0 <? max_str_digits) && (max_str_digits <? digits).

(** The sign in front of the digits: [true] when it is a minus. *)
Definition read_sign (s : pystr) : bool * pystr :=
  match s with
  | c :: rest =>
      if c =? 43 then (false, rest)
      else if c =? 45 then (true, rest)
      else (false, s)
  | [] => (false, s)
  end.

Definition starts_with_underscore (s : pystr) : bool :=
  match s with
  | c :: _ => c =? 95
  | [] => false
  end.

(** [PyLong_FromString(s, &end, 10)] on the transformed text, with the
    test of its caller that all of the text was read. [None] is the
    [ValueError]. *)
Definition PyLong_FromString (max_str_digits : N) (s : pystr) : option Z :=
  let '(negative, s2) := read_sign (skip_space s) in
  if starts_with_underscore s2 then None
  else
    match scan s2 false 0 0 with
    | None => None
    | Some (digits, acc, rest) =>
        if exceeds_limit max_str_digits digits then None
        else if digits =? 0 then None
        else match skip_space rest with
             | [] => Some (if negative then (- Z.of_N acc)%Z else Z.of_N acc)
             | _ :: _ => None
             end
    end.

(** [int(u)] for a [str] argument ([PyLong_FromUnicodeObject]). *)
Definition int_of_str (U : Unicode) (max_str_digits : N) (u : pystr) : option Z :=
  PyLong_FromString max_str_digits (transform U u).

(** The decimal digits of a natural number, most significant first. *)
Fixpoint digits_fuel (fuel : nat) (n : N) (acc : pystr) : pystr :=
  match fuel with
  | O => acc
  | S fuel' =>
      let acc' := (48 + n mod 10) :: acc in
      if n / 10 =? 0 then acc' else digits_fuel fuel' (n / 10) acc'
  end.

Definition digits_of (n : N) : pystr :=
  digits_fuel (S (N.to_nat (N.log2 n))) n [].

(** The base-10 rendering of an integer: a minus sign when negative, no
    leading zeros, ["0"] for zero. *)
Definition decimal (v : Z) : pystr :=
  if (v <? 0)%Z then 45 :: digits_of (Z.abs_N v) else digits_of (Z.abs_N v).

(** [int.__repr__]: the rendering, unless it is longer than the guard
    allows (the sign is not counted). [None] is the [ValueError]. *)
Definition int_repr (max_str_digits : N) (v : Z) : option pystr :=
  let text := digits_of (Z.abs_N v) in
  if exceeds_limit max_str_digits (N.of_nat (length text)) then None
  else Some (decimal v).

End PyInt.

(** The excerpt of the database used on concrete inputs below: all the
    white space outside ASCII, and four of the blocks of decimal digits
    (Arabic-Indic, Extended Arabic-Indic, Devanagari, Fullwidth). *)
Definition excerpt_isspace (c : N) : bool :=
  (c =? 0x85) || (c =? 0xA0) || (c =? 0x1680)
  || ((0x2000 <=? c) && (c <=? 0x200A))
  || (c =? 0x2028) || (c =? 0x2029) || (c =? 0x202F) || (c =? 0x205F)
  || (c =? 0x3000).

Definition excerpt_todecimal (c : N) : option N :=
  if (0x660 <=? c) && (c <=? 0x669) then Some (c - 0x660)
  else if (0x6F0 <=? c) && (c <=? 0x6F9) then Some (c - 0x6F0)
  else if (0x966 <=? c) && (c <=? 0x96F) then Some (c - 0x966)
  else if (0xFF10 <=? c) && (c <=? 0xFF19) then Some (c - 0xFF10)
  else None.

Definition ucd_excerpt : Unicode.
Proof.
  refine {| ucd_isspace := excerpt_isspace; ucd_todecimal := excerpt_todecimal |}.
  intros c d. unfold excerpt_todecimal.
  repeat match goal with
         | |- context [?a <=? ?b] => destruct (N.leb_spec a b)
         end; simpl; intros [= <-]; lia.
Defined.

(* ===================================================================== *)
(** ** The runtime: exceptions, world, effects *)
(* ===================================================================== *)

Module Runtime.

(** The exceptions the program can meet. [HTTPException] is aiohttp's
    family of exceptions that carry their own status. *)
Inductive PyExc :=
| TypeError
| ValueError
| AttributeError
| KeyError (key : pystr)
| OSError (what : pystr)
| SSLError (what : pystr)
| HTTPException (status : N)
| CancelledError
| KeyboardInterrupt.

(** A piece of a formatted log line: text, or the time of the record
    ([%(asctime)s]), or the message of one of the two records aiohttp
    writes by itself. [AccessMessage] is the message of the access record
    of a request (remote address, start time, request line, status, size,
    referer and agent: the path and the status stand for it);
    [ErrorMessage] is the message of the record for an exception that
    left a handler (["Error handling request"] and the traceback of the
    exception). *)
Inductive Piece :=
| Text (t : pystr)
| Stamp (time : N)
| AccessMessage (path : pystr) (status : N)
| ErrorMessage (e : PyExc).

Definition LogLine := list Piece.

(** The fields of a [logging] format string. *)
Inductive FormatField :=
| Asctime
| Levelname
| Name
| Message
| Lit (t : pystr).

Definition Format := list FormatField.

Inductive Stream :=
| Stderr
| File (path : pystr).

(** A [logging.Handler]: where it writes, its level, its formatter
    ([None]: the default one, the bare message). *)
Record Handler := {
  h_stream : Stream;
  h_level : N;
  h_formatter : option Format
}.

(** An instance of [Server]. *)
Record Server := { _step : Z }.

(** What the listener does to the outside, in order. *)
Inductive Event :=
| EvListen (port : N) (tls : bool)     (* socket bound, accepting *)
| EvStopListening (port : N)           (* socket closed, port free *)
| EvCloseConnections
| EvSleep (ms : N)
| EvResponse (status : N).

Record World := {
  environ : gmap pystr pystr;          (* os.environ *)
  heap : gmap nat Server;              (* the Server objects *)
  root_level : N;                      (* logging.root.level *)
  root_handlers : list Handler;        (* logging.root.handlers *)
  files : gmap pystr (list LogLine);   (* the files written, by line *)
  stderr : list LogLine;
  clock : N;
  listening : list N;                  (* the ports this process holds *)
  connections : N;                     (* open client connections *)
  trace : list Event
}.

Definition with_heap (h : gmap nat Server) (w : World) : World :=
  {| environ := environ w; heap := h; root_level := root_level w;
     root_handlers := root_handlers w; files := files w; stderr := stderr w;
     clock := clock w; listening := listening w;
     connections := connections w; trace := trace w |}.

Definition with_root_level (l : N) (w : World) : World :=
  {| environ := environ w; heap := heap w; root_level := l;
     root_handlers := root_handlers w; files := files w; stderr := stderr w;
     clock := clock w; listening := listening w;
     connections := connections w; trace := trace w |}.

Definition with_root_handlers (hs : list Handler) (w : World) : World :=
  {| environ := environ w; heap := heap w; root_level := root_level w;
     root_handlers := hs; files := files w; stderr := stderr w;
     clock := clock w; listening := listening w;
     connections := connections w; trace := trace w |}.

Definition with_files (f : gmap pystr (list LogLine)) (w : World) : World :=
  {| environ := environ w; heap := heap w; root_level := root_level w;
     root_handlers := root_handlers w; files := f; stderr := stderr w;
     clock := clock w; listening := listening w;
     connections := connections w; trace := trace w |}.

Definition with_stderr (e : list LogLine) (w : World) : World :=
  {| environ := environ w; heap := heap w; root_level := root_level w;
     root_handlers := root_handlers w; files := files w; stderr := e;
     clock := clock w; listening := listening w;
     connections := connections w; trace := trace w |}.

(** The network side of the world, changed together. *)
Definition with_net (t : N) (l : list N) (c : N) (tr : list Event) (w : World)
  : World :=
  {| environ := environ w; heap := heap w; root_level := root_level w;
     root_handlers := root_handlers w; files := files w; stderr := stderr w;
     clock := t; listening := l; connections := c; trace := tr |}.

(** The interpreter and the machine the program runs on: what the code
    asks of them and cannot change. *)
Record Platform := {
  unicode : Unicode;
  int_max_str_digits : N;                   (* sys.get_int_max_str_digits() *)
  getpid : N;                               (* os.getpid() *)
  (* ssl.create_default_context(CLIENT_AUTH, cafile=...): the error, if any *)
  ssl_create_default_context : option pystr -> option PyExc;
  (* SSLContext.load_cert_chain(certfile, keyfile): the error, if any *)
  ssl_load_cert_chain : pystr -> pystr -> option PyExc;
  (* whether the port can be bound by this process *)
  port_free : N -> bool;
  (* Path(directory).is_dir(): whether a directory exists at the path *)
  is_dir : pystr -> bool;
  (* the static directory: the file under a relative path, or the status
     of the refusal (404, 403) *)
  static_file : pystr -> pystr -> N + pystr;
  (* ",".join of a frozenset of header names: the order is the set's *)
  join_names : list pystr -> pystr
}.

(** An effectful computation returns or raises, and changes the world. *)
Inductive Outcome (A : Type) :=
| Ret (a : A)
| Raise (e : PyExc).
Arguments Ret {A} a.
Arguments Raise {A} e.

Definition M (A : Type) : Type := World -> Outcome A * World.

Definition ret {A} (a : A) : M A := fun w => (Ret a, w).

Definition raise {A} (e : PyExc) : M A := fun w => (Raise e, w).

Definition bind {A B} (c : M A) (k : A -> M B) : M B :=
  fun w =>
    match c w with
    | (Ret a, w') => k a w'
    | (Raise e, w') => (Raise e, w')
    end.

Definition gets {A} (f : World -> A) : M A := fun w => (Ret (f w), w).

Definition modify (f : World -> World) : M unit := fun w => (Ret tt, f w).

(** [try: c finally: f]. The [finally] block runs however [c] ends; what
    [c] returned or raised stands, unless the block itself raises. *)
Definition try_finally {A} (c : M A) (f : M unit) : M A :=
  fun w =>
    let '(o, w1) := c w in
    match f w1 with
    | (Ret _, w2) => (o, w2)
    | (Raise e, w2) => (Raise e, w2)
    end.

(** [try: c except Exception: h]. *)
Definition try_except {A} (c : M A) (h : PyExc -> M A) : M A :=
  fun w =>
    match c w with
    | (Ret a, w') => (Ret a, w')
    | (Raise e, w') => h e w'
    end.

(** A value or an exception computed without the world. *)
Definition of_outcome {A} (o : Outcome A) : M A := fun w => (o, w).

Definition lift_option {A} (e : PyExc) (o : option A) : M A :=
  match o with
  | Some a => ret a
  | None => raise e
  end.

Definition emit (ev : Event) : M unit :=
  modify (fun w => with_net (clock w) (listening w) (connections w)
                            (trace w ++ [ev]) w).

End Runtime.
Export Runtime.

Declare Scope py_scope.
Delimit Scope py_scope with py.
Notation "x <- c ;; k" := (bind c (fun x => k))
  (at level 20, c at level 99, k at level 200, only parsing) : py_scope.
Notation "c ;; k" := (bind c (fun _ => k))
  (at level 100, k at level 200, right associativity, only parsing) : py_scope.
Local Open Scope py_scope.

(* ===================================================================== *)
(** ** The [logging] module *)
(* ===================================================================== *)

Module Logging.

Definition NOTSET : N := 0.
Definition DEBUG : N := 10.
Definition INFO : N := 20.
Definition WARNING : N := 30.
Definition ERROR : N := 40.

(** [logging.BASIC_FORMAT], ["%(levelname)s:%(name)s:%(message)s"] *)
Definition BASIC_FORMAT : Format :=
  [Levelname; Lit (py ":"); Name; Lit (py ":"); Message].

Definition getLevelName (level : N) : pystr :=
  if level =? DEBUG then py "DEBUG"
  else if level =? INFO then py "INFO"
  else if level =? WARNING then py "WARNING"
  else if level =? ERROR then py "ERROR"
  else py "Level " ++ PyInt.decimal (Z.of_N level).

(** [Formatter.format] of a record: of the logger [name], at [level],
    with the message [msg]. *)
Definition format_record (fmt : option Format) (time level : N) (name : pystr)
  (msg : Piece) : LogLine :=
  match fmt with
  | None => [msg]
  | Some fields =>
      List.map (fun field =>
                  match field with
                  | Asctime => Stamp time
                  | Levelname => Text (getLevelName level)
                  | Name => Text name
                  | Message => msg
                  | Lit t => Text t
                  end) fields
  end.

(** One line more on a stream. *)
Definition write (s : Stream) (line : LogLine) (w : World) : World :=
  match s with
  | Stderr => with_stderr (stderr w ++ [line]) w
  | File path =>
      with_files (<[path := default [] (files w !! path) ++ [line]]> (files w)) w
  end.

(** [Handler.handle], after the test of [Logger.callHandlers]. *)
Definition handle (name : pystr) (level : N) (msg : Piece) (h : Handler) : M unit :=
  if h_level h <=? level
  then modify (fun w =>
                 write (h_stream h)
                       (format_record (h_formatter h) (clock w) level name msg) w)
  else ret tt.

Fixpoint callHandlers (name : pystr) (level : N) (msg : Piece) (hs : list Handler)
  : M unit :=
  match hs with
  | [] => ret tt
  | h :: rest => handle name level msg h ;; callHandlers name level msg rest
  end.

(** [root.addHandler(h)] *)
Definition addHandler (h : Handler) : M unit :=
  modify (fun w => with_root_handlers (root_handlers w ++ [h]) w).

(** [logging.basicConfig()] without arguments: when the root logger has
    no handler, it gets one that writes [BASIC_FORMAT] lines to the
    standard error stream. *)
Definition basicConfig : M unit :=
  hs <- gets root_handlers ;;
  match hs with
  | [] => addHandler {| h_stream := Stderr; h_level := NOTSET;
                        h_formatter := Some BASIC_FORMAT |}
  | _ :: _ => ret tt
  end.

(** [logging.info(msg)], the function of the module: it configures the
    root logger when that has no handler, then logs on it. *)
Definition info (msg : pystr) : M unit :=
  hs <- gets root_handlers ;;
  (match hs with [] => basicConfig | _ :: _ => ret tt end) ;;
  level <- gets root_level ;;
  if level <=? INFO
  then hs' <- gets root_handlers ;; callHandlers (py "root") INFO (Text msg) hs'
  else ret tt.

(** [logging.getLogger(name).log(level, msg)] for a logger below the
    root that has no level and no handler of its own, as the loggers of
    aiohttp are: the level that counts is that of the root logger, and
    the record goes to the handlers of the root logger. When there is
    none, the handler of last resort writes the bare message to the
    standard error stream, for a record at WARNING or above. *)
Definition log (name : pystr) (level : N) (msg : Piece) : M unit :=
  root <- gets root_level ;;
  if root <=? level
  then hs <- gets root_handlers ;;
       match hs with
       | [] => if WARNING <=? level then modify (write Stderr [msg]) else ret tt
       | _ :: _ => callHandlers name level msg hs
       end
  else ret tt.

(** [logging.getLogger().setLevel(level)] *)
Definition root_setLevel (level : N) : M unit :=
  modify (with_root_level level).

(** [logging.FileHandler(path)]: the file is opened for appending at
    once, so it exists from then on. *)
Definition FileHandler (path : pystr) : M Handler :=
  modify (fun w => with_files (<[path := default [] (files w !! path)]> (files w)) w) ;;
  ret {| h_stream := File path; h_level := NOTSET; h_formatter := None |}.

Definition setLevel (level : N) (h : Handler) : Handler :=
  {| h_stream := h_stream h; h_level := level; h_formatter := h_formatter h |}.

Definition setFormatter (fmt : Format) (h : Handler) : Handler :=
  {| h_stream := h_stream h; h_level := h_level h; h_formatter := Some fmt |}.

End Logging.

(* ===================================================================== *)
(** ** aiohttp and aiohttp_cors *)
(* ===================================================================== *)

Module Web.

(** A GET request as the handlers see it: the path and the headers, in
    the order received. The model covers GET requests only. *)
Record Request := {
  req_path : pystr;
  req_headers : list (pystr * pystr)
}.

(** [CIMultiDictProxy.get(key)]: the first value under a name equal to
    the key up to case (header names are ASCII). *)
Fixpoint headers_get (hs : list (pystr * pystr)) (key : pystr) : option pystr :=
  match hs with
  | [] => None
  | (name, value) :: rest =>
      if pystr_eqb (lower name) (lower key) then Some value
      else headers_get rest key
  end.

Inductive Body :=
| BodyText (t : pystr)          (* text set by the handler *)
| BodyFile (content : pystr)    (* a file of the static directory *)
| BodyError.                    (* the framework's page for the status *)

Record Response := {
  status : N;
  resp_headers : list (pystr * pystr);
  body : Body
}.

Definition set_header (name value : pystr) (r : Response) : Response :=
  {| status := status r;
     resp_headers := resp_headers r ++ [(name, value)];
     body := body r |}.

Section WithPlatform.
Context (P : Platform).

(** [json.dumps] of an [int]: its [repr]. *)
Definition json_dumps (data : Z) : M pystr :=
  lift_option ValueError (PyInt.int_repr (int_max_str_digits P) data).

(** [aiohttp.web.json_response(data)] *)
Definition json_response (data : Z) : M Response :=
  t <- json_dumps data ;;
  ret {| status := 200;
         resp_headers := [(py "Content-Type", py "application/json; charset=utf-8")];
         body := BodyText t |}.

(** The handler of [aiohttp.web.static(prefix, directory)]. *)
Definition static_handle (prefix directory : pystr) (request : Request)
  : M Response :=
  let filename := drop (length prefix + 1) (req_path request) in
  match static_file P directory filename with
  | inr content =>
      ret {| status := 200; resp_headers := []; body := BodyFile content |}
  | inl refusal => raise (HTTPException refusal)
  end.
End WithPlatform.

(** What a resource matches: one path, or all paths under a prefix. *)
Inductive Pattern :=
| PlainResource (path : pystr)
| StaticResource (prefix : pystr).

(** A resource of the router, with its handler for GET, if any. *)
Record Resource := {
  res_pattern : Pattern;
  res_get : option (Request -> M Response)
}.

(** [aiohttp_cors.ResourceOptions] *)
Inductive HeaderSet :=
| AllHeaders                    (* "*" *)
| Headers (names : list pystr).

Record ResourceOptions := {
  allow_credentials : bool;
  expose_headers : HeaderSet;
  allow_headers : HeaderSet
}.

(** [aiohttp_cors.CorsConfig]: the defaults by origin, and the resources
    (by position in the router) CORS was enabled on with [add]. *)
Record CorsConfig := {
  cors_defaults : list (pystr * ResourceOptions);
  cors_resources : list nat
}.

(** [aiohttp.web.Application] *)
Record Application := {
  router : list Resource;
  cors : option CorsConfig
}.

Definition Application_new : Application := {| router := []; cors := None |}.

(** [app.add_routes([web.static(prefix, directory)])]: the resource is
    made at once, and making it raises [ValueError] when no directory
    exists at the path. *)
Definition add_static (P : Platform) (prefix directory : pystr) (app : Application)
  : Outcome Application :=
  if is_dir P directory
  then Ret {| router := router app ++
                        [{| res_pattern := StaticResource prefix;
                            res_get := Some (static_handle P prefix directory) |}];
              cors := cors app |}
  else Raise ValueError.

(** [aiohttp_cors.setup(app, defaults=...)] *)
Definition cors_setup (defaults : list (pystr * ResourceOptions)) (app : Application)
  : Application :=
  {| router := router app;
     cors := Some {| cors_defaults := defaults; cors_resources := [] |} |}.

(** [app.router.add_resource(path)]: the new resource and its position. *)
Definition add_resource (path : pystr) (app : Application) : nat * Application :=
  (length (router app),
   {| router := router app ++ [{| res_pattern := PlainResource path; res_get := None |}];
      cors := cors app |}).

(** [cors.add(resource)], and [cors.add(route)] for a route of it. *)
Definition cors_add (resource : nat) (app : Application) : Application :=
  {| router := router app;
     cors := match cors app with
             | Some c =>
                 Some {| cors_defaults := cors_defaults c;
                         cors_resources :=
                           if bool_decide (resource ∈ cors_resources c)
                           then cors_resources c
                           else cors_resources c ++ [resource] |}
             | None => None
             end |}.

(** [resource.add_route('GET', handler)] *)
Definition add_route_get (resource : nat) (handler : Request -> M Response)
  (app : Application) : Application :=
  {| router := alter (fun r => {| res_pattern := res_pattern r;
                                  res_get := Some handler |}) resource (router app);
     cors := cors app |}.

Definition is_prefix (p s : pystr) : bool := pystr_eqb (take (length p) s) p.

Definition matches (pat : Pattern) (path : pystr) : bool :=
  match pat with
  | PlainResource p => pystr_eqb path p
  | StaticResource prefix =>
      is_prefix (prefix ++ py "/") path || pystr_eqb path prefix
  end.

(** [UrlDispatcher.resolve] for a GET request: the first resource that
    matches the path and has a route for GET, with its position and the
    handler of the route. *)
Fixpoint resolve_from (i : nat) (rs : list Resource) (path : pystr)
  : option (nat * (Request -> M Response)) :=
  match rs with
  | [] => None
  | r :: rest =>
      match (if matches (res_pattern r) path then res_get r else None) with
      | Some handler => Some (i, handler)
      | None => resolve_from (S i) rest path
      end
  end.

Definition resolve (app : Application) (request : Request)
  : option (nat * (Request -> M Response)) :=
  resolve_from 0 (router app) (req_path request).

(** [_SIMPLE_RESPONSE_HEADERS]: the headers a response may always be read
    across origins. *)
Definition SIMPLE_RESPONSE_HEADERS : list pystr :=
  [py "Cache-Control"; py "Content-Language"; py "Content-Type";
   py "Expires"; py "Last-Modified"; py "Pragma"].

(** [config.get(origin, config.get("*"))] *)
Definition lookup_options (config : list (pystr * ResourceOptions)) (origin : pystr)
  : option ResourceOptions :=
  match List.find (fun '(o, _) => pystr_eqb o origin) config with
  | Some (_, opts) => Some opts
  | None =>
      match List.find (fun '(o, _) => pystr_eqb o (py "*")) config with
      | Some (_, opts) => Some opts
      | None => None
      end
  end.

Definition is_simple_header (name : pystr) : bool :=
  bool_decide (name ∈ SIMPLE_RESPONSE_HEADERS).

(** The [on_response_prepare] hook of aiohttp_cors, for a request that
    is not a preflight. [resource] is the resource of the matched route.
    Nothing is added unless CORS was enabled on that resource, the
    request has an [Origin] and the configuration has options for it. *)
Definition cors_on_response_prepare (P : Platform) (app : Application)
  (resource : option nat) (request : Request) (response : Response) : Response :=
  match cors app, resource with
  | Some config, Some i =>
      if bool_decide (i ∈ cors_resources config) then
        match headers_get (req_headers request) (py "Origin") with
        | None => response
        | Some origin =>
            match lookup_options (cors_defaults config) origin with
            | None => response
            | Some options =>
                let exposed :=
                  match expose_headers options with
                  | AllHeaders =>
                      set_header (py "Access-Control-Expose-Headers")
                        (join_names P
                           (List.filter (fun n => negb (is_simple_header n))
                                        (List.map fst (resp_headers response))))
                        response
                  | Headers [] => response
                  | Headers names =>
                      set_header (py "Access-Control-Expose-Headers")
                        (join_names P names) response
                  end in
                let allowed :=
                  set_header (py "Access-Control-Allow-Origin") origin exposed in
                if allow_credentials options
                then set_header (py "Access-Control-Allow-Credentials") (py "true") allowed
                else allowed
            end
        end
      else response
  | _, _ => response
  end.

Definition error_response (code : N) : Response :=
  {| status := code; resp_headers := []; body := BodyError |}.

(** What the protocol makes of an exception that leaves a handler: an
    [HTTPException] is its own response, a cancellation goes on, any
    other exception is logged at ERROR on the logger [aiohttp.server]
    and answered with 500. *)
Definition handle_error (e : PyExc) : M Response :=
  match e with
  | HTTPException code => ret (error_response code)
  | CancelledError => raise CancelledError
  | KeyboardInterrupt => raise KeyboardInterrupt
  | _ =>
      Logging.log (py "aiohttp.server") Logging.ERROR (ErrorMessage e) ;;
      ret (error_response 500)
  end.

(** One GET request through the application: routing, the handler, the
    exceptions, the response hook; the response is then sent, and the
    access record of the request is logged at INFO on the logger
    [aiohttp.access]. *)
Definition handle_request (P : Platform) (app : Application) (request : Request)
  : M Response :=
  let matched := resolve app request in
  response <- try_except
                (match matched with
                 | Some (_, handler) => handler request
                 | None => raise (HTTPException 404)
                 end)
                handle_error ;;
  let prepared :=
    cors_on_response_prepare P app (option_map fst matched) request response in
  emit (EvResponse (status prepared)) ;;
  Logging.log (py "aiohttp.access") Logging.INFO
    (AccessMessage (req_path request) (status prepared)) ;;
  ret prepared.

(** [AppRunner(app).setup()]: the server object is made; nothing is
    bound yet and the application has no start-up hooks. *)
Definition runner_setup : M unit := ret tt.

(** [TCPSite(runner, '0.0.0.0', port, ssl_context=...).start()] *)
Definition site_start (P : Platform) (port : N) (tls : bool) : M unit :=
  held <- gets listening ;;
  if port_free P port && negb (bool_decide (port ∈ held))
  then modify (fun w => with_net (clock w) (listening w ++ [port])
                                 (connections w)
                                 (trace w ++ [EvListen port tls]) w)
  else raise (OSError (py "address already in use")).

Fixpoint stop_sites (ports : list N) : M unit :=
  match ports with
  | [] => ret tt
  | port :: rest =>
      modify (fun w => with_net (clock w)
                                (List.filter (fun p => negb (p =? port)) (listening w))
                                (connections w)
                                (trace w ++ [EvStopListening port]) w) ;;
      stop_sites rest
  end.

(** [AppRunner.cleanup()]: every site is stopped (its socket closed),
    then the connections still open are closed. *)
Definition runner_cleanup : M unit :=
  ports <- gets listening ;;
  stop_sites ports ;;
  modify (fun w => with_net (clock w) (listening w) 0
                            (trace w ++ [EvCloseConnections]) w).

(** [asyncio.sleep], in milliseconds. *)
Definition asyncio_sleep (ms : N) : M unit :=
  modify (fun w => with_net (clock w + ms) (listening w) (connections w)
                            (trace w ++ [EvSleep ms]) w).

(** The event loop while the program waits: the requests that arrive
    are answered one after the other, each on a connection of its own;
    none arrives unless a port is held. *)
Fixpoint serve (P : Platform) (app : Application) (incoming : list Request)
  : M (list Response) :=
  match incoming with
  | [] => ret []
  | request :: rest =>
      held <- gets listening ;;
      match held with
      | [] => ret []
      | _ :: _ =>
          modify (fun w => with_net (clock w) (listening w) (connections w + 1)
                                    (trace w) w) ;;
          response <- handle_request P app request ;;
          responses <- serve P app rest ;;
          ret (response :: responses)
      end
  end.

End Web.

(* ===================================================================== *)
(** ** main.py *)
(* ===================================================================== *)

Module Main.
Import Web.

Section Program.
Context (P : Platform).

(** [os.environ.get(name)] *)
Definition environ_get (name : pystr) : M (option pystr) :=
  gets (fun w => environ w !! name).

(** [os.environ[name]] *)
Definition environ_item (name : pystr) : M pystr :=
  found <- environ_get name ;;
  lift_option (KeyError name) found.

Definition ssl_call (failure : option PyExc) : M unit :=
  match failure with
  | Some e => raise e
  | None => ret tt
  end.

(** The first part of [with_application_server]: the SSL context.
    [true] stands for the loaded context, [false] for [None]. *)
Definition make_ssl_ctx (use_ssl : bool) : M bool :=
  if use_ssl then
    cafile <- environ_get (py "SSL_CA_PATH") ;;
    ssl_call (ssl_create_default_context P cafile) ;;
    certfile <- environ_item (py "SSL_CERT_PATH") ;;
    keyfile <- environ_item (py "SSL_PRIVATE_KEY_PATH") ;;
    ssl_call (ssl_load_cert_chain P certfile keyfile) ;;
    ret true
  else ret false.

Definition port_text (n : N) : pystr := PyInt.decimal (Z.of_N n).

Definition starting_message (port : N) : pystr :=
  py "Starting server in pid " ++ port_text (getpid P)
  ++ py " binding port " ++ port_text port.

Definition shutting_down_message (port : N) : pystr :=
  py "Shutting down server in pid " ++ port_text (getpid P)
  ++ py " binding port " ++ port_text port.

(** The [finally] block of [with_application_server]. *)
Definition release (port : N) : M unit :=
  Logging.info (shutting_down_message port) ;;
  runner_cleanup ;;
  asyncio_sleep 10.

(** [with_application_server] up to its [try]: the SSL context, the
    runner, the site. *)
Definition startup (port : N) (use_ssl : bool) : M unit :=
  ssl_ctx <- make_ssl_ctx use_ssl ;;
  runner_setup ;;
  site_start P port ssl_ctx.

(** [with_application_server(app, port, use_ssl)] around the body of
    the [async with] statement. The generator runs up to its [yield]
    when the scope is entered; the body then runs at the [yield], and
    what it returns or raises comes out there, inside the [try]. *)
Definition with_application_server {A} (app : Application) (port : N)
  (use_ssl : bool) (scope_body : M A) : M A :=
  startup port use_ssl ;;
  try_finally
    (Logging.info (starting_message port) ;; scope_body)
    (release port).

(** [Server.__init__] *)
Definition Server_init : Server := {| _step := 2 |}.

(** [Server()]: a new object, initialised. *)
Definition Server_new : M nat :=
  self <- gets (fun w => fresh (dom (heap w))) ;;
  modify (fun w => with_heap (<[self := Server_init]> (heap w)) w) ;;
  ret self.

(** [f'{value}'] for a value that is a [str] or [None]. *)
Definition format_value (value : option pystr) : pystr :=
  match value with
  | Some s => s
  | None => py "None"
  end.

(** [int(value)] *)
Definition int_ (value : option pystr) : M Z :=
  match value with
  | None => raise TypeError
  | Some s =>
      lift_option ValueError
        (PyInt.int_of_str (unicode P) (int_max_str_digits P) s)
  end.

(** [self._step] *)
Definition get_step (self : nat) : M Z :=
  obj <- gets (fun w => heap w !! self) ;;
  match obj with
  | Some server => ret (_step server)
  | None => raise AttributeError
  end.

(** [Server.handle_ping] *)
Definition handle_ping (self : nat) (request : Request) : M Response :=
  let value := headers_get (req_headers request) (py "value") in
  Logging.info (py "Handling ping with value " ++ format_value value) ;;
  value <- int_ value ;;
  step <- get_step self ;;
  json_response P (value + step)%Z.

(** [_make_app]: it raises what [app.add_routes] raises. *)
Definition _make_app (server : nat) : Outcome Application :=
  let app := Application_new in
  match add_static P (py "/page") (py "/home/ubuntu/theClimberDiary") app with
  | Raise e => Raise e
  | Ret app =>
      let cors_defaults :=
        [(py "*", {| allow_credentials := false;
                     expose_headers := AllHeaders;
                     allow_headers := AllHeaders |})] in
      let app := cors_setup cors_defaults app in
      let '(ping_resource, app) := add_resource (py "/ping") app in
      let app := cors_add ping_resource app in
      let app := add_route_get ping_resource (handle_ping server) app in
      Ret (cors_add ping_resource app)
  end.

(** [await event.wait()] on an event nobody sets: the loop answers
    the requests that arrive, until the task is cancelled. *)
Definition event_wait (app : Application) (incoming : list Request) : M unit :=
  serve P app incoming ;;
  raise CancelledError.

(** [run] *)
Definition run (incoming : list Request) : M unit :=
  server <- Server_new ;;
  app <- of_outcome (_make_app server) ;;
  with_application_server app 443 true (event_wait app incoming).

(** The [__main__] block. The file handler is given its level and its
    formatter and is not used again: the block has no [addHandler]. *)
Definition main (incoming : list Request) : M unit :=
  Logging.root_setLevel Logging.DEBUG ;;
  file_handler <- Logging.FileHandler (py "log.log") ;;
  let file_handler := Logging.setLevel Logging.DEBUG file_handler in
  let formatter :=
    [Asctime; Lit (py " "); Levelname; Lit (py " "); Message] in
  let file_handler := Logging.setFormatter formatter file_handler in
  run incoming.

End Program.

(** The world a process starts in: the root logger warns and has no
    handler, nothing is written, no port is held. *)
Definition initial_world (env : gmap pystr pystr) : World :=
  {| environ := env; heap := ∅; root_level := Logging.WARNING;
     root_handlers := []; files := ∅; stderr := []; clock := 0;
     listening := []; connections := 0; trace := [] |}.

End Main.

(* ===================================================================== *)
(** ** Integer literals, as a grammar *)
(* ===================================================================== *)

(** The texts [int()] is documented to read in base 10: digits, where a
    single underscore may stand between two digits, after an optional
    sign, the whole between optional runs of white space. This is the
    description the parser above is compared with; it is not taken from
    the parser. *)
Module Literal.

Inductive Sign := NoSign | Plus | Minus.

(** A literal, cut into its parts: [more] lists the digits after the
    first, each with whether an underscore precedes it. *)
Record Literal := {
  lead : pystr;
  sign : Sign;
  first : N;
  more : list (bool * N);
  trail : pystr
}.

Definition sign_text (s : Sign) : pystr :=
  match s with
  | NoSign => []
  | Plus => [43]
  | Minus => [45]
  end.

Definition group_text (g : bool * N) : pystr :=
  if fst g then [95; snd g] else [snd g].

Definition groups_text (gs : list (bool * N)) : pystr :=
  flat_map group_text gs.

Definition text (l : Literal) : pystr :=
  lead l ++ sign_text (sign l) ++ first l :: groups_text (more l) ++ trail l.

Definition digit_chars (l : Literal) : pystr :=
  first l :: List.map snd (more l).

Definition digit_count (l : Literal) : N :=
  N.of_nat (length (digit_chars l)).

Section Classes.
(** [sp] tells the white space, [dg] the digits and their values. *)
Context (sp : N -> bool) (dg : N -> option N).

Definition is_digit (c : N) : bool :=
  match dg c with Some _ => true | None => false end.

Definition well_formed (l : Literal) : bool :=
  forallb sp (lead l) && forallb is_digit (digit_chars l)
  && forallb sp (trail l).

Definition place (a c : N) : N := a * 10 + default 0 (dg c).

Definition magnitude (l : Literal) : N :=
  fold_left place (digit_chars l) 0.

Definition value (l : Literal) : Z :=
  match sign l with
  | Minus => (- Z.of_N (magnitude l))%Z
  | _ => Z.of_N (magnitude l)
  end.
End Classes.

(** White space and digits for [int()] on a [str]: those of ASCII, and
    outside ASCII those of the Unicode database (a code point that is
    white space does not count as a digit). *)
Definition is_space (U : Unicode) (c : N) : bool :=
  PyInt.Py_ISSPACE c || ((128 <=? c) && ucd_isspace U c).

Definition digit_of (U : Unicode) (c : N) : option N :=
  if c <? 128 then PyInt.digit_value c
  else if ucd_isspace U c then None
  else ucd_todecimal U c.

(** [s] reads as the integer [v], with [n] digits. *)
Definition reads (U : Unicode) (s : pystr) (v : Z) (n : N) : Prop :=
  exists l, text l = s
            /\ well_formed (is_space U) (digit_of U) l = true
            /\ value (digit_of U) l = v
            /\ digit_count l = n.

(** The length guard lets a conversion of [n] digits through. *)
Definition within_limit (P : Platform) (n : N) : Prop :=
  PyInt.exceeds_limit (int_max_str_digits P) n = false.

(** The number of decimal digits of an integer. *)
Definition width (v : Z) : N :=
  N.of_nat (length (PyInt.digits_of (Z.abs_N v))).

End Literal.

(** Auxiliary notions for the comparison of the parser with the grammar. *)
Module LiteralAux.
Import PyInt Literal.

(** Well-formed over the ASCII classes the parser itself tests. *)
Definition ascii_wf : Literal -> bool := well_formed Py_ISSPACE digit_value.

(** The scan stops in front of [rest]: nothing there, or neither an
    underscore nor a digit. *)
Definition stops (rest : pystr) : bool :=
  match rest with
  | [] => true
  | r :: _ => negb (r =? 95) && negb (is_digit digit_value r)
  end.

(** The characters of a well-formed literal: white space, digits, a
    sign or an underscore. *)
Definition classified (sp : N -> bool) (dg : N -> option N) (c : N) : bool :=
  sp c || is_digit dg c || (c =? 43) || (c =? 45) || (c =? 95).

(** What the transformation makes of one code point. *)
Definition transform_char (U : Unicode) (c : N) : N :=
  if c <? 127 then c
  else if Py_UNICODE_ISSPACE U c then 32
  else match Py_UNICODE_TODECIMAL U c with
       | None => 63
       | Some d => 48 + d
       end.

(** The code points at which the transformation does not cut. *)
Definition kept (U : Unicode) (c : N) : bool :=
  (c <? 127) || Py_UNICODE_ISSPACE U c
  || match Py_UNICODE_TODECIMAL U c with Some _ => true | None => false end.

Definition map_literal (f : N -> N) (l : Literal) : Literal :=
  {| lead := List.map f (lead l);
     sign := sign l;
     first := f (first l);
     more := List.map (fun g => (fst g, f (snd g))) (more l);
     trail := List.map f (trail l) |}.

(** A run of digits without sign, underscores or white space. *)
Definition plain_literal (c0 : N) (cs : pystr) : Literal :=
  {| lead := []; sign := NoSign; first := c0;
     more := List.map (pair false) cs; trail := [] |}.

End LiteralAux.

(* ===================================================================== *)
(** ** Notions used to state the properties *)
(* ===================================================================== *)

Module Frames.
Import Web Main.

(** [w'] differs from [w] in what was logged at most. *)
Definition logged (w w' : World) : Prop :=
  environ w' = environ w /\ heap w' = heap w /\ clock w' = clock w
  /\ listening w' = listening w /\ connections w' = connections w
  /\ trace w' = trace w.

(** What [handle_ping] comes to, from the object and the header alone. *)
Definition ping_outcome (P : Platform) (server : option Server) (value : option pystr)
  : Outcome Response :=
  match value with
  | None => Raise TypeError
  | Some s =>
      match PyInt.int_of_str (unicode P) (int_max_str_digits P) s with
      | None => Raise ValueError
      | Some v =>
          match server with
          | None => Raise AttributeError
          | Some srv =>
              match PyInt.int_repr (int_max_str_digits P) (v + _step srv) with
              | None => Raise ValueError
              | Some t =>
                  Ret {| status := 200;
                         resp_headers :=
                           [(py "Content-Type", py "application/json; charset=utf-8")];
                         body := BodyText t |}
              end
          end
      end
  end.

(** The response a computation returned, if it returned. *)
Definition returned {A} (o : Outcome A) : option A :=
  match o with
  | Ret a => Some a
  | Raise _ => None
  end.

(** The response the handler builds for the integer [n]. *)
Definition json_200 (n : Z) : Response :=
  {| status := 200;
     resp_headers := [(py "Content-Type", py "application/json; charset=utf-8")];
     body := BodyText (PyInt.decimal n) |}.

(** A status of the 4xx family. *)
Definition client_error (code : N) : Prop := 400 <= code < 500.

(** The certificate or the key cannot be used: a path is not configured,
    or loading the pair fails (a file is missing or unreadable, or the key
    does not match the certificate). *)
Definition tls_material_unusable (P : Platform) (w : World) : Prop :=
  environ w !! py "SSL_CERT_PATH" = None
  \/ environ w !! py "SSL_PRIVATE_KEY_PATH" = None
  \/ exists certfile keyfile e,
       environ w !! py "SSL_CERT_PATH" = Some certfile
       /\ environ w !! py "SSL_PRIVATE_KEY_PATH" = Some keyfile
       /\ ssl_load_cert_chain P certfile keyfile = Some e.

(** The response the protocol sends for what a handler came to (no
    cancellation among the outcomes). *)
Definition answer (o : Outcome Response) : Response :=
  match o with
  | Ret r => r
  | Raise (HTTPException code) => error_response code
  | Raise _ => error_response 500
  end.

(** Every run of [c] takes a world to one related to it by [R]. *)
Definition respects (R : World -> World -> Prop) {A} (c : M A) : Prop :=
  forall w, R w (snd (c w)).

(** The root logger has no handler but the one [basicConfig] adds. *)
Definition basic_only (w : World) : Prop :=
  Forall (fun h => h = {| h_stream := Stderr; h_level := Logging.NOTSET;
                          h_formatter := Some Logging.BASIC_FORMAT |})
         (root_handlers w).

(** A piece that is not the time field of a formatter. *)
Definition no_stamp (piece : Piece) : Prop :=
  match piece with Stamp _ => False | _ => True end.

(** No line on the standard error stream has the time field of a
    formatter ([%(asctime)s]), as the lines of the file handler would. *)
Definition unstamped (w : World) : Prop :=
  Forall (Forall no_stamp) (stderr w).

(** No file was written, no line with a time, and the handlers are still
    the basic ones. *)
Definition files_untouched (w w' : World) : Prop :=
  basic_only w /\ unstamped w ->
  (basic_only w' /\ unstamped w') /\ files w' = files w.

Definition heap_untouched (w w' : World) : Prop := heap w' = heap w.

(** The application [_make_app] returns for a server object, when it
    returns one: the route of the static directory, then the route of
    /ping with the handler of the object, and CORS enabled on the
    second. *)
Definition application (P : Platform) (self : nat) : Application :=
  {| router :=
       [ {| res_pattern := StaticResource (py "/page");
            res_get := Some (static_handle P (py "/page")
                                           (py "/home/ubuntu/theClimberDiary")) |};
         {| res_pattern := PlainResource (py "/ping");
            res_get := Some (handle_ping P self) |} ];
     cors := Some {| cors_defaults :=
                       [(py "*", {| allow_credentials := false;
                                    expose_headers := AllHeaders;
                                    allow_headers := AllHeaders |})];
                     cors_resources := [1%nat] |} |}.
End Frames.

(* ===================================================================== *)
(** ** Concrete inputs *)
(* ===================================================================== *)

Module Sample.
Import Web Main.

(** CPython 3.11 with its defaults, on a machine where the certificate
    and the key load and the port is free. *)
Definition cpython : Platform :=
  {| unicode := ucd_excerpt;
     int_max_str_digits := 4300;
     getpid := 4242;
     ssl_create_default_context := fun _ => None;
     ssl_load_cert_chain := fun _ _ => None;
     port_free := fun _ => true;
     is_dir := fun path => pystr_eqb path (py "/home/ubuntu/theClimberDiary");
     static_file := fun _ name =>
                      if pystr_eqb name (py "index.html")
                      then inr (py "<html></html>") else inl 404;
     join_names := str_join (py ",") |}.

(** The same machine, but the key does not match the certificate. *)
Definition cpython_bad_key : Platform :=
  {| unicode := ucd_excerpt;
     int_max_str_digits := 4300;
     getpid := 4242;
     ssl_create_default_context := fun _ => None;
     ssl_load_cert_chain := fun _ _ => Some (SSLError (py "KEY_VALUES_MISMATCH"));
     port_free := fun _ => true;
     is_dir := fun path => pystr_eqb path (py "/home/ubuntu/theClimberDiary");
     static_file := fun _ _ => inl 404;
     join_names := str_join (py ",") |}.

Definition env : gmap pystr pystr :=
  <[py "SSL_CERT_PATH" := py "/etc/ssl/site.pem"]>
    (<[py "SSL_PRIVATE_KEY_PATH" := py "/etc/ssl/site.key"]> ∅).

(** The world before the site is started: the server object exists. *)
Definition serving_not_yet : World :=
  with_heap {[ 0%nat := Server_init ]} (initial_world env).

(** A world in which the server object exists and the site listens. *)
Definition serving : World :=
  with_net 0 [443] 0 [EvListen 443 true]
    (with_heap {[ 0%nat := Server_init ]} (initial_world env)).

Definition ping (hs : list (pystr * pystr)) : Request :=
  {| req_path := py "/ping"; req_headers := hs |}.

Definition ping_5 : Request := ping [(py "value", py "5")].
Definition ping_abc : Request := ping [(py "value", py "abc")].
Definition ping_bare : Request := ping [(py "Accept", py "*/*")].
Definition ping_spaced : Request := ping [(py "value", py " +5 ")].
Definition ping_5_cross : Request :=
  ping [(py "Origin", py "https://example.org"); (py "Value", py "5")].
Definition ping_long : Request := ping [(py "value", repeat 49 4301)].
Definition ping_nines : Request := ping [(py "value", repeat 57 4300)].
Definition page_cross : Request :=
  {| req_path := py "/page/index.html";
     req_headers := [(py "Origin", py "https://example.org")] |}.

End Sample.

(* ===================================================================== *)
(** ** What a run shows *)
(* ===================================================================== *)

Module Observations.
Import Web Main Frames.

(** The handler [logging.basicConfig()] installs. *)
Definition basic_handler : Handler :=
  {| h_stream := Stderr; h_level := Logging.NOTSET;
     h_formatter := Some Logging.BASIC_FORMAT |}.

(** A line of the root logger at level INFO in the basic format. *)
Definition basic_line (msg : pystr) : LogLine :=
  [Text (py "INFO"); Text (py ":"); Text (py "root"); Text (py ":"); Text msg].

(** The line of aiohttp's record for an exception that left a handler,
    in the basic format. *)
Definition error_line (e : PyExc) : LogLine :=
  [Text (py "ERROR"); Text (py ":"); Text (py "aiohttp.server"); Text (py ":");
   ErrorMessage e].

(** The line of aiohttp's access record of a request, in the basic
    format. *)
Definition access_line (path : pystr) (code : N) : LogLine :=
  [Text (py "INFO"); Text (py ":"); Text (py "aiohttp.access"); Text (py ":");
   AccessMessage path code].

(** The root logger lets INFO through and writes to the standard error
    stream only: it has no handler yet, or the basic one. *)
Definition logs_to_stderr (w : World) : Prop :=
  root_level w <= Logging.INFO
  /\ (root_handlers w = [] \/ root_handlers w = [basic_handler]).

(** The world after one line on the standard error stream. *)
Definition logged_line (msg : pystr) (w : World) : World :=
  with_stderr (stderr w ++ [basic_line msg]) (with_root_handlers [basic_handler] w).

(** The line of a record at [level], if the root logger at level [root]
    lets it through. *)
Definition lines_at (root level : N) (line : LogLine) : list LogLine :=
  if root <=? level then [line] else [].

(** [w'] has the logging state of [w] with [lines] more on the standard
    error stream, when the root logger of [w] has the basic handler
    alone. *)
Definition wrote (lines : list LogLine) (w w' : World) : Prop :=
  root_handlers w = [basic_handler] ->
  root_level w' = root_level w /\ root_handlers w' = [basic_handler]
  /\ files w' = files w /\ stderr w' = stderr w ++ lines.

(** The message of [handle_ping] for a request. *)
Definition ping_message (request : Request) : pystr :=
  py "Handling ping with value "
  ++ format_value (headers_get (req_headers request) (py "value")).

Definition is_ping (request : Request) : bool :=
  pystr_eqb (req_path request) (py "/ping").

(** The TLS material loads: the context is made with the CA file
    configured, if any, both paths are configured and the pair loads. *)
Definition tls_ready (P : Platform) (w : World) : Prop :=
  ssl_create_default_context P (environ w !! py "SSL_CA_PATH") = None
  /\ exists certfile keyfile,
       environ w !! py "SSL_CERT_PATH" = Some certfile
       /\ environ w !! py "SSL_PRIVATE_KEY_PATH" = Some keyfile
       /\ ssl_load_cert_chain P certfile keyfile = None.

(** The error the TLS set-up of [with_application_server] ends with, if
    any, in the order the code meets them. *)
Definition tls_failure (P : Platform) (w : World) : option PyExc :=
  match ssl_create_default_context P (environ w !! py "SSL_CA_PATH") with
  | Some e => Some e
  | None =>
      match environ w !! py "SSL_CERT_PATH" with
      | None => Some (KeyError (py "SSL_CERT_PATH"))
      | Some certfile =>
          match environ w !! py "SSL_PRIVATE_KEY_PATH" with
          | None => Some (KeyError (py "SSL_PRIVATE_KEY_PATH"))
          | Some keyfile => ssl_load_cert_chain P certfile keyfile
          end
      end
  end.

(** What the start of the site needs: the TLS material when TLS is
    asked for, and a port nobody holds. *)
Definition startup_ready (P : Platform) (port : N) (use_ssl : bool) (w : World)
  : Prop :=
  (use_ssl = true -> tls_ready P w)
  /\ port_free P port = true
  /\ port ∉ listening w.

(** The directory of the static route exists. *)
Definition static_dir_exists (P : Platform) : Prop :=
  is_dir P (py "/home/ubuntu/theClimberDiary") = true.

(** The world once the site listens on [port]. *)
Definition listening_on (port : N) (tls : bool) (w : World) : World :=
  with_net (clock w) (listening w ++ [port]) (connections w)
           (trace w ++ [EvListen port tls]) w.

(** The world once a response of the given status was sent. *)
Definition responded (code : N) (w : World) : World :=
  with_net (clock w) (listening w) (connections w) (trace w ++ [EvResponse code]) w.

(** The world once a response was sent for a request and its access
    record was handed to the logger. *)
Definition answered (request : Request) (code : N) (w : World) : World :=
  snd (Logging.log (py "aiohttp.access") Logging.INFO
         (AccessMessage (req_path request) code) (responded code w)).

(** What the CORS configuration of [_make_app] adds to a response on the
    route of /ping: nothing without an [Origin], else the headers exposed
    and the origin allowed. *)
Definition with_cors (P : Platform) (request : Request) (response : Response)
  : Response :=
  match headers_get (req_headers request) (py "Origin") with
  | None => response
  | Some origin =>
      set_header (py "Access-Control-Allow-Origin") origin
        (set_header (py "Access-Control-Expose-Headers")
           (join_names P (List.filter (fun n => negb (is_simple_header n))
                                      (List.map fst (resp_headers response))))
           response)
  end.

(** The answer to a GET request on a path other than /ping: the file of
    the static directory when the path is under /page, or the status of
    the refusal, or 404 when no route matches. *)
Definition plain_answer (P : Platform) (request : Request) : Response :=
  if matches (StaticResource (py "/page")) (req_path request) then
    match static_file P (py "/home/ubuntu/theClimberDiary")
                      (drop 6 (req_path request)) with
    | inr content => {| status := 200; resp_headers := []; body := BodyFile content |}
    | inl refusal => error_response refusal
    end
  else error_response 404.

(** The answer of the application to a GET request, from the request and
    the server object alone. *)
Definition response_to (P : Platform) (server : option Server) (request : Request)
  : Response :=
  if is_ping request
  then with_cors P request
         (answer (ping_outcome P server
                    (headers_get (req_headers request) (py "value"))))
  else plain_answer P request.

(** The line of the failure of a ping, if it fails. *)
Definition failure_lines (P : Platform) (root : N) (server : option Server)
  (request : Request) : list LogLine :=
  if is_ping request then
    match ping_outcome P server (headers_get (req_headers request) (py "value")) with
    | Ret _ => []
    | Raise e => lines_at root Logging.ERROR (error_line e)
    end
  else [].

(** The lines a request leaves through the basic handler, while the
    root logger is at level [root]: for a ping the line of the handler,
    then the record of the exception if the handler raised; for every
    request the access record. *)
Definition request_lines (P : Platform) (root : N) (server : option Server)
  (request : Request) : list LogLine :=
  (if is_ping request
   then lines_at root Logging.INFO (basic_line (ping_message request))
   else [])
  ++ failure_lines P root server request
  ++ lines_at root Logging.INFO
       (access_line (req_path request) (status (response_to P server request))).

(** The logging side of [w'] is that of [w]. *)
Definition same_log (w w' : World) : Prop :=
  root_level w' = root_level w /\ root_handlers w' = root_handlers w
  /\ stderr w' = stderr w /\ files w' = files w.

(** A machine on which port 443 is taken by another process. *)
Definition cpython_port_taken : Platform :=
  {| unicode := ucd_excerpt;
     int_max_str_digits := 4300;
     getpid := 4242;
     ssl_create_default_context := fun _ => None;
     ssl_load_cert_chain := fun _ _ => None;
     port_free := fun port => negb (port =? 443);
     is_dir := fun path => pystr_eqb path (py "/home/ubuntu/theClimberDiary");
     static_file := fun _ _ => inl 404;
     join_names := str_join (py ",") |}.

(** A machine on which the CA file cannot be read. *)
Definition cpython_bad_ca : Platform :=
  {| unicode := ucd_excerpt;
     int_max_str_digits := 4300;
     getpid := 4242;
     ssl_create_default_context :=
       fun cafile => match cafile with
                     | Some _ => Some (OSError (py "No such file or directory"))
                     | None => None
                     end;
     ssl_load_cert_chain := fun _ _ => None;
     port_free := fun _ => true;
     is_dir := fun path => pystr_eqb path (py "/home/ubuntu/theClimberDiary");
     static_file := fun _ _ => inl 404;
     join_names := str_join (py ",") |}.

(** A machine without the directory of the static route. *)
Definition cpython_no_dir : Platform :=
  {| unicode := ucd_excerpt;
     int_max_str_digits := 4300;
     getpid := 4242;
     ssl_create_default_context := fun _ => None;
     ssl_load_cert_chain := fun _ _ => None;
     port_free := fun _ => true;
     is_dir := fun _ => false;
     static_file := fun _ _ => inl 404;
     join_names := str_join (py ",") |}.

(** The process as the [__main__] block leaves it for [run]: the root
    logger at DEBUG, no handler on it, the server object made, the site
    listening. *)
Definition serving_debug : World :=
  with_root_level Logging.DEBUG Sample.serving.


(** An environment that names a CA file and nothing else. *)
Definition env_ca_only : gmap pystr pystr :=
  <[py "SSL_CA_PATH" := py "/etc/ssl/ca.pem"]> ∅.

Definition ping_float : Request := Sample.ping [(py "value", py "5.0")].

(** A near miss of the route: a slash too many. *)
Definition ping_slash : Request :=
  {| req_path := py "/ping/";
     req_headers := [(py "Origin", py "https://example.org"); (py "value", py "5")] |}.

(** One thousand, spelled with a fullwidth digit, underscores, a plus
    sign and white space around. *)
Definition thousand_spelled : Literal.Literal :=
  {| Literal.lead := [32]; Literal.sign := Literal.Plus; Literal.first := 0xFF11;
     Literal.more := [(true, 48); (false, 48); (false, 48)];
     Literal.trail := [0x3000] |}.

(** One thousand in plain digits. *)
Definition thousand_plain : Literal.Literal :=
  {| Literal.lead := []; Literal.sign := Literal.NoSign; Literal.first := 49;
     Literal.more := [(false, 48); (false, 48); (false, 48)];
     Literal.trail := [] |}.

(** The header under another case, before a second one. *)
Definition ping_twice : Request :=
  Sample.ping [(py "Accept", py "*/*"); (py "VALUE", py "5"); (py "value", py "abc")].

End Observations.

(* ===================================================================== *)
(** ** The parser against the grammar *)
(* ===================================================================== *)

Module IntFacts.
Import PyInt Literal LiteralAux.

(** The model on texts whose reading by CPython 3.11 is known. *)
Example int_accepts :
  List.map (int_of_str ucd_excerpt 4300)
    [py " +5 "; py "5"; py "-5"; py "1_000"; py "007"; py "-0";
     [0x663; 95; 0x664]; [0xA0; 53]; [0x2003; 32; 55; 0x3000]; [0xFF15];
     [9; 10; 11; 12; 13; 32; 53]]
  = [Some 5; Some 5; Some (-5); Some 1000; Some 7; Some 0;
     Some 34; Some 5; Some 7; Some 5; Some 5]%Z.
Proof. reflexivity. Qed.

Example int_rejects :
  List.map (int_of_str ucd_excerpt 4300)
    [py "abc"; py ""; py " "; py "+"; py "-"; py "+ 5"; py "- 5"; py "+-5";
     py "_1"; py "1_"; py "1__0"; py "0x10"; py "5.0"; py "5e3"; py "5?";
     [28; 53]; [53; 0]; [53; 127]; [127; 53]; [0xB2]; [0xBD]]
  = repeat None 21.
Proof. reflexivity. Qed.

Example decimal_samples :
  List.map decimal [0; 7; -3; 10; 99; 100; -100; 1234567890]%Z
  = [py "0"; py "7"; py "-3"; py "10"; py "99"; py "100"; py "-100";
     py "1234567890"].
Proof. reflexivity. Qed.

Lemma digit_value_Some c d :
  digit_value c = Some d <-> 48 <= c <= 57 /\ d = c - 48.
Proof.
  unfold digit_value.
  destruct (N.leb_spec 48 c), (N.leb_spec c 57); simpl;
    split; try (intros [= <-]; lia); try (intros [? ->]; (reflexivity || lia)).
Qed.

Lemma digit_not_space c :
  is_digit digit_value c = true -> Py_ISSPACE c = false.
Proof.
  unfold is_digit. destruct (digit_value c) as [d|] eqn:E; [|discriminate].
  apply digit_value_Some in E. intros _. unfold Py_ISSPACE.
  destruct (N.leb_spec 9 c), (N.leb_spec c 13), (N.eqb_spec c 32); simpl; lia || reflexivity.
Qed.

Lemma digit_not_mark c :
  is_digit digit_value c = true ->
  (c =? 43) = false /\ (c =? 45) = false /\ (c =? 95) = false.
Proof.
  unfold is_digit. destruct (digit_value c) as [d|] eqn:E; [|discriminate].
  apply digit_value_Some in E. intros _.
  repeat split; apply N.eqb_neq; lia.
Qed.

Lemma skip_space_app ws s :
  forallb Py_ISSPACE ws = true -> skip_space (ws ++ s) = skip_space s.
Proof.
  induction ws as [|c ws IH]; simpl; [reflexivity|].
  intros [Hc Hws]%andb_true_iff. rewrite Hc. auto.
Qed.

Lemma skip_space_stop c s :
  Py_ISSPACE c = false -> skip_space (c :: s) = c :: s.
Proof. simpl. intros ->. reflexivity. Qed.

Lemma skip_space_all ws :
  forallb Py_ISSPACE ws = true -> skip_space ws = [].
Proof.
  intros H. rewrite <- (app_nil_r ws). rewrite skip_space_app by exact H. reflexivity.
Qed.

(** What [skip_space] removes is white space, and it stops at the first
    character that is not. *)
Lemma skip_space_split s :
  exists ws, s = ws ++ skip_space s /\ forallb Py_ISSPACE ws = true.
Proof.
  induction s as [|c s [ws [E H]]]; simpl.
  - exists []. auto.
  - destruct (Py_ISSPACE c) eqn:Hc.
    + exists (c :: ws). simpl. rewrite Hc, H. split; [congruence | reflexivity].
    + exists []. auto.
Qed.

Lemma skip_space_nil s : skip_space s = [] -> forallb Py_ISSPACE s = true.
Proof.
  intros H. destruct (skip_space_split s) as [ws [E Hws]].
  rewrite H, app_nil_r in E. congruence.
Qed.

Lemma scan_stops rest n a :
  stops rest = true -> scan rest false n a = Some (n, a, rest).
Proof.
  destruct rest as [|r rest]; [reflexivity|]. simpl. unfold is_digit.
  destruct (r =? 95); [discriminate|].
  destruct (digit_value r); [discriminate | reflexivity].
Qed.

Lemma space_stops rest :
  forallb Py_ISSPACE rest = true -> stops rest = true.
Proof.
  destruct rest as [|r rest]; [reflexivity|]. simpl.
  intros [Hr _]%andb_true_iff.
  destruct (is_digit digit_value r) eqn:Hd.
  - apply digit_not_space in Hd. congruence.
  - rewrite andb_true_r. apply negb_true_iff, N.eqb_neq. intros ->. discriminate.
Qed.

(** Scanning the digits of a literal after the first. *)
Lemma scan_groups gs : forall rest n a,
  forallb (is_digit digit_value) (List.map snd gs) = true ->
  stops rest = true ->
  scan (groups_text gs ++ rest) false n a
  = Some (n + N.of_nat (length gs),
          fold_left (place digit_value) (List.map snd gs) a, rest).
Proof.
  induction gs as [|[us c] gs IH]; intros rest n a Hd Hrest.
  - simpl. rewrite N.add_0_r. apply scan_stops, Hrest.
  - simpl in Hd. apply andb_true_iff in Hd as [Hc Hd].
    destruct (digit_not_mark c Hc) as (_ & _ & H95).
    unfold is_digit in Hc. destruct (digit_value c) as [d|] eqn:Ed; [|discriminate].
    change (groups_text ((us, c) :: gs)) with (group_text (us, c) ++ groups_text gs).
    rewrite <- app_assoc.
    assert (Hstep : forall p, scan (c :: groups_text gs ++ rest) p n a
              = Some (n + N.of_nat (length ((us, c) :: gs)),
                      fold_left (place digit_value) (List.map snd ((us, c) :: gs)) a, rest)).
    { intros p. simpl scan. rewrite H95, Ed. rewrite IH by assumption.
      simpl length. simpl fold_left.
      replace (place digit_value a c) with (a * 10 + d)
        by (unfold place; rewrite Ed; reflexivity).
      f_equal. f_equal. f_equal. lia. }
    destruct us; simpl group_text; simpl app.
    + change (scan (95 :: c :: groups_text gs ++ rest) false n a)
        with (scan (c :: groups_text gs ++ rest) true n a). apply Hstep.
    + apply Hstep.
Qed.

(** The other way round: what a successful scan has read is a run of
    digits, each alone or after one underscore. *)
Lemma scan_inv s : forall n a n' a' rest,
  (scan s false n a = Some (n', a', rest) ->
   exists gs, s = groups_text gs ++ rest
              /\ forallb (is_digit digit_value) (List.map snd gs) = true
              /\ n' = n + N.of_nat (length gs)
              /\ a' = fold_left (place digit_value) (List.map snd gs) a)
  /\ (scan s true n a = Some (n', a', rest) ->
      exists c gs, s = c :: groups_text gs ++ rest
              /\ forallb (is_digit digit_value) (c :: List.map snd gs) = true
              /\ n' = n + N.of_nat (S (length gs))
              /\ a' = fold_left (place digit_value) (c :: List.map snd gs) a).
Proof.
  induction s as [|c s IH]; intros n a n' a' rest.
  - split; simpl; [|discriminate].
    intros [= <- <- <-]. exists []. simpl. repeat split; lia.
  - simpl. destruct (c =? 95) eqn:E95.
    + split; [|discriminate]. intros H.
      apply N.eqb_eq in E95. subst c.
      apply (proj2 (IH n a n' a' rest)) in H as (c & gs & -> & Hd & -> & ->).
      exists ((true, c) :: gs). repeat split; assumption || reflexivity.
    + destruct (digit_value c) as [d|] eqn:Ed.
      * assert (Hc : is_digit digit_value c = true) by (unfold is_digit; rewrite Ed; reflexivity).
        assert (Hp : place digit_value a c = a * 10 + d) by (unfold place; rewrite Ed; reflexivity).
        split; intros H;
          apply (proj1 (IH (n + 1) (a * 10 + d) n' a' rest)) in H as (gs & -> & Hd & -> & ->).
        -- exists ((false, c) :: gs). simpl. rewrite Hc, Hd, Hp.
           repeat split; lia.
        -- exists c, gs. simpl. rewrite Hc, Hd, Hp. repeat split; lia.
      * split; [|discriminate]. intros [= <- <- <-]. exists []. simpl.
        repeat split; lia.
Qed.

Lemma digit_count_eq l : digit_count l = N.of_nat (S (length (more l))).
Proof. unfold digit_count, digit_chars. simpl. rewrite length_map. reflexivity. Qed.

(** The parser reads every well-formed ASCII literal, unless it is too
    long. *)
Lemma parse_literal_limit m l :
  ascii_wf l = true ->
  PyLong_FromString m (text l)
  = if exceeds_limit m (digit_count l) then None else Some (value digit_value l).
Proof.
  destruct l as [ld sg c0 gs tr]. unfold ascii_wf, well_formed, text.
  cbn [lead sign first more trail digit_chars].
  intros [[Hld Hdig]%andb_true_iff Htr]%andb_true_iff.
  rewrite digit_count_eq. cbn [more].
  pose proof Hdig as Hdig'. simpl in Hdig'. apply andb_true_iff in Hdig' as [Hc0 _].
  pose proof (digit_not_space _ Hc0) as Hns.
  destruct (digit_not_mark _ Hc0) as (H43 & H45 & H95).
  assert (Hscan : scan (c0 :: groups_text gs ++ tr) false 0 0
                  = Some (N.of_nat (S (length gs)),
                          fold_left (place digit_value) (c0 :: List.map snd gs) 0, tr)).
  { change (c0 :: groups_text gs ++ tr) with (groups_text ((false, c0) :: gs) ++ tr).
    rewrite scan_groups; [reflexivity | exact Hdig | apply space_stops, Htr]. }
  assert (Hbody : forall negative : bool,
    (if starts_with_underscore (c0 :: groups_text gs ++ tr) then None
     else match scan (c0 :: groups_text gs ++ tr) false 0 0 with
          | None => None
          | Some (digits, acc, rest) =>
              if exceeds_limit m digits then None
              else if digits =? 0 then None
              else match skip_space rest with
                   | [] => Some (if negative then (- Z.of_N acc)%Z else Z.of_N acc)
                   | _ :: _ => None
                   end
          end)
    = if exceeds_limit m (N.of_nat (S (length gs))) then None
      else Some (if negative
                 then Z.opp (Z.of_N (fold_left (place digit_value) (c0 :: List.map snd gs) 0))
                 else Z.of_N (fold_left (place digit_value) (c0 :: List.map snd gs) 0))).
  { intros negative. cbn [starts_with_underscore]. rewrite H95, Hscan.
    destruct (exceeds_limit m (N.of_nat (S (length gs)))); [reflexivity|].
    replace (N.of_nat (S (length gs)) =? 0) with false by (symmetry; apply N.eqb_neq; lia).
    rewrite (skip_space_all _ Htr). reflexivity. }
  unfold PyLong_FromString. rewrite skip_space_app by exact Hld.
  destruct sg; cbn [sign_text app value sign magnitude digit_chars first more].
  - rewrite skip_space_stop by exact Hns. cbn [read_sign]. rewrite H43, H45.
    apply (Hbody false).
  - rewrite skip_space_stop by reflexivity. cbn [read_sign]. apply (Hbody false).
  - rewrite skip_space_stop by reflexivity. cbn [read_sign]. apply (Hbody true).
Qed.

Lemma parse_literal m l :
  ascii_wf l = true ->
  exceeds_limit m (digit_count l) = false ->
  PyLong_FromString m (text l) = Some (value digit_value l).
Proof. intros Hwf Hlim. rewrite parse_literal_limit by exact Hwf. rewrite Hlim. reflexivity. Qed.

(** Whatever the parser reads is a well-formed ASCII literal within the
    limit, and the result is its value. *)
Lemma parse_inv m t v :
  PyLong_FromString m t = Some v ->
  exists l, text l = t /\ ascii_wf l = true /\ value digit_value l = v
            /\ exceeds_limit m (digit_count l) = false.
Proof.
  unfold PyLong_FromString.
  destruct (skip_space_split t) as [ws [Et Hws]].
  destruct (read_sign (skip_space t)) as [negative s2] eqn:Esign.
  destruct (starts_with_underscore s2) eqn:Hus; [discriminate|].
  destruct (scan s2 false 0 0) as [[[digits acc] rest]|] eqn:Hscan; [|discriminate].
  destruct (exceeds_limit m digits) eqn:Hlim; [discriminate|].
  destruct (digits =? 0) eqn:Hz; [discriminate|].
  destruct (skip_space rest) eqn:Hrest; [|discriminate].
  intros [= <-].
  apply skip_space_nil in Hrest. apply N.eqb_neq in Hz.
  apply (proj1 (scan_inv s2 0 0 digits acc rest)) in Hscan
    as (gs & Es2 & Hdig & Hn & Hacc).
  destruct gs as [|[us c0] gs]; [simpl in Hn; lia|].
  assert (us = false) as ->.
  { destruct us; [|reflexivity]. subst s2. discriminate. }
  assert (exists sg, skip_space t = sign_text sg ++ s2
                     /\ negative = match sg with Minus => true | _ => false end)
    as (sg & Esg & Hneg).
  { destruct (skip_space t) as [|c r]; cbn [read_sign] in Esign.
    - injection Esign as <- <-. exists NoSign. auto.
    - destruct (N.eqb_spec c 43) as [->|].
      { injection Esign as <- <-. exists Plus. auto. }
      destruct (N.eqb_spec c 45) as [->|].
      { injection Esign as <- <-. exists Minus. auto. }
      injection Esign as <- <-. exists NoSign. auto. }
  exists {| lead := ws; sign := sg; first := c0; more := gs; trail := rest |}.
  split; [|split; [|split]].
  - unfold text. cbn [lead sign first more trail].
    transitivity (ws ++ skip_space t); [|symmetry; exact Et].
    rewrite Esg, Es2. reflexivity.
  - unfold ascii_wf, well_formed. cbn [lead trail digit_chars first more].
    rewrite Hws, Hrest. simpl in Hdig. simpl. rewrite Hdig. reflexivity.
  - unfold value, magnitude. cbn [sign digit_chars first more].
    subst acc negative. destruct sg; reflexivity.
  - rewrite digit_count_eq. cbn [more]. subst digits. simpl in Hlim. exact Hlim.
Qed.

Lemma well_formed_classified sp dg l :
  well_formed sp dg l = true -> forallb (classified sp dg) (text l) = true.
Proof.
  destruct l as [ld sg c0 gs tr]. unfold well_formed, text.
  cbn [lead sign first more trail digit_chars].
  intros [[Hld Hdig]%andb_true_iff Htr]%andb_true_iff.
  assert (Hsp : forall s, forallb sp s = true -> forallb (classified sp dg) s = true).
  { intros s Hs. apply forallb_forall. intros x Hx.
    unfold classified. rewrite (proj1 (forallb_forall sp s) Hs x Hx). reflexivity. }
  rewrite !forallb_app. rewrite (Hsp _ Hld). simpl.
  assert (Hg : forall gs', forallb (is_digit dg) (List.map snd gs') = true ->
               forallb (classified sp dg) (groups_text gs') = true).
  { induction gs' as [|[us c] gs' IH]; [reflexivity|]. simpl.
    intros [Hc Hgs]%andb_true_iff.
    assert (classified sp dg c = true) as Hcc.
    { unfold classified. rewrite Hc. rewrite orb_true_r. reflexivity. }
    destruct us; simpl; rewrite Hcc, (IH Hgs); unfold classified;
      rewrite ?orb_true_r; reflexivity. }
  simpl in Hdig. apply andb_true_iff in Hdig as [Hc0 Hdig].
  rewrite forallb_app, (Hg _ Hdig), (Hsp _ Htr), !andb_true_r.
  assert (classified sp dg c0 = true) as Hcc.
  { unfold classified. rewrite Hc0. rewrite orb_true_r. reflexivity. }
  destruct sg; simpl; rewrite Hcc; [reflexivity | |]; unfold classified.
  - destruct (sp 43), (is_digit dg 43); reflexivity.
  - destruct (sp 45), (is_digit dg 45); reflexivity.
Qed.

(** *** From ASCII to Unicode *)

Section Transform.
Context (U : Unicode).

Ltac compare_all :=
  repeat match goal with
         | |- context [?a <=? ?b] => destruct (N.leb_spec a b); try lia
         | |- context [?a <? ?b] => destruct (N.ltb_spec a b); try lia
         | |- context [?a =? ?b] => destruct (N.eqb_spec a b); try lia
         end.

Ltac tr_cases c :=
  unfold transform_char, Py_UNICODE_ISSPACE, Py_UNICODE_TODECIMAL,
    is_space, digit_of, digit_value, Py_ISSPACE, kept, classified, is_digit;
  destruct (N.ltb_spec c 127); destruct (N.ltb_spec c 128); try lia;
  destruct (N.leb_spec 128 c); try lia.

Lemma transform_char_space c :
  Py_ISSPACE (transform_char U c) = is_space U c.
Proof.
  tr_cases c; cbn [andb orb].
  - rewrite orb_false_r. reflexivity.
  - assert (c = 127) as -> by lia. reflexivity.
  - destruct (ucd_isspace U c); [cbn; compare_all; reflexivity|].
    destruct (ucd_todecimal U c) as [d|] eqn:Ed.
    + apply ucd_todecimal_range in Ed. compare_all; reflexivity.
    + cbn. compare_all; reflexivity.
Qed.

Lemma transform_char_digit c :
  digit_value (transform_char U c) = digit_of U c.
Proof.
  tr_cases c; cbn [andb orb]; [reflexivity | |].
  - assert (c = 127) as -> by lia. reflexivity.
  - destruct (ucd_isspace U c); [reflexivity|].
    destruct (ucd_todecimal U c) as [d|] eqn:Ed; [|reflexivity].
    apply ucd_todecimal_range in Ed. compare_all. simpl. f_equal. lia.
Qed.

Lemma transform_char_is_digit c :
  is_digit digit_value (transform_char U c) = is_digit (digit_of U) c.
Proof. unfold is_digit. rewrite transform_char_digit. reflexivity. Qed.

(** The signs and the underscore are met after the transformation
    only where they stood before. *)
Lemma transform_char_mark c x :
  x = 43 \/ x = 45 \/ x = 95 -> transform_char U c = x -> c = x.
Proof.
  intros Hx. unfold transform_char, Py_UNICODE_ISSPACE, Py_UNICODE_TODECIMAL.
  destruct (N.ltb_spec c 127); [auto|].
  destruct (N.ltb_spec c 128).
  - assert (c = 127) as -> by lia. cbn. lia.
  - destruct (ucd_isspace U c); [lia|].
    destruct (ucd_todecimal U c) as [d|] eqn:Ed; [|lia].
    apply ucd_todecimal_range in Ed. lia.
Qed.

Lemma transform_char_low c : c < 127 -> transform_char U c = c.
Proof. intros H. unfold transform_char. destruct (N.ltb_spec c 127); [reflexivity | lia]. Qed.

Lemma classified_kept c :
  classified (is_space U) (digit_of U) c = true -> kept U c = true.
Proof.
  intros Hc. unfold kept. destruct (N.ltb_spec c 127); [reflexivity|].
  cbn [orb]. unfold Py_UNICODE_ISSPACE, Py_UNICODE_TODECIMAL.
  destruct (N.ltb_spec c 128).
  - assert (c = 127) as -> by lia. discriminate Hc.
  - revert Hc. unfold classified, is_space, is_digit, digit_of, Py_ISSPACE.
    destruct (ucd_isspace U c); [reflexivity|].
    destruct (ucd_todecimal U c); [reflexivity|].
    compare_all; discriminate.
Qed.

Lemma classified_low c :
  classified (is_space U) (digit_of U) c = true -> c < 128 -> c < 127.
Proof.
  intros Hc Hlt. destruct (N.eq_dec c 127) as [->|]; [|lia]. discriminate.
Qed.

Lemma transform_loop_kept s :
  forallb (kept U) s = true ->
  transform_loop U s = List.map (transform_char U) s.
Proof.
  induction s as [|c s IH]; [reflexivity|]. simpl.
  intros [Hc Hs]%andb_true_iff. rewrite <- (IH Hs).
  unfold kept in Hc. unfold transform_char.
  destruct (c <? 127); [reflexivity|].
  destruct (Py_UNICODE_ISSPACE U c); [reflexivity|].
  destruct (Py_UNICODE_TODECIMAL U c); [reflexivity | discriminate].
Qed.

Lemma transform_loop_cut s :
  forallb (kept U) s = false -> In 63 (transform_loop U s).
Proof.
  induction s as [|c s IH]; [discriminate|]. simpl.
  destruct (kept U c) eqn:Hc; simpl.
  - intros Hs. specialize (IH Hs). unfold kept in Hc.
    destruct (c <? 127); [right; exact IH|].
    destruct (Py_UNICODE_ISSPACE U c); [right; exact IH|].
    destruct (Py_UNICODE_TODECIMAL U c); [right; exact IH | discriminate].
  - intros _. unfold kept in Hc.
    destruct (c <? 127); [discriminate|].
    destruct (Py_UNICODE_ISSPACE U c); [discriminate|].
    destruct (Py_UNICODE_TODECIMAL U c); [discriminate | left; reflexivity].
Qed.

(** On a text all of whose characters may stand in a literal, the
    transformation works character by character. *)
Lemma transform_classified s :
  forallb (classified (is_space U) (digit_of U)) s = true ->
  transform U s = List.map (transform_char U) s.
Proof.
  intros Hs. unfold transform.
  destruct (forallb (fun ch => ch <? 128) s) eqn:Hascii.
  - symmetry. rewrite <- (map_id s) at 2. apply map_ext_in.
    intros c Hc. apply transform_char_low.
    apply classified_low.
    + exact (proj1 (forallb_forall _ s) Hs c Hc).
    + apply N.ltb_lt. exact (proj1 (forallb_forall _ s) Hascii c Hc).
  - apply transform_loop_kept. apply forallb_forall. intros c Hc.
    apply classified_kept. exact (proj1 (forallb_forall _ s) Hs c Hc).
Qed.
End Transform.

Section MapLiteral.
Context (f : N -> N).
Hypothesis fixes_marks : f 43 = 43 /\ f 45 = 45 /\ f 95 = 95.
Hypothesis marks_only : forall c x, x = 43 \/ x = 45 \/ x = 95 -> f c = x -> c = x.

Lemma groups_text_map gs :
  groups_text (List.map (fun g => (fst g, f (snd g))) gs)
  = List.map f (groups_text gs).
Proof.
  destruct fixes_marks as (_ & _ & H95).
  induction gs as [|[us c] gs IH]; [reflexivity|].
  unfold groups_text in *. simpl. rewrite IH, map_app.
  destruct us; simpl; rewrite ?H95; reflexivity.
Qed.

Lemma text_map_literal l : text (map_literal f l) = List.map f (text l).
Proof.
  destruct fixes_marks as (H43 & H45 & _).
  destruct l as [ld sg c0 gs tr]. unfold text, map_literal.
  cbn [lead sign first more trail].
  rewrite groups_text_map, !map_app. simpl. rewrite map_app.
  destruct sg; simpl; rewrite ?H43, ?H45; reflexivity.
Qed.

Lemma groups_text_map_inv gs' : forall tr' r,
  groups_text gs' ++ tr' = List.map f r ->
  exists gs tr, r = groups_text gs ++ tr
                /\ gs' = List.map (fun g => (fst g, f (snd g))) gs
                /\ tr' = List.map f tr.
Proof.
  induction gs' as [|[us c'] gs' IH]; intros tr' r E.
  - exists [], r. auto.
  - unfold groups_text in E. simpl in E. rewrite <- app_assoc in E.
    destruct us; simpl in E.
    + symmetry in E. apply map_eq_cons in E as (u & r1 & -> & Hu & E).
      apply map_eq_cons in E as (c & r2 & -> & Hc & E).
      apply marks_only in Hu; [|auto]. subst u c'.
      symmetry in E. apply IH in E as (gs & tr & -> & -> & ->).
      exists ((true, c) :: gs), tr. auto.
    + symmetry in E. apply map_eq_cons in E as (c & r2 & -> & Hc & E).
      subst c'. symmetry in E. apply IH in E as (gs & tr & -> & -> & ->).
      exists ((false, c) :: gs), tr. auto.
Qed.

Lemma text_map_inv l' s :
  text l' = List.map f s -> exists l, text l = s /\ l' = map_literal f l.
Proof.
  destruct l' as [ld' sg c0' gs' tr']. unfold text.
  cbn [lead sign first more trail]. intros E.
  symmetry in E. apply map_eq_app in E as (ld & r & -> & Hld & E).
  assert (exists r', r = sign_text sg ++ r'
                     /\ List.map f r' = c0' :: groups_text gs' ++ tr')
    as (r' & -> & E').
  { destruct sg; simpl in E.
    - exists r. auto.
    - apply map_eq_cons in E as (u & r' & -> & Hu & E).
      apply marks_only in Hu; [|auto]. subst u. exists r'. auto.
    - apply map_eq_cons in E as (u & r' & -> & Hu & E).
      apply marks_only in Hu; [|auto]. subst u. exists r'. auto. }
  apply map_eq_cons in E' as (c0 & r2 & -> & Hc0 & E').
  symmetry in E'. apply groups_text_map_inv in E' as (gs & tr & -> & -> & ->).
  exists {| lead := ld; sign := sg; first := c0; more := gs; trail := tr |}.
  subst. split; reflexivity.
Qed.

Lemma digit_count_map l : digit_count (map_literal f l) = digit_count l.
Proof. rewrite !digit_count_eq. simpl. rewrite length_map. reflexivity. Qed.
End MapLiteral.

Lemma forallb_map_eq (p q : N -> bool) (h : N -> N) s :
  (forall c, p (h c) = q c) -> forallb p (List.map h s) = forallb q s.
Proof.
  intros H. induction s as [|c s IH]; [reflexivity|]. simpl. rewrite H, IH. reflexivity.
Qed.

Section Reads.
Context (U : Unicode).

Lemma well_formed_transform l :
  ascii_wf (map_literal (transform_char U) l)
  = well_formed (is_space U) (digit_of U) l.
Proof.
  unfold ascii_wf, well_formed, digit_chars. cbn [map_literal lead first more trail].
  rewrite !(forallb_map_eq Py_ISSPACE (is_space U)) by apply transform_char_space.
  cbn [forallb]. rewrite transform_char_is_digit, map_map. cbn [snd].
  rewrite <- (map_map snd (transform_char U)).
  rewrite (forallb_map_eq (is_digit digit_value) (is_digit (digit_of U)))
    by apply transform_char_is_digit.
  reflexivity.
Qed.

Lemma fold_place_transform cs : forall a,
  fold_left (place digit_value) (List.map (transform_char U) cs) a
  = fold_left (place (digit_of U)) cs a.
Proof.
  induction cs as [|c cs IH]; intros a; [reflexivity|]. simpl.
  rewrite IH. unfold place at 2 4. rewrite transform_char_digit. reflexivity.
Qed.

Lemma value_transform l :
  value digit_value (map_literal (transform_char U) l) = value (digit_of U) l.
Proof.
  unfold value, magnitude, digit_chars. cbn [map_literal sign first more].
  rewrite map_map. cbn [snd]. rewrite <- (map_map snd (transform_char U)).
  change (transform_char U (first l) :: List.map (transform_char U) (List.map snd (more l)))
    with (List.map (transform_char U) (first l :: List.map snd (more l))).
  rewrite fold_place_transform. reflexivity.
Qed.

Lemma transform_char_fixes :
  transform_char U 43 = 43 /\ transform_char U 45 = 45 /\ transform_char U 95 = 95.
Proof. repeat split. Qed.

Lemma digit_of_ascii c :
  is_digit digit_value c = true -> digit_of U c = digit_value c.
Proof.
  unfold is_digit. destruct (digit_value c) as [d|] eqn:Ed; [|discriminate].
  intros _. pose proof (proj1 (digit_value_Some c d) Ed) as [Hc _].
  unfold digit_of. destruct (N.ltb_spec c 128); [exact Ed | lia].
Qed.

Lemma fold_place_ascii cs : forall a,
  forallb (is_digit digit_value) cs = true ->
  fold_left (place (digit_of U)) cs a = fold_left (place digit_value) cs a.
Proof.
  induction cs as [|c cs IH]; intros a; [reflexivity|]. simpl.
  intros [Hc Hcs]%andb_true_iff. rewrite IH by exact Hcs.
  unfold place at 2 4. rewrite digit_of_ascii by exact Hc. reflexivity.
Qed.

(** An ASCII literal is a literal. *)
Lemma ascii_literal l :
  ascii_wf l = true ->
  well_formed (is_space U) (digit_of U) l = true
  /\ value (digit_of U) l = value digit_value l.
Proof.
  unfold ascii_wf, well_formed.
  intros [[Hld Hdig]%andb_true_iff Htr]%andb_true_iff.
  assert (Hsp : forall s, forallb Py_ISSPACE s = true -> forallb (is_space U) s = true).
  { intros s Hs. apply forallb_forall. intros c Hc. unfold is_space.
    rewrite (proj1 (forallb_forall _ s) Hs c Hc). reflexivity. }
  split.
  - rewrite (Hsp _ Hld), (Hsp _ Htr), andb_true_r. cbn [andb].
    apply forallb_forall. intros c Hc. unfold is_digit.
    rewrite digit_of_ascii; exact (proj1 (forallb_forall _ _) Hdig c Hc).
  - unfold value, magnitude. rewrite fold_place_ascii by exact Hdig. reflexivity.
Qed.

(** [int()] reads exactly the literals of the grammar that are within
    the limit, with their value. *)
Lemma int_of_str_reads m s v :
  int_of_str U m s = Some v
  <-> exists n, reads U s v n /\ exceeds_limit m n = false.
Proof.
  unfold int_of_str. split.
  - intros H. apply parse_inv in H as (l' & Et & Hwf & Hv & Hlim).
    pose proof (well_formed_classified _ _ _ Hwf) as Hcl. rewrite Et in Hcl.
    unfold transform in Et, Hcl.
    destruct (forallb (fun ch => ch <? 128) s) eqn:Hascii.
    + (* an ASCII text is read as it is *)
      destruct (ascii_literal l' Hwf) as [Hwf' Hv'].
      exists (digit_count l'). split; [|exact Hlim].
      exists l'. rewrite Hv'. auto.
    + assert (Hk : forallb (kept U) s = true).
      { destruct (forallb (kept U) s) eqn:Hk; [reflexivity|].
        apply transform_loop_cut in Hk.
        pose proof (proj1 (forallb_forall _ _) Hcl 63 Hk) as H63. discriminate. }
      rewrite (transform_loop_kept U s Hk) in Et.
      apply text_map_inv in Et as (l & <- & ->);
        [|apply transform_char_mark].
      exists (digit_count l). split.
      * exists l. rewrite well_formed_transform in Hwf. rewrite value_transform in Hv.
        auto.
      * rewrite digit_count_map in Hlim. exact Hlim.
  - intros (n & (l & <- & Hwf & <- & <-) & Hlim).
    rewrite transform_classified by (apply well_formed_classified, Hwf).
    rewrite <- text_map_literal by apply transform_char_fixes.
    rewrite <- value_transform. apply parse_literal.
    + rewrite well_formed_transform. exact Hwf.
    + rewrite digit_count_map. exact Hlim.
Qed.
End Reads.

(** *** The decimal rendering *)

Lemma digits_fuel_spec fuel : forall n acc,
  fuel <> O -> n < 2 ^ N.of_nat fuel ->
  exists ds, digits_fuel fuel n acc = ds ++ acc
             /\ ds <> []
             /\ forallb (is_digit digit_value) ds = true
             /\ forall a, fold_left (place digit_value) ds a
                          = a * 10 ^ N.of_nat (length ds) + n.
Proof.
  induction fuel as [|fuel IH]; intros n acc Hf Hn; [congruence|].
  assert (Hmod : n mod 10 < 10) by (apply N.mod_lt; lia).
  assert (Hdv : digit_value (48 + n mod 10) = Some (n mod 10)).
  { apply digit_value_Some. generalize dependent (n mod 10). intros; lia. }
  assert (Hd : is_digit digit_value (48 + n mod 10) = true).
  { unfold is_digit. rewrite Hdv. reflexivity. }
  assert (Hpl : forall a, place digit_value a (48 + n mod 10) = a * 10 + n mod 10).
  { intros a. unfold place. rewrite Hdv. reflexivity. }
  pose proof (N.div_mod n 10 ltac:(lia)) as Hdm.
  cbn [digits_fuel]. destruct (N.eqb_spec (n / 10) 0) as [Hz|Hz].
  - exists [48 + n mod 10]. repeat split.
    + discriminate.
    + simpl. rewrite Hd. reflexivity.
    + intros a. cbn [fold_left length]. rewrite Hpl.
      change (N.of_nat 1) with 1. rewrite N.pow_1_r. rewrite Hz in Hdm. lia.
  - assert (Hlt : n / 10 < 2 ^ N.of_nat fuel).
    { rewrite Nat2N.inj_succ, N.pow_succ_r' in Hn.
      apply N.Div0.div_lt_upper_bound. lia. }
    assert (Hf' : fuel <> O).
    { intros ->. simpl in Hlt. lia. }
    destruct (IH (n / 10) ((48 + n mod 10) :: acc) Hf' Hlt)
      as (ds & E & Hne & Hall & Hfold).
    exists (ds ++ [48 + n mod 10]). repeat split.
    + rewrite E, <- app_assoc. reflexivity.
    + destruct ds; discriminate.
    + rewrite forallb_app, Hall. simpl. rewrite Hd. reflexivity.
    + intros a. rewrite fold_left_app. simpl. rewrite Hfold, Hpl.
      rewrite length_app. simpl. rewrite Nat2N.inj_add. simpl N.of_nat.
      rewrite N.pow_add_r. lia.
Qed.

Lemma digits_of_spec n :
  exists c0 cs, digits_of n = c0 :: cs
                /\ forallb (is_digit digit_value) (c0 :: cs) = true
                /\ fold_left (place digit_value) (c0 :: cs) 0 = n.
Proof.
  unfold digits_of.
  destruct (digits_fuel_spec (S (N.to_nat (N.log2 n))) n []) as (ds & E & Hne & Hall & Hfold).
  - discriminate.
  - rewrite Nat2N.inj_succ, N2Nat.id.
    destruct (N.eq_dec n 0) as [->|Hn]; [reflexivity|].
    apply N.log2_spec. lia.
  - rewrite app_nil_r in E. destruct ds as [|c0 cs]; [congruence|].
    exists c0, cs. rewrite (Hfold 0). auto.
Qed.

Lemma groups_text_plain cs : groups_text (List.map (pair false) cs) = cs.
Proof. induction cs as [|c cs IH]; [reflexivity|]. unfold groups_text in *. simpl. congruence. Qed.

Lemma map_snd_plain (cs : list N) : List.map snd (List.map (pair false) cs) = cs.
Proof. induction cs as [|c cs IH]; [reflexivity|]. simpl. congruence. Qed.

(** The rendering of an integer is a literal that reads as the
    integer. *)
Lemma decimal_reads U v : reads U (decimal v) v (width v).
Proof.
  destruct (digits_of_spec (Z.abs_N v)) as (c0 & cs & E & Hall & Hval).
  set (l := {| lead := []; sign := if (v <? 0)%Z then Minus else NoSign;
               first := c0; more := List.map (pair false) cs; trail := [] |}).
  assert (Hwf : ascii_wf l = true).
  { unfold ascii_wf, well_formed, digit_chars. cbn [l lead first more trail].
    rewrite map_snd_plain, Hall. reflexivity. }
  destruct (ascii_literal U l Hwf) as [HwfU HvU].
  exists l. split; [|split; [exact HwfU|split]].
  - unfold text, decimal. cbn [l lead sign first more trail].
    rewrite groups_text_plain, app_nil_r, E.
    destruct (v <? 0)%Z; reflexivity.
  - rewrite HvU. unfold value, magnitude, digit_chars. cbn [l sign first more].
    rewrite map_snd_plain, Hval.
    destruct (Z.ltb_spec v 0); rewrite N2Z.inj_abs_N; lia.
  - unfold digit_count, width, digit_chars. cbn [l first more].
    rewrite map_snd_plain, E. reflexivity.
Qed.

Lemma int_of_decimal U m v :
  exceeds_limit m (width v) = false -> int_of_str U m (decimal v) = Some v.
Proof.
  intros H. apply int_of_str_reads. exists (width v). split; [apply decimal_reads | exact H].
Qed.

Lemma int_repr_decimal m v :
  exceeds_limit m (width v) = false -> int_repr m v = Some (decimal v).
Proof. unfold int_repr, width. intros ->. reflexivity. Qed.

(** *** Runs of digits *)

Lemma forallb_repeat {A} (p : A -> bool) x n :
  p x = true -> forallb p (repeat x n) = true.
Proof. intros H. induction n as [|n IH]; simpl; [reflexivity | rewrite H, IH; reflexivity]. Qed.

(** A run of ASCII digits, seen as a literal. *)
Lemma plain_literal_text c0 cs : text (plain_literal c0 cs) = c0 :: cs.
Proof.
  unfold text, plain_literal. cbn [lead sign first more trail].
  rewrite groups_text_plain, app_nil_r. reflexivity.
Qed.

Lemma plain_literal_wf c0 cs :
  forallb (is_digit digit_value) (c0 :: cs) = true ->
  ascii_wf (plain_literal c0 cs) = true.
Proof.
  intros Hall. unfold ascii_wf, well_formed, digit_chars, plain_literal.
  cbn [lead first more trail]. rewrite map_snd_plain, Hall. reflexivity.
Qed.

Lemma plain_literal_count c0 cs :
  digit_count (plain_literal c0 cs) = N.of_nat (S (length cs)).
Proof. rewrite digit_count_eq. cbn [plain_literal more]. rewrite length_map. reflexivity. Qed.

Lemma plain_literal_value c0 cs :
  value digit_value (plain_literal c0 cs)
  = Z.of_N (fold_left (place digit_value) (c0 :: cs) 0).
Proof.
  unfold value, magnitude, digit_chars, plain_literal. cbn [sign first more].
  rewrite map_snd_plain. reflexivity.
Qed.

Lemma plain_reads U c0 cs :
  forallb (is_digit digit_value) (c0 :: cs) = true ->
  reads U (c0 :: cs) (Z.of_N (fold_left (place digit_value) (c0 :: cs) 0))
        (N.of_nat (S (length cs))).
Proof.
  intros Hall. pose proof (plain_literal_wf c0 cs Hall) as Hwf.
  destruct (ascii_literal U _ Hwf) as [HwfU HvU].
  exists (plain_literal c0 cs).
  rewrite plain_literal_text, HvU, plain_literal_value, plain_literal_count. auto.
Qed.

(** [int()] on a run of ASCII digits: its value, unless it is too long. *)
Lemma int_of_plain U m c0 cs :
  forallb (is_digit digit_value) (c0 :: cs) = true ->
  int_of_str U m (c0 :: cs)
  = if exceeds_limit m (N.of_nat (S (length cs))) then None
    else Some (Z.of_N (fold_left (place digit_value) (c0 :: cs) 0)).
Proof.
  intros Hall. unfold int_of_str, transform.
  assert (Hascii : forallb (fun ch => ch <? 128) (c0 :: cs) = true).
  { apply forallb_forall. intros c Hc.
    pose proof (proj1 (forallb_forall _ _) Hall c Hc) as Hd.
    unfold is_digit in Hd. destruct (digit_value c) as [d|] eqn:Ed; [|discriminate].
    apply digit_value_Some in Ed. apply N.ltb_lt. lia. }
  rewrite Hascii, <- (plain_literal_text c0 cs).
  rewrite parse_literal_limit by (apply plain_literal_wf, Hall).
  rewrite plain_literal_count, plain_literal_value, plain_literal_text. reflexivity.
Qed.

(** A number is below the power of ten of the length of its rendering. *)
Lemma fold_place_bound cs : forall a,
  forallb (is_digit digit_value) cs = true ->
  fold_left (place digit_value) cs a < (a + 1) * 10 ^ N.of_nat (length cs).
Proof.
  induction cs as [|c cs IH]; intros a Hall.
  - simpl. lia.
  - cbn [forallb] in Hall. apply andb_true_iff in Hall as [Hc Hcs].
    cbn [fold_left length]. specialize (IH (place digit_value a c) Hcs).
    unfold is_digit in Hc. destruct (digit_value c) as [d|] eqn:Ed; [|discriminate].
    apply digit_value_Some in Ed as [Hr ->].
    assert (Hp : place digit_value a c + 1 <= (a + 1) * 10).
    { unfold place. replace (digit_value c) with (Some (c - 48))
        by (symmetry; apply digit_value_Some; lia). simpl. lia. }
    rewrite Nat2N.inj_succ, N.pow_succ_r'.
    eapply N.lt_le_trans; [exact IH|].
    rewrite (N.mul_comm 10 (10 ^ _)), N.mul_assoc.
    transitivity ((a + 1) * 10 * 10 ^ N.of_nat (length cs)); [|lia].
    apply N.mul_le_mono_r. exact Hp.
Qed.

Lemma digits_of_bound n : n < 10 ^ N.of_nat (length (digits_of n)).
Proof.
  destruct (digits_of_spec n) as (c0 & cs & E & Hall & Hval).
  rewrite E. pose proof (fold_place_bound (c0 :: cs) 0 Hall) as H.
  rewrite Hval in H. lia.
Qed.

(** A run of nines is one less than a power of ten. *)
Lemma fold_place_nines k : forall a,
  fold_left (place digit_value) (repeat 57 k) a + 1 = (a + 1) * 10 ^ N.of_nat k.
Proof.
  induction k as [|k IH]; intros a.
  - simpl. lia.
  - cbn [repeat fold_left]. rewrite IH, Nat2N.inj_succ, N.pow_succ_r'.
    change (place digit_value a 57) with (a * 10 + 9). lia.
Qed.

End IntFacts.

(* ===================================================================== *)
(** ** The effects of the program *)
(* ===================================================================== *)

Module EffectFacts.
Import Web Main Frames.

Lemma logged_refl w : logged w w.
Proof. repeat split. Qed.

Lemma logged_trans w1 w2 w3 : logged w1 w2 -> logged w2 w3 -> logged w1 w3.
Proof.
  unfold logged. intros (?&?&?&?&?&?) (?&?&?&?&?&?). repeat split; congruence.
Qed.

Lemma write_logged s line w : logged w (Logging.write s line w).
Proof. destruct s; repeat split. Qed.

Lemma callHandlers_logged name level msg hs : forall w,
  exists w', Logging.callHandlers name level msg hs w = (Ret tt, w') /\ logged w w'.
Proof.
  induction hs as [|h hs IH]; intros w.
  - exists w. split; [reflexivity | apply logged_refl].
  - cbn [Logging.callHandlers]. unfold bind, Logging.handle.
    destruct (h_level h <=? level).
    + unfold modify.
      destruct (IH (Logging.write (h_stream h)
                      (Logging.format_record (h_formatter h) (clock w) level name msg) w))
        as (w' & E & Hl).
      exists w'. split; [exact E|].
      eapply logged_trans; [apply write_logged | exact Hl].
    + unfold ret. apply IH.
Qed.

(** [logging.info] returns, and changes nothing but the logs. *)
Lemma info_logged msg w :
  exists w', Logging.info msg w = (Ret tt, w') /\ logged w w'.
Proof.
  unfold Logging.info, bind, gets.
  set (w1 := snd ((match root_handlers w with
                   | [] => Logging.basicConfig
                   | _ :: _ => ret tt
                   end) w)).
  assert (H1 : (match root_handlers w with
                | [] => Logging.basicConfig
                | _ :: _ => ret tt
                end) w = (Ret tt, w1) /\ logged w w1).
  { subst w1. destruct (root_handlers w) eqn:E.
    - unfold Logging.basicConfig, bind, gets. rewrite E.
      unfold Logging.addHandler, modify. simpl. split; [reflexivity | repeat split].
    - simpl. split; [reflexivity | apply logged_refl]. }
  destruct H1 as [E1 L1]. rewrite E1.
  destruct (root_level w1 <=? Logging.INFO).
  - destruct (callHandlers_logged (py "root") Logging.INFO (Text msg) (root_handlers w1) w1)
      as (w' & E & L).
    exists w'. split; [exact E | eapply logged_trans; eassumption].
  - exists w1. split; [reflexivity | exact L1].
Qed.

(** A record of a logger of aiohttp: the call returns, and changes
    nothing but the logs. *)
Lemma log_logged name level msg w :
  exists w', Logging.log name level msg w = (Ret tt, w') /\ logged w w'.
Proof.
  unfold Logging.log, bind, gets.
  destruct (root_level w <=? level); [|exists w; split; [reflexivity | apply logged_refl]].
  destruct (root_handlers w) as [|h hs] eqn:Hh.
  - destruct (Logging.WARNING <=? level).
    + eexists. split; [reflexivity | apply write_logged].
    + exists w. split; [reflexivity | apply logged_refl].
  - apply callHandlers_logged.
Qed.

(** [_make_app] returns the application, or raises for the directory. *)
Lemma make_app_cases P self :
  _make_app P self
  = if is_dir P (py "/home/ubuntu/theClimberDiary")
    then Ret (application P self) else Raise ValueError.
Proof.
  unfold _make_app, add_static.
  destruct (is_dir P (py "/home/ubuntu/theClimberDiary")); reflexivity.
Qed.

Lemma make_app_returns P self app :
  _make_app P self = Ret app ->
  is_dir P (py "/home/ubuntu/theClimberDiary") = true /\ app = application P self.
Proof.
  rewrite make_app_cases.
  destruct (is_dir P (py "/home/ubuntu/theClimberDiary")); [|discriminate].
  intros [= <-]. auto.
Qed.

(** [run] after the construction of the server object. *)
Lemma run_cases P incoming w :
  run P incoming w
  = if is_dir P (py "/home/ubuntu/theClimberDiary")
    then with_application_server P (application P (fresh (dom (heap w)))) 443 true
           (event_wait P (application P (fresh (dom (heap w)))) incoming)
           (with_heap (<[fresh (dom (heap w)) := Server_init]> (heap w)) w)
    else (Raise ValueError,
          with_heap (<[fresh (dom (heap w)) := Server_init]> (heap w)) w).
Proof.
  unfold run, bind at 1, Server_new, bind at 1 2, gets, modify, ret.
  unfold bind at 1, of_outcome. rewrite make_app_cases.
  destruct (is_dir P (py "/home/ubuntu/theClimberDiary")); reflexivity.
Qed.

(** [handle_ping] step by step: one log line, then the outcome. *)
Lemma handle_ping_outcome P self request w :
  exists w', handle_ping P self request w
             = (ping_outcome P (heap w !! self)
                  (headers_get (req_headers request) (py "value")), w')
             /\ logged w w'.
Proof.
  unfold handle_ping, bind.
  destruct (info_logged (py "Handling ping with value "
              ++ format_value (headers_get (req_headers request) (py "value"))) w)
    as (w' & E & L).
  rewrite E. exists w'. split; [|exact L].
  destruct L as (_ & Hheap & _).
  unfold ping_outcome, int_.
  destruct (headers_get (req_headers request) (py "value")) as [s|]; [|reflexivity].
  unfold lift_option.
  destruct (PyInt.int_of_str (unicode P) (int_max_str_digits P) s) as [v|]; [|reflexivity].
  unfold ret, get_step, bind, gets. rewrite Hheap.
  destruct (heap w !! self) as [srv|]; [|reflexivity].
  unfold ret, json_response, json_dumps, bind, lift_option.
  destruct (PyInt.int_repr (int_max_str_digits P) (v + _step srv)); reflexivity.
Qed.
End EffectFacts.

(** The effects of the program, for any relation between worlds that the
    network steps and the logging calls respect. *)
Module FrameFacts.
Import Web Main Frames EffectFacts.

Section Respects.
Context (R : World -> World -> Prop).
Hypothesis R_refl : forall w, R w w.
Hypothesis R_trans : forall w1 w2 w3, R w1 w2 -> R w2 w3 -> R w1 w3.
Hypothesis R_net : forall t l c tr w, R w (with_net t l c tr w).
Hypothesis R_info : forall msg, respects R (Logging.info msg).
Hypothesis R_log : forall name level msg,
  no_stamp msg -> respects R (Logging.log name level msg).

Lemma respects_ret {A} (a : A) : respects R (ret a).
Proof. intros w. apply R_refl. Qed.

Lemma respects_raise {A} e : respects R (@raise A e).
Proof. intros w. apply R_refl. Qed.

Lemma respects_gets {A} (f : World -> A) : respects R (gets f).
Proof. intros w. apply R_refl. Qed.

Lemma respects_lift_option {A} e (o : option A) : respects R (lift_option e o).
Proof. destruct o; [apply respects_ret | apply respects_raise]. Qed.

Lemma respects_bind {A B} (c : M A) (k : A -> M B) :
  respects R c -> (forall a, respects R (k a)) -> respects R (bind c k).
Proof.
  intros Hc Hk w. unfold bind. specialize (Hc w).
  destruct (c w) as [[a|e] w1]; cbn [snd] in *; [|exact Hc].
  eapply R_trans; [exact Hc | apply Hk].
Qed.

Lemma respects_try_finally {A} (c : M A) (f : M unit) :
  respects R c -> respects R f -> respects R (try_finally c f).
Proof.
  intros Hc Hf w. unfold try_finally. specialize (Hc w).
  destruct (c w) as [o w1]. cbn [snd] in Hc. specialize (Hf w1).
  destruct (f w1) as [[[]|e] w2]; cbn [snd] in *; eapply R_trans; eassumption.
Qed.

Lemma respects_try_except {A} (c : M A) (h : PyExc -> M A) :
  respects R c -> (forall e, respects R (h e)) -> respects R (try_except c h).
Proof.
  intros Hc Hh w. unfold try_except. specialize (Hc w).
  destruct (c w) as [[a|e] w1]; cbn [snd] in *; [exact Hc|].
  eapply R_trans; [exact Hc | apply Hh].
Qed.

Lemma respects_emit ev : respects R (emit ev).
Proof. intros w. apply R_net. Qed.

Lemma respects_handle_ping P self request : respects R (handle_ping P self request).
Proof.
  unfold handle_ping. apply respects_bind; [apply R_info|]. intros _.
  apply respects_bind.
  { unfold int_. destruct (headers_get _ _); [apply respects_lift_option | apply respects_raise]. }
  intros v. apply respects_bind.
  { unfold get_step. apply respects_bind; [apply respects_gets|].
    intros [srv|]; [apply respects_ret | apply respects_raise]. }
  intros step. unfold json_response, json_dumps.
  apply respects_bind; [apply respects_lift_option|]. intros t. apply respects_ret.
Qed.

Lemma respects_static_handle P prefix directory request :
  respects R (static_handle P prefix directory request).
Proof.
  unfold static_handle. destruct (static_file _ _ _); [apply respects_raise | apply respects_ret].
Qed.

Lemma respects_handle_error e : respects R (handle_error e).
Proof.
  destruct e; cbn [handle_error];
    first [ apply respects_ret | apply respects_raise
          | apply respects_bind; [apply R_log; exact I | intros _; apply respects_ret] ].
Qed.

Lemma make_app_router P self :
  router (application P self)
  = [ {| res_pattern := StaticResource (py "/page");
         res_get := Some (static_handle P (py "/page") (py "/home/ubuntu/theClimberDiary")) |};
      {| res_pattern := PlainResource (py "/ping");
         res_get := Some (handle_ping P self) |} ].
Proof. reflexivity. Qed.

(** Routing in the application of [_make_app] ends at one of its two
    handlers, or nowhere. *)
Lemma resolve_make_app P self request :
  resolve (application P self) request
  = Some (0%nat, static_handle P (py "/page") (py "/home/ubuntu/theClimberDiary"))
  \/ resolve (application P self) request = Some (1%nat, handle_ping P self)
  \/ resolve (application P self) request = None.
Proof.
  unfold resolve. rewrite make_app_router. cbn [resolve_from res_pattern res_get].
  destruct (matches (StaticResource (py "/page")) (req_path request)); [auto|].
  destruct (matches (PlainResource (py "/ping")) (req_path request)); auto.
Qed.

Lemma respects_handle_request P self request :
  respects R (handle_request P (application P self) request).
Proof.
  unfold handle_request. apply respects_bind.
  - apply respects_try_except; [|apply respects_handle_error].
    destruct (resolve_make_app P self request) as [E|[E|E]]; rewrite E.
    + apply respects_static_handle.
    + apply respects_handle_ping.
    + apply respects_raise.
  - intros response. apply respects_bind; [apply respects_emit|]. intros _.
    apply respects_bind; [apply R_log; exact I | intros _; apply respects_ret].
Qed.

Lemma respects_serve P self incoming :
  respects R (serve P (application P self) incoming).
Proof.
  induction incoming as [|request rest IH]; cbn [serve]; [apply respects_ret|].
  apply respects_bind; [apply respects_gets|]. intros [|port held]; [apply respects_ret|].
  apply respects_bind; [intros w; apply R_net|]. intros _.
  apply respects_bind; [apply respects_handle_request|]. intros response.
  apply respects_bind; [exact IH|]. intros responses. apply respects_ret.
Qed.

Lemma respects_event_wait P self incoming :
  respects R (event_wait P (application P self) incoming).
Proof.
  unfold event_wait. apply respects_bind; [apply respects_serve | intros _; apply respects_raise].
Qed.

Lemma respects_make_ssl_ctx P use_ssl : respects R (make_ssl_ctx P use_ssl).
Proof.
  assert (Hcall : forall f, respects R (ssl_call f)).
  { intros [e|]; [apply respects_raise | apply respects_ret]. }
  assert (Hitem : forall name, respects R (environ_item name)).
  { intros name. unfold environ_item, environ_get.
    apply respects_bind; [apply respects_gets | intros o; apply respects_lift_option]. }
  unfold make_ssl_ctx. destruct use_ssl; [|apply respects_ret].
  apply respects_bind; [apply respects_gets|]. intros cafile.
  apply respects_bind; [apply Hcall|]. intros _.
  apply respects_bind; [apply Hitem|]. intros certfile.
  apply respects_bind; [apply Hitem|]. intros keyfile.
  apply respects_bind; [apply Hcall | intros _; apply respects_ret].
Qed.

Lemma respects_site_start P port tls : respects R (site_start P port tls).
Proof.
  unfold site_start. apply respects_bind; [apply respects_gets|]. intros held.
  destruct (_ && _); [intros w; apply R_net | apply respects_raise].
Qed.

Lemma respects_startup P port use_ssl : respects R (startup P port use_ssl).
Proof.
  unfold startup. apply respects_bind; [apply respects_make_ssl_ctx|]. intros ctx.
  apply respects_bind; [apply respects_ret | intros _; apply respects_site_start].
Qed.

Lemma respects_stop_sites ports : respects R (stop_sites ports).
Proof.
  induction ports as [|port rest IH]; cbn [stop_sites]; [apply respects_ret|].
  apply respects_bind; [intros w; apply R_net | intros _; exact IH].
Qed.

Lemma respects_release P port : respects R (release P port).
Proof.
  unfold release. apply respects_bind; [apply R_info|]. intros _.
  apply respects_bind.
  - unfold runner_cleanup. apply respects_bind; [apply respects_gets|]. intros ports.
    apply respects_bind; [apply respects_stop_sites|]. intros _. intros w; apply R_net.
  - intros _. intros w; apply R_net.
Qed.

Lemma respects_with_application_server {A} P app port use_ssl (scope_body : M A) :
  respects R scope_body ->
  respects R (with_application_server P app port use_ssl scope_body).
Proof.
  intros Hbody. unfold with_application_server.
  apply respects_bind; [apply respects_startup|]. intros _.
  apply respects_try_finally; [|apply respects_release].
  apply respects_bind; [apply R_info | intros _; exact Hbody].
Qed.
End Respects.
End FrameFacts.

Module ProgramFacts.
Import Web Main Frames EffectFacts FrameFacts.
Import PyInt Literal IntFacts.

Lemma heap_untouched_info msg : respects heap_untouched (Logging.info msg).
Proof.
  intros w. destruct (info_logged msg w) as (w' & E & L). rewrite E.
  destruct L as (_ & H & _). exact H.
Qed.

Lemma heap_untouched_log name level msg :
  respects heap_untouched (Logging.log name level msg).
Proof.
  intros w. destruct (log_logged name level msg w) as (w' & E & L). rewrite E.
  destruct L as (_ & H & _). exact H.
Qed.

Lemma callHandlers_basic name level msg hs : forall w,
  no_stamp msg ->
  Forall (fun h => h = {| h_stream := Stderr; h_level := Logging.NOTSET;
                          h_formatter := Some Logging.BASIC_FORMAT |}) hs ->
  unstamped w ->
  let w' := snd (Logging.callHandlers name level msg hs w) in
  root_handlers w' = root_handlers w /\ unstamped w' /\ files w' = files w.
Proof.
  induction hs as [|h hs IH]; intros w Hmsg Hhs Hw; [repeat split; exact Hw|].
  inversion Hhs as [|? ? Hh Hrest]; subst.
  cbn [Logging.callHandlers]. unfold bind, Logging.handle.
  cbn [h_level h_stream h_formatter].
  replace (Logging.NOTSET <=? level) with true
    by (symmetry; apply N.leb_le; unfold Logging.NOTSET; lia). unfold modify. cbn [Logging.write].
  set (w1 := with_stderr _ w).
  assert (Hw1 : unstamped w1).
  { unfold unstamped, w1. cbn [stderr with_stderr]. apply Forall_app. split; [exact Hw|].
    repeat constructor. exact Hmsg. }
  destruct (IH w1 Hmsg Hrest Hw1) as (Hh' & Hu & Hf).
  repeat split; assumption.
Qed.

Lemma files_untouched_info msg : respects files_untouched (Logging.info msg).
Proof.
  intros w [Hb Hu]. unfold Logging.info, bind, gets.
  destruct (root_handlers w) as [|h hs] eqn:E.
  - unfold Logging.basicConfig, bind, gets. rewrite E.
    unfold Logging.addHandler, modify. cbn [fst snd].
    set (w1 := with_root_handlers _ w).
    assert (Hb1 : basic_only w1).
    { unfold basic_only, w1. cbn [root_handlers with_root_handlers]. rewrite E.
      repeat constructor. }
    destruct (root_level w1 <=? Logging.INFO); [|repeat split; assumption].
    destruct (callHandlers_basic (py "root") Logging.INFO (Text msg) (root_handlers w1)
                w1 I Hb1 Hu) as (Hh & Hu' & Hf).
    repeat split; [unfold basic_only; rewrite Hh; exact Hb1 | exact Hu' | exact Hf].
  - unfold ret. destruct (root_level w <=? Logging.INFO); [|repeat split; assumption].
    destruct (callHandlers_basic (py "root") Logging.INFO (Text msg) (root_handlers w)
                w I Hb Hu) as (Hh & Hu' & Hf).
    repeat split; [unfold basic_only; rewrite Hh; exact Hb | exact Hu' | exact Hf].
Qed.

Lemma files_untouched_log name level msg :
  no_stamp msg -> respects files_untouched (Logging.log name level msg).
Proof.
  intros Hmsg w [Hb Hu]. unfold Logging.log, bind, gets.
  destruct (root_level w <=? level); [|repeat split; assumption].
  destruct (root_handlers w) as [|h hs] eqn:E.
  - destruct (Logging.WARNING <=? level); [|repeat split; assumption].
    unfold modify. cbn. split; [|reflexivity]. split.
    + unfold basic_only. cbn. rewrite E. constructor.
    + unfold unstamped. cbn. apply Forall_app. split; [exact Hu|].
      repeat constructor. exact Hmsg.
  - rewrite <- E.
    destruct (callHandlers_basic name level msg (root_handlers w) w Hmsg Hb Hu)
      as (Hh & Hu' & Hf).
    repeat split; [unfold basic_only; rewrite Hh; exact Hb | exact Hu' | exact Hf].
Qed.

Lemma files_untouched_trans w1 w2 w3 :
  files_untouched w1 w2 -> files_untouched w2 w3 -> files_untouched w1 w3.
Proof.
  unfold files_untouched. intros H12 H23 H1.
  destruct (H12 H1) as [H2 E12]. destruct (H23 H2) as [H3 E23].
  split; [exact H3 | congruence].
Qed.

(** Whatever [run] does leaves the Server objects as they are. *)
Lemma heap_untouched_scope P self incoming :
  respects heap_untouched
    (with_application_server P (application P self) 443 true
       (event_wait P (application P self) incoming)).
Proof.
  apply respects_with_application_server;
    try apply respects_event_wait;
    first [ intros w; reflexivity
          | intros w1 w2 w3; unfold heap_untouched; congruence
          | intros; reflexivity
          | apply heap_untouched_info
          | intros; apply heap_untouched_log ].
Qed.

(** Whatever [run] does writes no file and no line with a time. *)
Lemma files_untouched_scope P self incoming :
  respects files_untouched
    (with_application_server P (application P self) 443 true
       (event_wait P (application P self) incoming)).
Proof.
  apply respects_with_application_server;
    try apply respects_event_wait;
    first [ intros w H; split; [exact H | reflexivity]
          | exact files_untouched_trans
          | intros t l c tr w H; split; [exact H | reflexivity]
          | apply files_untouched_info
          | apply files_untouched_log ].
Qed.

(** Closing every site a world listens on leaves none. *)
Lemma stop_sites_spec ports : forall w,
  exists w', stop_sites ports w = (Ret tt, w')
             /\ listening w'
                = fold_left (fun l port => List.filter (fun p => negb (p =? port)) l)
                            ports (listening w)
             /\ trace w' = trace w ++ List.map EvStopListening ports
             /\ clock w' = clock w /\ connections w' = connections w.
Proof.
  induction ports as [|port rest IH]; intros w.
  - exists w. cbn. rewrite app_nil_r. auto.
  - cbn [stop_sites]. unfold bind, modify.
    destruct (IH (with_net (clock w)
                    (List.filter (fun p => negb (p =? port)) (listening w))
                    (connections w) (trace w ++ [EvStopListening port]) w))
      as (w' & E & Hl & Ht & Hc & Hn).
    exists w'. rewrite E. cbn in *. rewrite Hl, Ht, <- app_assoc. auto.
Qed.

Lemma filter_all_out ports : forall l,
  (forall p, In p l -> In p ports) ->
  fold_left (fun l port => List.filter (fun p => negb (p =? port)) l) ports l = [].
Proof.
  induction ports as [|port rest IH]; intros l Hl.
  - destruct l as [|p l]; [reflexivity|]. destruct (Hl p); left; reflexivity.
  - cbn [fold_left]. apply IH. intros p [Hp Hne]%filter_In.
    apply negb_true_iff, N.eqb_neq in Hne.
    destruct (Hl p Hp) as [->|H]; [congruence | exact H].
Qed.

(** The [finally] block: it returns, no port is held any more, no
    connection is open, and the last events are the closing of the sites,
    the closing of the connections and the pause. *)
Lemma release_spec P port w :
  exists w', release P port w = (Ret tt, w')
             /\ listening w' = [] /\ connections w' = 0
             /\ trace w' = trace w ++ List.map EvStopListening (listening w)
                           ++ [EvCloseConnections; EvSleep 10]
             /\ clock w' = clock w + 10.
Proof.
  unfold release, bind at 1.
  destruct (info_logged (shutting_down_message P port) w) as (w1 & E1 & L1).
  rewrite E1. destruct L1 as (_ & _ & Hclock & Hlist & Hconn & Htrace).
  unfold bind at 1, runner_cleanup, bind at 1, gets, bind at 1.
  destruct (stop_sites_spec (listening w1) w1) as (w2 & E2 & Hl & Ht & Hc & Hn).
  rewrite E2. unfold modify, asyncio_sleep, modify.
  eexists. split; [reflexivity|]. cbn.
  rewrite Hl, Ht, Hc, Htrace, Hclock, Hlist, <- !app_assoc.
  rewrite filter_all_out by auto. auto.
Qed.
Lemma resolve_ping P self request :
  req_path request = py "/ping" ->
  resolve (application P self) request = Some (1%nat, handle_ping P self).
Proof. unfold resolve. intros ->. reflexivity. Qed.

(** The response hook changes headers only. *)
Lemma prepared_status P app resource request response :
  status (cors_on_response_prepare P app resource request response) = status response.
Proof.
  unfold cors_on_response_prepare.
  repeat match goal with
         | |- context [match ?x with _ => _ end] => destruct x
         end; reflexivity.
Qed.

Lemma prepared_body P app resource request response :
  body (cors_on_response_prepare P app resource request response) = body response.
Proof.
  unfold cors_on_response_prepare.
  repeat match goal with
         | |- context [match ?x with _ => _ end] => destruct x
         end; reflexivity.
Qed.

Lemma make_app_cors P self :
  cors (application P self)
  = Some {| cors_defaults :=
              [(py "*", {| allow_credentials := false;
                           expose_headers := AllHeaders;
                           allow_headers := AllHeaders |})];
            cors_resources := [1%nat] |}.
Proof. reflexivity. Qed.

(** The hook on the route of [/ping]: with an [Origin], two headers are
    added, whatever the origin is. *)
Lemma prepared_ping P self request response origin :
  headers_get (req_headers request) (py "Origin") = Some origin ->
  cors_on_response_prepare P (application P self) (Some 1%nat) request response
  = set_header (py "Access-Control-Allow-Origin") origin
      (set_header (py "Access-Control-Expose-Headers")
         (join_names P (List.filter (fun n => negb (is_simple_header n))
                                    (List.map fst (resp_headers response))))
         response).
Proof.
  intros Horigin. unfold cors_on_response_prepare.
  rewrite make_app_cors, Horigin. cbn [cors_resources cors_defaults].
  change (bool_decide (1%nat ∈ [1%nat])) with true. cbn iota.
  unfold lookup_options. cbn [find].
  destruct (pystr_eqb (py "*") origin); [reflexivity|].
  change (pystr_eqb (py "*") (py "*")) with true. reflexivity.
Qed.

Lemma ping_outcome_cases P server value :
  (exists t, ping_outcome P server value
             = Ret {| status := 200;
                      resp_headers :=
                        [(py "Content-Type", py "application/json; charset=utf-8")];
                      body := BodyText t |})
  \/ ping_outcome P server value = Raise TypeError
  \/ ping_outcome P server value = Raise ValueError
  \/ ping_outcome P server value = Raise AttributeError.
Proof.
  unfold ping_outcome.
  destruct value; [|auto].
  destruct (int_of_str _ _ _); [|auto].
  destruct server; [|auto].
  destruct (int_repr _ _); eauto.
Qed.

(** The exceptions [handle_ping] can raise are logged and answered
    with 500. *)
Lemma handle_error_logged e w :
  e = TypeError \/ e = ValueError \/ e = AttributeError ->
  exists w', handle_error e w = (Ret (error_response 500), w') /\ logged w w'.
Proof.
  intros He.
  destruct (log_logged (py "aiohttp.server") Logging.ERROR (ErrorMessage e) w)
    as (w' & E & L).
  exists w'. split; [|exact L].
  destruct He as [-> | [-> | ->]]; cbn [handle_error]; unfold bind; rewrite E; reflexivity.
Qed.

(** The end of [handle_request]: the response is sent and the access
    record is logged. *)
Lemma sent_logged (request : Request) (prepared : Response) w :
  exists w',
    (emit (EvResponse (status prepared)) ;;
     Logging.log (py "aiohttp.access") Logging.INFO
       (AccessMessage (req_path request) (status prepared)) ;;
     ret prepared) w = (Ret prepared, w')
    /\ heap w' = heap w.
Proof.
  unfold bind at 1, emit, modify. unfold bind at 1.
  destruct (log_logged (py "aiohttp.access") Logging.INFO
              (AccessMessage (req_path request) (status prepared))
              (with_net (clock w) (listening w) (connections w)
                 (trace w ++ [EvResponse (status prepared)]) w)) as (w' & E & L).
  rewrite E. exists w'. split; [reflexivity|]. destruct L as (_ & H & _). exact H.
Qed.

(** A GET /ping request through the application of [_make_app]. *)
Lemma handle_request_ping P self request w :
  req_path request = py "/ping" ->
  exists w',
    handle_request P (application P self) request w
    = (Ret (cors_on_response_prepare P (application P self) (Some 1%nat) request
              (answer (ping_outcome P (heap w !! self)
                         (headers_get (req_headers request) (py "value"))))), w')
    /\ heap w' = heap w.
Proof.
  intros Hpath. unfold handle_request. rewrite (resolve_ping P self request Hpath).
  cbn [option_map fst]. unfold bind at 1, try_except.
  destruct (handle_ping_outcome P self request w) as (w1 & E & L). rewrite E.
  destruct L as (_ & Hheap & _).
  destruct (ping_outcome_cases P (heap w !! self)
              (headers_get (req_headers request) (py "value")))
    as [[t Ho]|[Ho|[Ho|Ho]]]; rewrite Ho; cbn [answer].
  - match goal with
    | |- context [cors_on_response_prepare P ?a ?i request ?r] =>
        destruct (sent_logged request (cors_on_response_prepare P a i request r) w1)
          as (w' & E' & H')
    end.
    rewrite E'. exists w'. split; [reflexivity | congruence].
  - destruct (handle_error_logged TypeError w1) as (w2 & E2 & L2); [auto|].
    rewrite E2. destruct L2 as (_ & Hheap2 & _).
    match goal with
    | |- context [cors_on_response_prepare P ?a ?i request ?r] =>
        destruct (sent_logged request (cors_on_response_prepare P a i request r) w2)
          as (w' & E' & H')
    end.
    rewrite E'. exists w'. split; [reflexivity | congruence].
  - destruct (handle_error_logged ValueError w1) as (w2 & E2 & L2); [auto|].
    rewrite E2. destruct L2 as (_ & Hheap2 & _).
    match goal with
    | |- context [cors_on_response_prepare P ?a ?i request ?r] =>
        destruct (sent_logged request (cors_on_response_prepare P a i request r) w2)
          as (w' & E' & H')
    end.
    rewrite E'. exists w'. split; [reflexivity | congruence].
  - destruct (handle_error_logged AttributeError w1) as (w2 & E2 & L2); [auto|].
    rewrite E2. destruct L2 as (_ & Hheap2 & _).
    match goal with
    | |- context [cors_on_response_prepare P ?a ?i request ?r] =>
        destruct (sent_logged request (cors_on_response_prepare P a i request r) w2)
          as (w' & E' & H')
    end.
    rewrite E'. exists w'. split; [reflexivity | congruence].
Qed.

Lemma exceeds_limit_mono m n n' :
  n <= n' -> exceeds_limit m n = true -> exceeds_limit m n' = true.
Proof.
  unfold exceeds_limit. intros Hle.
  intros [[H1%N.ltb_lt H2]%andb_true_iff H3%N.ltb_lt]%andb_true_iff.
  rewrite H2, (proj2 (N.ltb_lt _ n')), (proj2 (N.ltb_lt m n')) by lia. reflexivity.
Qed.

(** A run of digits longer than the guard allows is refused. *)
Lemma ping_outcome_too_long P srv c k :
  is_digit digit_value c = true ->
  exceeds_limit (int_max_str_digits P) (N.of_nat (S k)) = true ->
  ping_outcome P (Some srv) (Some (repeat c (S k))) = Raise ValueError.
Proof.
  intros Hc Hlim. unfold ping_outcome. cbn [repeat].
  rewrite int_of_plain by (apply (forallb_repeat _ c (S k)), Hc).
  rewrite repeat_length, Hlim. reflexivity.
Qed.

(** A run of nines as long as the guard allows is read, but the result
    of adding a positive offset is one digit longer and is not rendered. *)
Lemma ping_outcome_nines P srv k :
  (1 <= _step srv)%Z ->
  exceeds_limit (int_max_str_digits P) (N.of_nat (S (S k))) = true ->
  ping_outcome P (Some srv) (Some (repeat 57 (S k))) = Raise ValueError.
Proof.
  intros Hstep Hlim. unfold ping_outcome.
  destruct (int_of_str (unicode P) (int_max_str_digits P) (repeat 57 (S k)))
    as [v|] eqn:Hint; [|reflexivity].
  cbn [repeat] in Hint.
  rewrite int_of_plain in Hint by (apply (forallb_repeat _ 57 (S k)); reflexivity).
  destruct (exceeds_limit (int_max_str_digits P) (N.of_nat (S (length (repeat 57 k)))));
    [discriminate Hint|]. injection Hint as <-.
  pose proof (fold_place_nines (S k) 0) as HV. cbn [repeat fold_left] in *.
  set (V := fold_left (place digit_value) (repeat 57 k) (place digit_value 0 57)) in *.
  unfold int_repr. cbv zeta.
  set (n := Z.abs_N (Z.of_N V + _step srv)).
  assert (Hn : V + 1 <= n) by (unfold n; lia).
  clearbody n V.
  pose proof (digits_of_bound n) as Hb.
  assert (Hw : N.of_nat (S k) < N.of_nat (length (digits_of n))).
  { apply (N.pow_lt_mono_r_iff 10); [lia|].
    generalize dependent (10 ^ N.of_nat (length (digits_of n))).
    generalize dependent (10 ^ N.of_nat (S k)). intros x HV y Hb.
    clear - Hn HV Hb. lia. }
  assert (Hle : N.of_nat (S (S k)) <= N.of_nat (length (digits_of n))) by lia.
  rewrite (exceeds_limit_mono _ _ _ Hle Hlim). reflexivity.
Qed.

End ProgramFacts.

(* ===================================================================== *)
(** ** The properties of the specification *)
(* ===================================================================== *)

Module Claims.
Import Web Main Frames EffectFacts FrameFacts ProgramFacts Sample.
Import PyInt Literal IntFacts.

(** C1. For every integer [v] in the representable range, a GET /ping
    request whose header [value] is the base-10 rendering of [v] makes
    [handle_ping] return status 200 with a JSON body that is the rendering
    of [v + Offset], and the server answers with that status and body;
    Offset is the [_step] the server object was constructed with, and
    [Server()] sets it to 2. Python integers are not bounded: the
    representable range is that of the integers whose rendering, and that
    of the result, pass the interpreter's guard on the length of
    conversions between [int] and [str] (all of them when the guard is
    off). *)
Theorem ping_adds_offset (P : Platform) (self : nat) (server : Server)
  (app : Application) (request : Request) (v : Z) (w : World) :
  _make_app P self = Ret app ->
  req_path request = py "/ping" ->
  heap w !! self = Some server ->
  headers_get (req_headers request) (py "value") = Some (decimal v) ->
  within_limit P (width v) ->
  within_limit P (width (v + _step server)) ->
  _step Server_init = 2%Z
  /\ (exists w', handle_ping P self request w
                 = (Ret (json_200 (v + _step server)), w'))
  /\ (exists r w', handle_request P app request w = (Ret r, w')
                   /\ status r = 200
                   /\ body r = BodyText (decimal (v + _step server))).
Proof.
  intros [_ ->]%make_app_returns Hpath Hobj Hval Hin Hout. split; [reflexivity|].
  assert (Ho : ping_outcome P (heap w !! self)
                 (headers_get (req_headers request) (py "value"))
               = Ret (json_200 (v + _step server))).
  { rewrite Hobj, Hval. unfold ping_outcome.
    rewrite (int_of_decimal _ _ _ Hin), (int_repr_decimal _ _ Hout). reflexivity. }
  split.
  - destruct (handle_ping_outcome P self request w) as (w' & E & _).
    exists w'. rewrite E, Ho. reflexivity.
  - destruct (handle_request_ping P self request w Hpath) as (w' & E & _).
    rewrite Ho in E. cbn [answer] in E.
    eexists. exists w'. split; [exact E|].
    rewrite prepared_status, prepared_body. split; reflexivity.
Qed.

(** [value: 5] is answered with 7. *)
Lemma ping_adds_offset_witness :
  _step Server_init = 2%Z
  /\ (exists w', handle_ping cpython 0 ping_5 serving = (Ret (json_200 7), w'))
  /\ (exists r w', handle_request cpython (application cpython 0) ping_5 serving
                   = (Ret r, w')
                   /\ status r = 200
                   /\ body r = BodyText (py "7")).
Proof.
  apply (ping_adds_offset cpython 0 Server_init (application cpython 0) ping_5 5 serving);
    reflexivity.
Defined.

(** C2, as amended. For every GET /ping request whose header [value] is
    present but is not read by [int()], [handle_ping] raises [ValueError]:
    the fault leaves the handler, which returns no response, and the
    server answers the request with status 500, not with a 4xx status. *)
Theorem unparseable_value_raises (P : Platform) (self : nat) (app : Application)
  (request : Request) (s : pystr) (w : World) :
  _make_app P self = Ret app ->
  req_path request = py "/ping" ->
  headers_get (req_headers request) (py "value") = Some s ->
  int_of_str (unicode P) (int_max_str_digits P) s = None ->
  (exists w', handle_ping P self request w = (Raise ValueError, w'))
  /\ (exists r w', handle_request P app request w = (Ret r, w')
                   /\ status r = 500).
Proof.
  intros [_ ->]%make_app_returns Hpath Hval Hint. split.
  - destruct (handle_ping_outcome P self request w) as (w' & E & _).
    exists w'. rewrite E, Hval. unfold ping_outcome. rewrite Hint. reflexivity.
  - destruct (handle_request_ping P self request w Hpath) as (w' & E & _).
    rewrite Hval in E. unfold ping_outcome in E. rewrite Hint in E. cbn [answer] in E.
    eexists. exists w'. split; [exact E | apply prepared_status].
Qed.

(** [value: abc]. *)
Lemma unparseable_value_raises_witness :
  (exists w', handle_ping cpython 0 ping_abc serving = (Raise ValueError, w'))
  /\ (exists r w', handle_request cpython (application cpython 0) ping_abc serving
                   = (Ret r, w')
                   /\ status r = 500).
Proof.
  apply (unparseable_value_raises cpython 0 (application cpython 0) ping_abc (py "abc")
           serving); reflexivity.
Defined.

(** C2 as stated fails on [value: abc]: the header is present and is not
    an integer, the handler raises [ValueError] instead of returning a
    response, and the request is answered with 500, which is no client
    error status. *)
Lemma ping_abc_is_no_client_error :
  headers_get (req_headers ping_abc) (py "value") = Some (py "abc")
  /\ int_of_str (unicode cpython) (int_max_str_digits cpython) (py "abc") = None
  /\ fst (handle_ping cpython 0 ping_abc serving) = Raise ValueError
  /\ _make_app cpython 0 = Ret (application cpython 0)
  /\ option_map status
       (returned (fst (handle_request cpython (application cpython 0) ping_abc serving)))
     = Some 500
  /\ ~ client_error 500.
Proof.
  repeat split; try reflexivity. unfold client_error. lia.
Qed.

(** C3, as amended. For every GET /ping request without a header named
    [value], [int(None)] raises [TypeError]: the fault leaves the handler,
    which returns no response, and the server answers the request with
    status 500, not with a 4xx status. *)
Theorem missing_value_raises (P : Platform) (self : nat) (app : Application)
  (request : Request) (w : World) :
  _make_app P self = Ret app ->
  req_path request = py "/ping" ->
  headers_get (req_headers request) (py "value") = None ->
  (exists w', handle_ping P self request w = (Raise TypeError, w'))
  /\ (exists r w', handle_request P app request w = (Ret r, w')
                   /\ status r = 500).
Proof.
  intros [_ ->]%make_app_returns Hpath Hval. split.
  - destruct (handle_ping_outcome P self request w) as (w' & E & _).
    exists w'. rewrite E, Hval. reflexivity.
  - destruct (handle_request_ping P self request w Hpath) as (w' & E & _).
    rewrite Hval in E. cbn [ping_outcome answer] in E.
    eexists. exists w'. split; [exact E | apply prepared_status].
Qed.

(** A request with an [Accept] header only. *)
Lemma missing_value_raises_witness :
  (exists w', handle_ping cpython 0 ping_bare serving = (Raise TypeError, w'))
  /\ (exists r w', handle_request cpython (application cpython 0) ping_bare serving
                   = (Ret r, w')
                   /\ status r = 500).
Proof.
  apply (missing_value_raises cpython 0 (application cpython 0) ping_bare serving);
    reflexivity.
Defined.

(** C3 as stated fails on a request that has no [value] header: the
    handler raises [TypeError] instead of returning a response, and the
    request is answered with 500, which is no client error status. *)
Lemma ping_bare_is_no_client_error :
  headers_get (req_headers ping_bare) (py "value") = None
  /\ fst (handle_ping cpython 0 ping_bare serving) = Raise TypeError
  /\ _make_app cpython 0 = Ret (application cpython 0)
  /\ option_map status
       (returned (fst (handle_request cpython (application cpython 0) ping_bare serving)))
     = Some 500
  /\ ~ client_error 500.
Proof.
  repeat split; try reflexivity. unfold client_error. lia.
Qed.

(** C4, as amended. The CORS defaults registered by [_make_app] allow
    any origin, expose any response header and allow any request header,
    and CORS is enabled on the resource of /ping. Every response to a
    GET /ping request that carries an [Origin] header, for success (200)
    and for error (500) alike, carries [Access-Control-Allow-Origin] with
    that origin and an [Access-Control-Expose-Headers] header. A response
    to a request without [Origin] gets no header from the hook, on any
    route. *)
Theorem ping_answers_carry_cors (P : Platform) (self : nat) (app : Application)
  (request : Request) (origin : pystr) (w : World) :
  _make_app P self = Ret app ->
  req_path request = py "/ping" ->
  headers_get (req_headers request) (py "Origin") = Some origin ->
  cors app
  = Some {| cors_defaults :=
              [(py "*", {| allow_credentials := false;
                           expose_headers := AllHeaders;
                           allow_headers := AllHeaders |})];
            cors_resources := [1%nat] |}
  /\ (exists r w',
       handle_request P app request w = (Ret r, w')
       /\ (status r = 200 \/ status r = 500)
       /\ headers_get (resp_headers r) (py "Access-Control-Allow-Origin") = Some origin
       /\ is_Some (headers_get (resp_headers r) (py "Access-Control-Expose-Headers")))
  /\ (forall plain resource response,
       headers_get (req_headers plain) (py "Origin") = None ->
       cors_on_response_prepare P app resource plain response
       = response).
Proof.
  intros [_ ->]%make_app_returns Hpath Horigin. split; [apply make_app_cors|]. split.
  - destruct (handle_request_ping P self request w Hpath) as (w' & E & _).
    rewrite (prepared_ping P self request _ origin Horigin) in E.
    eexists. exists w'. split; [exact E|].
    destruct (ping_outcome_cases P (heap w !! self)
                (headers_get (req_headers request) (py "value")))
      as [[t Ho]|[Ho|[Ho|Ho]]]; rewrite Ho; cbn [answer error_response];
      (split; [auto | split; [reflexivity | eexists; reflexivity]]).
  - intros plain resource response Hnone. unfold cors_on_response_prepare.
    rewrite Hnone. destruct (cors (application P self)); [|reflexivity].
    destruct resource; [|reflexivity]. destruct (bool_decide _); reflexivity.
Qed.

(** A ping from [https://example.org]. *)
Lemma ping_answers_carry_cors_witness :
  cors (application cpython 0)
  = Some {| cors_defaults :=
              [(py "*", {| allow_credentials := false;
                           expose_headers := AllHeaders;
                           allow_headers := AllHeaders |})];
            cors_resources := [1%nat] |}
  /\ (exists r w',
       handle_request cpython (application cpython 0) ping_5_cross serving = (Ret r, w')
       /\ (status r = 200 \/ status r = 500)
       /\ headers_get (resp_headers r) (py "Access-Control-Allow-Origin")
          = Some (py "https://example.org")
       /\ is_Some (headers_get (resp_headers r) (py "Access-Control-Expose-Headers")))
  /\ (forall plain resource response,
       headers_get (req_headers plain) (py "Origin") = None ->
       cors_on_response_prepare cpython (application cpython 0) resource plain response
       = response).
Proof.
  apply (ping_answers_carry_cors cpython 0 (application cpython 0) ping_5_cross
           (py "https://example.org") serving); reflexivity.
Defined.

(** C4 as stated fails twice: the answer to a cross-origin request for a
    file under /page carries no [Access-Control-Allow-Origin] (only the
    resource of /ping is passed to [cors.add]), and neither does the
    answer to a GET /ping request that has no [Origin] header. *)
Lemma static_and_plain_answers_lack_cors :
  _make_app cpython 0 = Ret (application cpython 0)
  /\ option_map (fun r => (status r,
                           headers_get (resp_headers r) (py "Access-Control-Allow-Origin")))
       (returned (fst (handle_request cpython (application cpython 0) page_cross serving)))
     = Some (200, None)
  /\ option_map (fun r => (status r,
                           headers_get (resp_headers r) (py "Access-Control-Allow-Origin")))
       (returned (fst (handle_request cpython (application cpython 0) ping_5 serving)))
     = Some (200, None).
Proof. split; [|split]; reflexivity. Qed.

(** C5, evaluated. On every run of the [__main__] block, whatever the
    platform, the environment and the requests that arrive, the file
    [log.log] is created and no line is ever written to it: the file
    handler and its formatter are built but never attached to the root
    logger, so [logging.info] configures a handler of its own, and the
    lines go to the standard error stream in the basic format, none with
    the time field of the formatter. On the run with the static
    directory in place and valid TLS material that receives one GET
    /ping with [value: 5] and is then interrupted, the file is empty,
    and the lines of the start, of the ping and of the shutdown are on
    the standard error stream, in the basic format. *)
Theorem log_lines_never_reach_the_file :
  (forall (P : Platform) (env : gmap pystr pystr) (incoming : list Request),
      let w := snd (main P incoming (initial_world env)) in
      files w !! py "log.log" = Some [] /\ basic_only w /\ unstamped w)
  /\ (let w := snd (main cpython [ping_5] (initial_world Sample.env)) in
      files w !! py "log.log" = Some []
      /\ In [Text (py "INFO"); Text (py ":"); Text (py "root"); Text (py ":");
             Text (py "Starting server in pid 4242 binding port 443")] (stderr w)
      /\ In [Text (py "INFO"); Text (py ":"); Text (py "root"); Text (py ":");
             Text (py "Handling ping with value 5")] (stderr w)
      /\ In [Text (py "INFO"); Text (py ":"); Text (py "root"); Text (py ":");
             Text (py "Shutting down server in pid 4242 binding port 443")] (stderr w)).
Proof.
  split.
  - intros P env incoming.
    set (w0 := with_files (<[py "log.log" := []]> ∅)
                 (with_root_level Logging.DEBUG (initial_world env))).
    assert (E : main P incoming (initial_world env) = run P incoming w0) by reflexivity.
    rewrite E, run_cases. cbv zeta.
    destruct (is_dir P (py "/home/ubuntu/theClimberDiary")).
    + match goal with
      | |- context [with_application_server P (application P ?self) 443 true ?b ?w1] =>
          destruct (files_untouched_scope P self incoming w1) as [[Hb Hu] Hf]
      end.
      * split; constructor.
      * rewrite Hf. split; [|split; [exact Hb | exact Hu]].
        apply (lookup_insert_eq (M := gmap pystr)).
    + cbn [snd]. split; [|split; constructor].
      apply (lookup_insert_eq (M := gmap pystr)).
  - vm_compute. split; [reflexivity|]. split; [|split].
    + left. reflexivity.
    + right. left. reflexivity.
    + right. right. right. left. reflexivity.
Qed.

(** C6. When TLS is enabled and the certificate chain or the private key
    cannot be used (its path is not configured, or loading the pair
    fails: a file missing or unreadable, a key that does not match),
    [with_application_server] raises before the site is started: the
    world is left as it was, so no port is bound, and the body of the
    scope never runs, so no connection is accepted. [run] then ends with
    that error, with no port held and no event of the listener. *)
Theorem unusable_tls_material_binds_nothing (P : Platform) (A : Type)
  (app : Application) (port : N) (scope_body : M A) (incoming : list Request)
  (w : World) :
  tls_material_unusable P w ->
  (exists e, with_application_server P app port true scope_body w = (Raise e, w))
  /\ (exists e w', run P incoming w = (Raise e, w')
                   /\ listening w' = listening w
                   /\ connections w' = connections w
                   /\ trace w' = trace w).
Proof.
  assert (Hssl : forall w0, tls_material_unusable P w0 ->
                 exists e, make_ssl_ctx P true w0 = (Raise e, w0)).
  { intros w0 Hbad.
    unfold make_ssl_ctx, environ_item, environ_get, bind, gets, ssl_call, lift_option.
    destruct (ssl_create_default_context P (environ w0 !! py "SSL_CA_PATH")) as [e|];
      [exists e; reflexivity|].
    unfold ret.
    destruct Hbad as [Hc|[Hk|(c & k & e & Hc & Hk & He)]].
    - rewrite Hc. eexists. reflexivity.
    - destruct (environ w0 !! py "SSL_CERT_PATH"); cbn beta iota; [rewrite Hk|];
        eexists; reflexivity.
    - rewrite Hc, Hk. cbn beta iota. rewrite He. exists e. reflexivity. }
  assert (Hscope : forall app0 (body0 : M A) w0, tls_material_unusable P w0 ->
                   exists e, with_application_server P app0 port true body0 w0
                             = (Raise e, w0)).
  { intros app0 body0 w0 Hbad. destruct (Hssl w0 Hbad) as [e E]. exists e.
    unfold with_application_server, startup, bind. rewrite E. reflexivity. }
  intros Hbad. split; [apply Hscope, Hbad|].
  rewrite run_cases.
  set (w1 := with_heap _ w).
  destruct (is_dir P (py "/home/ubuntu/theClimberDiary")).
  - destruct (Hssl w1 Hbad) as [e E].
    exists e, w1. unfold with_application_server, startup, bind. rewrite E.
    repeat split.
  - exists ValueError, w1. repeat split.
Qed.

(** A key that does not match the certificate. *)
Lemma unusable_tls_material_binds_nothing_witness :
  (exists e, with_application_server cpython_bad_key (application cpython_bad_key 0) 443 true
               (event_wait cpython_bad_key (application cpython_bad_key 0) [ping_5])
               (initial_world Sample.env)
             = (Raise e, initial_world Sample.env))
  /\ (exists e w', run cpython_bad_key [ping_5] (initial_world Sample.env) = (Raise e, w')
                   /\ listening w' = listening (initial_world Sample.env)
                   /\ connections w' = connections (initial_world Sample.env)
                   /\ trace w' = trace (initial_world Sample.env)).
Proof.
  apply (unusable_tls_material_binds_nothing cpython_bad_key unit).
  right. right.
  exists (py "/etc/ssl/site.pem"), (py "/etc/ssl/site.key"), (SSLError (py "KEY_VALUES_MISMATCH")).
  repeat split; reflexivity.
Defined.

(** C7. Once the scope of [with_application_server] is entered, however
    its body ends (it returns, it is cancelled, it raises: the outcome is
    any [fst (scope_body w2)]), the [finally] block runs to its end: the
    sites are stopped, which frees their ports, the open connections are
    closed, and only then comes the pause of 10 ms; the scope ends with
    the outcome of the body, no port is held and no connection is open.
    Cancellation is what the body raises at its [await]; the block itself
    is taken to run undisturbed. *)
Theorem release_runs_on_every_exit (P : Platform) (A : Type) (app : Application)
  (port : N) (use_ssl : bool) (scope_body : M A) (w w1 : World) :
  startup P port use_ssl w = (Ret tt, w1) ->
  exists w2 w4,
    Logging.info (starting_message P port) w1 = (Ret tt, w2)
    /\ with_application_server P app port use_ssl scope_body w
       = (fst (scope_body w2), w4)
    /\ listening w4 = []
    /\ connections w4 = 0
    /\ trace w4 = trace (snd (scope_body w2))
                  ++ List.map EvStopListening (listening (snd (scope_body w2)))
                  ++ [EvCloseConnections; EvSleep 10]
    /\ clock w4 = clock (snd (scope_body w2)) + 10.
Proof.
  intros Hstart.
  destruct (info_logged (starting_message P port) w1) as (w2 & E2 & _).
  destruct (release_spec P port (snd (scope_body w2))) as (w4 & E4 & Hl & Hc & Ht & Hk).
  exists w2, w4. split; [exact E2|]. split; [|auto].
  unfold with_application_server, bind at 1. rewrite Hstart.
  unfold try_finally, bind. rewrite E2.
  destruct (scope_body w2) as [o w3]. cbn [fst snd] in *. rewrite E4. reflexivity.
Qed.

(** A run that answers one ping and is then cancelled. *)
Lemma release_runs_on_every_exit_witness :
  exists w2 w4,
    Logging.info (starting_message cpython 443)
      (snd (startup cpython 443 true serving_not_yet)) = (Ret tt, w2)
    /\ with_application_server cpython (application cpython 0) 443 true
         (event_wait cpython (application cpython 0) [ping_5]) serving_not_yet
       = (fst (event_wait cpython (application cpython 0) [ping_5] w2), w4)
    /\ listening w4 = []
    /\ connections w4 = 0
    /\ trace w4 = trace (snd (event_wait cpython (application cpython 0) [ping_5] w2))
                  ++ List.map EvStopListening
                       (listening (snd (event_wait cpython (application cpython 0) [ping_5] w2)))
                  ++ [EvCloseConnections; EvSleep 10]
    /\ clock w4 = clock (snd (event_wait cpython (application cpython 0) [ping_5] w2)) + 10.
Proof.
  apply (release_runs_on_every_exit cpython unit (application cpython 0) 443 true
           (event_wait cpython (application cpython 0) [ping_5]) serving_not_yet
           (snd (startup cpython 443 true serving_not_yet))).
  vm_compute. reflexivity.
Defined.

(** C8. [Server()] stores an object whose [_step] is 2, and nothing
    writes a server object afterwards: handling a ping, handling any GET
    request in the application, and serving any sequence of requests all
    leave the store of server objects exactly as it was, so over a whole
    [run] the store is the initial one plus the object constructed. *)
Theorem server_state_is_never_written (P : Platform) :
  (forall w, exists w1,
      Server_new w = (Ret (fresh (dom (heap w))), w1)
      /\ heap w1 = <[fresh (dom (heap w)) := Server_init]> (heap w))
  /\ _step Server_init = 2%Z
  /\ (forall self request w, heap (snd (handle_ping P self request w)) = heap w)
  /\ (forall self app request w,
        _make_app P self = Ret app ->
        heap (snd (handle_request P app request w)) = heap w)
  /\ (forall self app incoming w,
        _make_app P self = Ret app ->
        heap (snd (serve P app incoming w)) = heap w)
  /\ (forall incoming w,
        heap (snd (run P incoming w))
        = <[fresh (dom (heap w)) := Server_init]> (heap w)).
Proof.
  assert (R1 : forall w, heap_untouched w w) by reflexivity.
  assert (R2 : forall w1 w2 w3, heap_untouched w1 w2 -> heap_untouched w2 w3 ->
                                heap_untouched w1 w3).
  { unfold heap_untouched. congruence. }
  assert (R3 : forall t l c tr w, heap_untouched w (with_net t l c tr w)) by reflexivity.
  assert (R4 : forall name level msg,
               no_stamp msg -> respects heap_untouched (Logging.log name level msg)).
  { intros name level msg _. apply heap_untouched_log. }
  split; [|split; [reflexivity|split; [|split; [|split]]]].
  - intros w. eexists. split; reflexivity.
  - intros self request w.
    apply (respects_handle_ping heap_untouched R1 R2 heap_untouched_info).
  - intros self app request w [_ ->]%make_app_returns.
    apply (respects_handle_request heap_untouched R1 R2 R3 heap_untouched_info R4).
  - intros self app incoming w [_ ->]%make_app_returns.
    apply (respects_serve heap_untouched R1 R2 R3 heap_untouched_info R4).
  - intros incoming w. rewrite run_cases.
    destruct (is_dir P (py "/home/ubuntu/theClimberDiary")); [|reflexivity].
    rewrite (heap_untouched_scope P _ incoming _). reflexivity.
Qed.

(** C9, as amended. The [value] strings that [handle_ping] accepts are
    exactly the integer literals within the limits: optional white space
    around, an optional sign, decimal digits with single underscores
    allowed between digits (white space and digits of Unicode included),
    provided that neither the number of digits of the literal nor that of
    the result exceeds the interpreter's guard on conversions between
    [int] and [str]; the answer is then the value plus Offset, and [" +5 "]
    reads as 5. On every other string the handler raises
    [ValueError]. *)
Theorem accepted_values_are_literals_within_limit (P : Platform) (self : nat)
  (server : Server) (request : Request) (s : pystr) (w : World) :
  heap w !! self = Some server ->
  headers_get (req_headers request) (py "value") = Some s ->
  (forall v n,
      reads (unicode P) s v n ->
      within_limit P n ->
      within_limit P (width (v + _step server)) ->
      exists w', handle_ping P self request w = (Ret (json_200 (v + _step server)), w'))
  /\ (~ (exists v n, reads (unicode P) s v n /\ within_limit P n
                     /\ within_limit P (width (v + _step server))) ->
      exists w', handle_ping P self request w = (Raise ValueError, w'))
  /\ reads (unicode P) (py " +5 ") 5 1.
Proof.
  intros Hobj Hval.
  destruct (handle_ping_outcome P self request w) as (w' & E & _).
  rewrite Hobj, Hval in E. unfold ping_outcome in E.
  split; [|split].
  - intros v n Hreads Hn Hout.
    assert (Hint : int_of_str (unicode P) (int_max_str_digits P) s = Some v).
    { apply IntFacts.int_of_str_reads. exists n. auto. }
    rewrite Hint, (IntFacts.int_repr_decimal _ _ Hout) in E.
    exists w'. exact E.
  - intros Hnone. exists w'.
    destruct (int_of_str (unicode P) (int_max_str_digits P) s) as [v|] eqn:Hint;
      [|exact E].
    apply IntFacts.int_of_str_reads in Hint as (n & Hreads & Hn).
    unfold int_repr in E.
    destruct (exceeds_limit (int_max_str_digits P)
                (N.of_nat (length (digits_of (Z.abs_N (v + _step server)))))) eqn:Hout;
      [exact E|].
    exfalso. apply Hnone. exists v, n. auto.
  - exists {| lead := [32]; sign := Plus; first := 53; more := []; trail := [32] |}.
    repeat split.
Qed.

(** The header [" +5 "] is answered with 7. *)
Lemma accepted_values_are_literals_within_limit_witness :
  exists w', handle_ping cpython 0 ping_spaced serving = (Ret (json_200 7), w').
Proof.
  destruct (accepted_values_are_literals_within_limit cpython 0 Server_init
              ping_spaced (py " +5 ") serving eq_refl eq_refl)
    as (Haccepted & _ & Hreads).
  apply (Haccepted 5%Z 1 Hreads); reflexivity.
Defined.

(** C9 as stated fails under the default guard of 4300 digits: the plain
    digit string of 4301 ones is of the described form and is rejected;
    and the string of 4300 nines is read by [int()] but not accepted,
    since the result has 4301 digits and cannot be rendered. *)
Lemma long_digit_string_is_rejected :
  ((exists v, reads (unicode cpython) (repeat 49 4301) v 4301)
   /\ headers_get (req_headers ping_long) (py "value") = Some (repeat 49 4301)
   /\ fst (handle_ping cpython 0 ping_long serving) = Raise ValueError)
  /\ ((exists v, int_of_str (unicode cpython) (int_max_str_digits cpython)
                   (repeat 57 4300) = Some v)
      /\ headers_get (req_headers ping_nines) (py "value") = Some (repeat 57 4300)
      /\ fst (handle_ping cpython 0 ping_nines serving) = Raise ValueError).
Proof.
  split; [split; [|split]|split; [|split]].
  - eexists.
    pose proof (plain_reads (unicode cpython) 49 (repeat 49 4300)
                  (forallb_repeat _ 49 4301 eq_refl)) as H.
    rewrite repeat_length in H. exact H.
  - reflexivity.
  - destruct (handle_ping_outcome cpython 0 ping_long serving) as (w' & E & _).
    rewrite E. cbn [fst].
    change (heap serving !! 0%nat) with (Some Server_init).
    change (headers_get (req_headers ping_long) (py "value"))
      with (Some (repeat 49 4301)).
    apply ping_outcome_too_long; reflexivity.
  - pose proof (int_of_plain (unicode cpython) (int_max_str_digits cpython) 57
                  (repeat 57 4299) (forallb_repeat _ 57 4300 eq_refl)) as H.
    rewrite repeat_length in H. eexists. exact H.
  - reflexivity.
  - destruct (handle_ping_outcome cpython 0 ping_nines serving) as (w' & E & _).
    rewrite E. cbn [fst].
    change (heap serving !! 0%nat) with (Some Server_init).
    change (headers_get (req_headers ping_nines) (py "value"))
      with (Some (repeat 57 4300)).
    apply ping_outcome_nines; [cbn; lia | reflexivity].
Qed.

(** C10. Two GET /ping requests with equal [value] headers (or both
    without one), handled by server objects in the same state on the same
    interpreter, come to the same outcome: responses equal in status,
    headers and body, or the same exception. Nothing else of the requests
    or of the worlds matters. *)
Theorem ping_outcome_depends_on_value_only (P : Platform) (self1 self2 : nat)
  (server : Server) (request1 request2 : Request) (w1 w2 : World) :
  heap w1 !! self1 = Some server ->
  heap w2 !! self2 = Some server ->
  headers_get (req_headers request1) (py "value")
  = headers_get (req_headers request2) (py "value") ->
  fst (handle_ping P self1 request1 w1) = fst (handle_ping P self2 request2 w2).
Proof.
  intros H1 H2 Hval.
  destruct (handle_ping_outcome P self1 request1 w1) as (w1' & E1 & _).
  destruct (handle_ping_outcome P self2 request2 w2) as (w2' & E2 & _).
  rewrite E1, E2, H1, H2, Hval. reflexivity.
Qed.

(** The same value under [value] and under [Value], with and without an
    [Origin], while the root logger is at different levels. *)
Lemma ping_outcome_depends_on_value_only_witness :
  fst (handle_ping cpython 0 ping_5 serving)
  = fst (handle_ping cpython 0 ping_5_cross (with_root_level Logging.DEBUG serving)).
Proof.
  apply (ping_outcome_depends_on_value_only cpython 0 0 Server_init); reflexivity.
Defined.

End Claims.

(* ===================================================================== *)
(** ** The requests served *)
(* ===================================================================== *)

Module ServingFacts.
Import Web Main Frames EffectFacts FrameFacts ProgramFacts Observations.
Import PyInt Literal IntFacts.

Lemma with_root_handlers_same w hs :
  root_handlers w = hs -> with_root_handlers hs w = w.
Proof. intros <-. destruct w; reflexivity. Qed.

(** [logging.info] when the root logger writes to the standard error
    stream: one line more, and the basic handler is in place. *)
Lemma info_to_stderr msg w :
  logs_to_stderr w -> Logging.info msg w = (Ret tt, logged_line msg w).
Proof.
  intros [Hlevel Hh]. unfold Logging.info, bind, gets.
  assert (Hleb : forall w0, root_level w0 = root_level w ->
                 (root_level w0 <=? Logging.INFO) = true).
  { intros w0 ->. apply N.leb_le, Hlevel. }
  destruct Hh as [Hh|Hh]; rewrite Hh.
  - unfold Logging.basicConfig, bind, gets. rewrite Hh.
    unfold Logging.addHandler, modify. rewrite Hh. cbn [app].
    rewrite Hleb by reflexivity. reflexivity.
  - unfold ret. rewrite Hleb by reflexivity. rewrite Hh.
    unfold logged_line. rewrite (with_root_handlers_same w _ Hh). reflexivity.
Qed.

(** [handle_ping] with the root logger on the standard error stream. *)
Lemma handle_ping_to_stderr P self request w :
  logs_to_stderr w ->
  handle_ping P self request w
  = (ping_outcome P (heap w !! self) (headers_get (req_headers request) (py "value")),
     logged_line (ping_message request) w).
Proof.
  intros Hw. unfold handle_ping, bind.
  fold (ping_message request). rewrite (info_to_stderr _ _ Hw).
  unfold ping_outcome, int_.
  destruct (headers_get (req_headers request) (py "value")) as [s|]; [|reflexivity].
  unfold lift_option.
  destruct (int_of_str (unicode P) (int_max_str_digits P) s) as [v|]; [|reflexivity].
  unfold ret, get_step, bind, gets.
  change (heap (logged_line (ping_message request) w)) with (heap w).
  destruct (heap w !! self) as [srv|]; [|reflexivity].
  unfold ret, json_response, json_dumps, bind, lift_option.
  destruct (int_repr (int_max_str_digits P) (v + _step srv)); reflexivity.
Qed.

Lemma is_ping_path request : is_ping request = true -> req_path request = py "/ping".
Proof. unfold is_ping, pystr_eqb. apply bool_decide_eq_true_1. Qed.

(** The response hook on the route of /ping. *)
Lemma prepared_with_cors P self request response :
  cors_on_response_prepare P (application P self) (Some 1%nat) request response
  = with_cors P request response.
Proof.
  unfold with_cors.
  destruct (headers_get (req_headers request) (py "Origin")) as [origin|] eqn:Horigin.
  - apply prepared_ping, Horigin.
  - unfold cors_on_response_prepare. rewrite make_app_cors, Horigin.
    destruct (bool_decide _); reflexivity.
Qed.

(** The response hook off the route of /ping adds nothing. *)
Lemma prepared_elsewhere P self resource request response :
  resource <> Some 1%nat ->
  cors_on_response_prepare P (application P self) resource request response = response.
Proof.
  intros Hne. unfold cors_on_response_prepare. rewrite make_app_cors.
  destruct resource as [i|]; [|reflexivity]. cbn [cors_resources].
  destruct (bool_decide (i ∈ [1%nat])) eqn:Hin; [|reflexivity].
  apply bool_decide_eq_true_1, list_elem_of_singleton in Hin. congruence.
Qed.

(** *** What the logging calls write through the basic handler *)

Ltac net_fields :=
  unfold responded;
  cbn [environ heap clock listening connections trace root_level root_handlers
       files stderr with_net].

Lemma wrote_refl w : wrote [] w w.
Proof. intros Hh. rewrite app_nil_r. auto. Qed.

Lemma wrote_net t l c tr w : wrote [] w (with_net t l c tr w).
Proof. intros Hh. cbn. rewrite app_nil_r. auto. Qed.

Lemma wrote_trans l1 l2 w1 w2 w3 :
  wrote l1 w1 w2 -> wrote l2 w2 w3 -> wrote (l1 ++ l2) w1 w3.
Proof.
  intros H12 H23 Hh. destruct (H12 Hh) as (Hlv & Hh2 & Hf & He).
  destruct (H23 Hh2) as (Hlv' & Hh3 & Hf' & He').
  rewrite Hlv', Hlv, Hf', Hf, He', He, app_assoc. auto.
Qed.

(** A record through the basic handler. *)
Lemma callHandlers_basic_handler name level msg w :
  Logging.callHandlers name level msg [basic_handler] w
  = (Ret tt,
     with_stderr (stderr w ++ [[Text (Logging.getLevelName level); Text (py ":");
                                Text name; Text (py ":"); msg]]) w).
Proof.
  cbn [Logging.callHandlers]. unfold bind, Logging.handle, basic_handler.
  cbn [h_level h_stream h_formatter].
  replace (Logging.NOTSET <=? level) with true
    by (symmetry; apply N.leb_le; unfold Logging.NOTSET; lia).
  reflexivity.
Qed.

(** [logging.info] returns; with the basic handler in place it writes
    its line if the root logger lets INFO through, and nothing else. *)
Lemma info_wrote msg w :
  exists w', Logging.info msg w = (Ret tt, w') /\ logged w w'
             /\ wrote (lines_at (root_level w) Logging.INFO (basic_line msg)) w w'.
Proof.
  destruct (info_logged msg w) as (w' & E & L). exists w'. split; [exact E|].
  split; [exact L|]. intros Hh. revert E.
  unfold Logging.info, bind, gets. rewrite Hh. unfold ret at 1.
  unfold lines_at. destruct (root_level w <=? Logging.INFO).
  - rewrite ?Hh, callHandlers_basic_handler. intros [= <-]. cbn. rewrite ?Hh. auto.
  - unfold ret. intros [= <-]. rewrite app_nil_r. auto.
Qed.

(** The first [logging.info] of a process installs the basic handler,
    whatever the level of the root logger. *)
Lemma info_first msg w :
  root_handlers w = [] ->
  exists w', Logging.info msg w = (Ret tt, w') /\ logged w w'
             /\ root_level w' = root_level w /\ root_handlers w' = [basic_handler]
             /\ files w' = files w
             /\ stderr w' = stderr w ++ lines_at (root_level w) Logging.INFO (basic_line msg).
Proof.
  intros Hh. destruct (info_logged msg w) as (w' & E & L). exists w'.
  split; [exact E|]. split; [exact L|]. revert E.
  unfold Logging.info, bind, gets. rewrite Hh.
  unfold Logging.basicConfig, bind, gets. rewrite Hh.
  unfold Logging.addHandler, modify. cbn [root_level with_root_handlers root_handlers].
  rewrite Hh. cbn [app]. fold basic_handler.
  unfold lines_at. destruct (root_level w <=? Logging.INFO).
  - rewrite ?Hh; cbn [app]; fold basic_handler;
      rewrite callHandlers_basic_handler. intros [= <-]. cbn. auto.
  - unfold ret. intros [= <-]. cbn. rewrite app_nil_r. auto.
Qed.

(** A record of a logger of aiohttp. *)
Lemma log_wrote name level msg w :
  exists w', Logging.log name level msg w = (Ret tt, w') /\ logged w w'
             /\ wrote (lines_at (root_level w) level
                         [Text (Logging.getLevelName level); Text (py ":");
                          Text name; Text (py ":"); msg]) w w'.
Proof.
  destruct (log_logged name level msg w) as (w' & E & L). exists w'.
  split; [exact E|]. split; [exact L|]. intros Hh. revert E.
  unfold Logging.log, bind, gets.
  unfold lines_at. destruct (root_level w <=? level).
  - cbn beta. rewrite Hh, callHandlers_basic_handler. intros [= <-]. cbn.
    rewrite ?Hh. auto.
  - unfold ret. intros [= <-]. rewrite app_nil_r. auto.
Qed.

Lemma log_returns name level msg w :
  Logging.log name level msg w = (Ret tt, snd (Logging.log name level msg w)).
Proof.
  destruct (log_logged name level msg w) as (w' & E & _). rewrite E. reflexivity.
Qed.

(** [handle_ping]: the outcome, and the line. *)
Lemma handle_ping_wrote P self request w :
  exists w',
    handle_ping P self request w
    = (ping_outcome P (heap w !! self) (headers_get (req_headers request) (py "value")),
       w')
    /\ logged w w'
    /\ wrote (lines_at (root_level w) Logging.INFO (basic_line (ping_message request)))
             w w'.
Proof.
  destruct (handle_ping_outcome P self request w) as (w' & E & L).
  exists w'. split; [exact E|]. split; [exact L|].
  destruct (info_wrote (ping_message request) w) as (w1 & E1 & _ & W1).
  assert (w' = w1) as ->; [|exact W1].
  revert E. unfold handle_ping, bind. fold (ping_message request). rewrite E1.
  destruct (int_ P (headers_get (req_headers request) (py "value")) w1)
    as [[v|e] w2] eqn:E2.
  - assert (w2 = w1) as ->.
    { unfold int_ in E2. destruct (headers_get _ _); [|discriminate].
      unfold lift_option in E2. destruct (int_of_str _ _ _); inversion E2. reflexivity. }
    unfold get_step, bind, gets. destruct (heap w1 !! self).
    + unfold ret, json_response, json_dumps, bind, lift_option.
      destruct (int_repr _ _); intros [= _ <-]; reflexivity.
    + intros [= _ <-]. reflexivity.
  - assert (w2 = w1) as ->.
    { unfold int_ in E2. destruct (headers_get _ _).
      - unfold lift_option in E2. destruct (int_of_str _ _ _); inversion E2. reflexivity.
      - inversion E2. reflexivity. }
    intros [= _ <-]. reflexivity.
Qed.

(** An exception [handle_ping] can raise, at the protocol. *)
Lemma handle_error_wrote e w :
  e = TypeError \/ e = ValueError \/ e = AttributeError ->
  exists w', handle_error e w = (Ret (error_response 500), w') /\ logged w w'
             /\ wrote (lines_at (root_level w) Logging.ERROR (error_line e)) w w'.
Proof.
  intros He.
  destruct (log_wrote (py "aiohttp.server") Logging.ERROR (ErrorMessage e) w)
    as (w' & E & L & W).
  exists w'. split; [|split; [exact L | exact W]].
  destruct He as [-> | [-> | ->]]; cbn [handle_error]; unfold bind; rewrite E; reflexivity.
Qed.

(** The end of [handle_request]: the response is sent, the access record
    is logged. *)
Lemma sent_wrote (request : Request) (prepared : Response) w :
  (emit (EvResponse (status prepared)) ;;
   Logging.log (py "aiohttp.access") Logging.INFO
     (AccessMessage (req_path request) (status prepared)) ;;
   ret prepared) w
  = (Ret prepared, answered request (status prepared) w).
Proof.
  unfold bind at 1, emit, modify. unfold bind at 1, answered, responded.
  rewrite log_returns. reflexivity.
Qed.

Lemma answered_wrote request code w :
  logged (responded code w) (answered request code w)
  /\ wrote (lines_at (root_level w) Logging.INFO (access_line (req_path request) code))
           w (answered request code w).
Proof.
  unfold answered.
  destruct (log_wrote (py "aiohttp.access") Logging.INFO
              (AccessMessage (req_path request) code) (responded code w))
    as (w' & E & L & W).
  rewrite E. cbn [snd]. split; [exact L|]. exact W.
Qed.

(** Any GET request off /ping through the application: no handler of
    the program runs, and the hook adds nothing. *)
Lemma handle_request_plain P self request w :
  is_ping request = false ->
  handle_request P (application P self) request w
  = (Ret (plain_answer P request),
     answered request (status (plain_answer P request)) w).
Proof.
  intros Hping. unfold handle_request, resolve, plain_answer.
  rewrite make_app_router. cbn [resolve_from res_pattern res_get].
  destruct (matches (StaticResource (py "/page")) (req_path request)) eqn:Hstatic.
  - cbn [option_map fst]. unfold bind at 1, try_except, static_handle.
    change (length (py "/page") + 1)%nat with 6%nat.
    destruct (static_file P _ _) as [refusal|content];
      cbn [handle_error raise ret]; rewrite prepared_elsewhere by discriminate;
      apply sent_wrote.
  - change (matches (PlainResource (py "/ping")) (req_path request))
      with (is_ping request). rewrite Hping.
    cbn [option_map]. unfold bind at 1, try_except.
    cbn [handle_error raise ret]. rewrite prepared_elsewhere by discriminate.
    apply sent_wrote.
Qed.

(** Every GET request is answered: the response is that of
    [response_to]; the world changes by the event of the response and by
    the log, and what the basic handler writes are the lines of
    [request_lines]. *)
Lemma handle_request_spec P self request w :
  exists w',
    handle_request P (application P self) request w
    = (Ret (response_to P (heap w !! self) request), w')
    /\ environ w' = environ w /\ heap w' = heap w /\ clock w' = clock w
    /\ listening w' = listening w /\ connections w' = connections w
    /\ trace w' = trace w
                  ++ [EvResponse (status (response_to P (heap w !! self) request))]
    /\ wrote (request_lines P (root_level w) (heap w !! self) request) w w'.
Proof.
  unfold request_lines, failure_lines, response_to.
  destruct (is_ping request) eqn:Hping.
  - unfold handle_request.
    rewrite (resolve_ping P self request (is_ping_path _ Hping)).
    cbn [option_map fst]. unfold bind at 1, try_except.
    destruct (handle_ping_wrote P self request w)
      as (w1 & E & (He1 & Hh1 & Hc1 & Hl1 & Hn1 & Ht1) & W1).
    rewrite E.
    set (o := ping_outcome P (heap w !! self)
                (headers_get (req_headers request) (py "value"))).
    assert (Ho : (exists r, o = Ret r)
                 \/ exists e, o = Raise e
                              /\ (e = TypeError \/ e = ValueError \/ e = AttributeError)).
    { destruct (ping_outcome_cases P (heap w !! self)
                  (headers_get (req_headers request) (py "value")))
        as [[t Ho]|[Ho|[Ho|Ho]]]; fold o in Ho; rewrite Ho; eauto 6. }
    destruct Ho as [[r Ho]|(e & Ho & He)]; rewrite Ho.
    + cbn [answer]. rewrite prepared_with_cors, sent_wrote.
      destruct (answered_wrote request (status (with_cors P request r)) w1)
        as ((He2 & Hh2 & Hc2 & Hl2 & Hn2 & Ht2) & W2).
      eexists. split; [reflexivity|].
      rewrite He2, Hh2, Hc2, Hl2, Hn2, Ht2. net_fields.
      rewrite He1, Hh1, Hc1, Hl1, Hn1, Ht1. do 6 (split; [reflexivity|]).
      intros Hh. destruct (W1 Hh) as (Hlv & Hh' & Hf & Herr).
      destruct (W2 Hh') as (Hlv' & Hh'' & Hf' & Herr').
      rewrite Hlv', Hlv, Hf', Hf, Herr', Herr, Hlv, <- app_assoc. auto.
    + destruct (handle_error_wrote e w1 He)
        as (w2 & E2 & (He2 & Hh2 & Hc2 & Hl2 & Hn2 & Ht2) & W2).
      assert (Herror : handle_error e w1 = (Ret (error_response 500), w2)) by exact E2.
      rewrite Herror.
      assert (Hanswer : answer (Raise e) = error_response 500).
      { destruct He as [-> | [-> | ->]]; reflexivity. }
      rewrite Hanswer, prepared_with_cors, sent_wrote.
      destruct (answered_wrote request (status (with_cors P request (error_response 500))) w2)
        as ((He3 & Hh3 & Hc3 & Hl3 & Hn3 & Ht3) & W3).
      eexists. split; [reflexivity|].
      rewrite He3, Hh3, Hc3, Hl3, Hn3, Ht3. net_fields.
      rewrite He2, Hh2, Hc2, Hl2, Hn2, Ht2, He1, Hh1, Hc1, Hl1, Hn1, Ht1.
      do 6 (split; [reflexivity|]).
      intros Hh. destruct (W1 Hh) as (Hlv & Hh' & Hf & Herr).
      destruct (W2 Hh') as (Hlv' & Hh'' & Hf' & Herr').
      destruct (W3 Hh'') as (Hlv'' & Hh''' & Hf'' & Herr'').
      rewrite Hlv'', Hlv', Hlv, Hf'', Hf', Hf, Herr'', Herr', Herr, Hlv', Hlv,
        <- !app_assoc. auto.
  - rewrite (handle_request_plain P self request w Hping).
    destruct (answered_wrote request (status (plain_answer P request)) w)
      as ((He2 & Hh2 & Hc2 & Hl2 & Hn2 & Ht2) & W2).
    eexists. split; [reflexivity|].
    rewrite He2, Hh2, Hc2, Hl2, Hn2, Ht2. net_fields.
    do 6 (split; [reflexivity|]). exact W2.
Qed.

(** Serving a sequence of requests while a port is held. *)
Lemma serve_spec P self incoming : forall w,
  listening w <> [] ->
  exists w',
    serve P (application P self) incoming w
    = (Ret (List.map (response_to P (heap w !! self)) incoming), w')
    /\ environ w' = environ w /\ heap w' = heap w /\ clock w' = clock w
    /\ listening w' = listening w
    /\ connections w' = connections w + N.of_nat (length incoming)
    /\ trace w' = trace w
                  ++ List.map (fun request =>
                                 EvResponse (status (response_to P (heap w !! self) request)))
                              incoming
    /\ wrote (flat_map (request_lines P (root_level w) (heap w !! self)) incoming) w w'.
Proof.
  induction incoming as [|request rest IH]; intros w Hl.
  - exists w. cbn [serve List.map flat_map length]. rewrite app_nil_r, N.add_0_r.
    do 7 (split; [reflexivity|]). apply wrote_refl.
  - cbn [serve]. unfold bind at 1, gets.
    destruct (listening w) as [|port held] eqn:El; [congruence|].
    unfold bind at 1, modify.
    set (w0 := with_net (clock w) (listening w) (connections w + 1) (trace w) w).
    destruct (handle_request_spec P self request w0)
      as (w1 & E & He & Hh & Hc & Hli & Hco & Ht & W).
    unfold bind at 1. rewrite E.
    destruct (IH w1) as (w' & E' & He' & Hh' & Hc' & Hli' & Hco' & Ht' & W').
    { rewrite Hli. cbn. rewrite El. discriminate. }
    assert (Hh1 : heap w1 = heap w) by exact Hh.
    rewrite Hh1 in E', Ht', W'.
    unfold bind at 1. rewrite E'. unfold ret.
    exists w'. split; [reflexivity|].
    rewrite He', Hh', Hc', Hli', Hco', Ht'. cbn [length List.map flat_map].
    rewrite He, Hh, Hc, Hli, Hco, Ht. subst w0. net_fields.
    rewrite El, <- app_assoc. cbn [app].
    do 4 (split; [reflexivity|]). split; [lia|]. split; [reflexivity|].
    intros Hroot. destruct (W Hroot) as (Hlv & Hh2 & Hf & Herr).
    rewrite Hlv in W'. destruct (W' Hh2) as (Hlv' & Hh3 & Hf' & Herr').
    rewrite Hlv', Hf', Hf, Herr', Herr, <- app_assoc. auto.
Qed.

End ServingFacts.

(* ===================================================================== *)
(** ** The scope around the server *)
(* ===================================================================== *)

Module ScopeFacts.
Import Web Main Frames EffectFacts FrameFacts ProgramFacts Observations ServingFacts.
Import PyInt Literal IntFacts.

(** The TLS set-up step by step: it changes nothing, and ends with the
    first failure met. *)
Lemma make_ssl_ctx_spec P w :
  make_ssl_ctx P true w
  = (match tls_failure P w with Some e => Raise e | None => Ret true end, w).
Proof.
  unfold make_ssl_ctx, tls_failure, environ_item, environ_get, bind, gets, ssl_call,
    lift_option.
  destruct (ssl_create_default_context P (environ w !! py "SSL_CA_PATH")); [reflexivity|].
  unfold ret.
  destruct (environ w !! py "SSL_CERT_PATH") as [certfile|]; [|reflexivity].
  cbn beta iota.
  destruct (environ w !! py "SSL_PRIVATE_KEY_PATH") as [keyfile|]; [|reflexivity].
  cbn beta iota.
  destruct (ssl_load_cert_chain P certfile keyfile); reflexivity.
Qed.

Lemma tls_ready_failure P w : tls_ready P w <-> tls_failure P w = None.
Proof.
  unfold tls_ready, tls_failure. split.
  - intros (Hca & c & k & Hc & Hk & Hload). rewrite Hca, Hc, Hk. exact Hload.
  - destruct (ssl_create_default_context P _); [discriminate|].
    destruct (environ w !! py "SSL_CERT_PATH") as [c|]; [|discriminate].
    destruct (environ w !! py "SSL_PRIVATE_KEY_PATH") as [k|]; [|discriminate].
    intros Hload. split; [reflexivity|]. exists c, k. auto.
Qed.

(** [startup] in one step. *)
Lemma startup_spec P port use_ssl w :
  startup P port use_ssl w
  = match (if use_ssl then tls_failure P w else None) with
    | Some e => (Raise e, w)
    | None =>
        if port_free P port && negb (bool_decide (port ∈ listening w))
        then (Ret tt, listening_on port use_ssl w)
        else (Raise (OSError (py "address already in use")), w)
    end.
Proof.
  unfold startup, bind at 1. destruct use_ssl.
  - rewrite make_ssl_ctx_spec. destruct (tls_failure P w); [reflexivity|].
    unfold runner_setup, bind at 1, ret, site_start, bind, gets.
    destruct (_ && _); reflexivity.
  - cbn [make_ssl_ctx]. unfold ret, runner_setup, bind at 1, ret, site_start, bind, gets.
    destruct (_ && _); reflexivity.
Qed.

Lemma startup_ready_spec P port use_ssl w :
  startup_ready P port use_ssl w
  <-> (if use_ssl then tls_failure P w else None) = None
      /\ port_free P port && negb (bool_decide (port ∈ listening w)) = true.
Proof.
  unfold startup_ready. rewrite andb_true_iff, negb_true_iff, bool_decide_eq_false.
  destruct use_ssl.
  - rewrite <- tls_ready_failure. tauto.
  - split; [intros (_ & H); auto | intros (_ & H); split; [discriminate | exact H]].
Qed.

Lemma startup_ok P port use_ssl w :
  startup_ready P port use_ssl w ->
  startup P port use_ssl w = (Ret tt, listening_on port use_ssl w).
Proof.
  intros [Htls Hport]%startup_ready_spec. rewrite startup_spec, Htls, Hport. reflexivity.
Qed.

Lemma startup_inv P port use_ssl w w1 :
  startup P port use_ssl w = (Ret tt, w1) ->
  startup_ready P port use_ssl w /\ w1 = listening_on port use_ssl w.
Proof.
  rewrite startup_spec, startup_ready_spec.
  destruct (if use_ssl then tls_failure P w else None); [discriminate|].
  destruct (_ && _); [|discriminate]. intros [= <-]. auto.
Qed.

(** A start that fails leaves the world as it was. *)
Lemma startup_fails_in_place P port use_ssl w e w1 :
  startup P port use_ssl w = (Raise e, w1) -> w1 = w.
Proof.
  rewrite startup_spec.
  destruct (if use_ssl then tls_failure P w else None); [intros [= _ <-]; reflexivity|].
  destruct (_ && _); [discriminate | intros [= _ <-]; reflexivity].
Qed.

Lemma scope_entered {A} P app port use_ssl (scope_body : M A) w w1 :
  startup P port use_ssl w = (Ret tt, w1) ->
  with_application_server P app port use_ssl scope_body w
  = try_finally (Logging.info (starting_message P port) ;; scope_body)
                (release P port) w1.
Proof. intros E. unfold with_application_server, bind at 1. rewrite E. reflexivity. Qed.

Lemma scope_not_entered {A} P app port use_ssl (scope_body : M A) w e w1 :
  startup P port use_ssl w = (Raise e, w1) ->
  with_application_server P app port use_ssl scope_body w = (Raise e, w).
Proof.
  intros E. unfold with_application_server, bind at 1. rewrite E.
  rewrite (startup_fails_in_place _ _ _ _ _ _ E). reflexivity.
Qed.

Lemma same_log_refl w : same_log w w.
Proof. repeat split. Qed.

Lemma same_log_trans w1 w2 w3 : same_log w1 w2 -> same_log w2 w3 -> same_log w1 w3.
Proof. unfold same_log. intros (?&?&?&?) (?&?&?&?). repeat split; congruence. Qed.

Lemma stop_sites_same_log ports : forall w, same_log w (snd (stop_sites ports w)).
Proof.
  induction ports as [|port rest IH]; intros w; [apply same_log_refl|].
  cbn [stop_sites]. unfold bind, modify.
  eapply same_log_trans; [|apply IH]. repeat split.
Qed.

(** The [finally] block: it returns, and through the basic handler it
    writes its line if the root logger lets INFO through, and nothing
    else. *)
Lemma release_wrote P port w :
  exists w', release P port w = (Ret tt, w')
             /\ wrote (lines_at (root_level w) Logging.INFO
                         (basic_line (shutting_down_message P port))) w w'.
Proof.
  unfold release, bind at 1.
  destruct (info_wrote (shutting_down_message P port) w) as (w1 & E1 & _ & W1).
  rewrite E1.
  unfold bind at 1, runner_cleanup, bind at 1, gets, bind at 1.
  pose proof (stop_sites_same_log (listening w1) w1) as (Hlv & Hh & He & Hf).
  destruct (stop_sites (listening w1) w1) as [[[]|e] w2] eqn:E2.
  - cbn [snd] in *. unfold modify, asyncio_sleep, modify.
    eexists. split; [reflexivity|]. intros Hroot.
    destruct (W1 Hroot) as (Hlv1 & Hh1 & Hf1 & He1). cbn.
    rewrite Hlv, Hh, He, Hf, Hlv1, Hh1, Hf1, He1. auto.
  - exfalso. destruct (stop_sites_spec (listening w1) w1) as (w2' & E & _). congruence.
Qed.

(** The first line of the scope: the basic handler is in place after
    it, whether it was before or not. *)
Lemma info_start msg w :
  root_handlers w = [] \/ root_handlers w = [basic_handler] ->
  exists w', Logging.info msg w = (Ret tt, w') /\ logged w w'
             /\ root_level w' = root_level w /\ root_handlers w' = [basic_handler]
             /\ files w' = files w
             /\ stderr w' = stderr w ++ lines_at (root_level w) Logging.INFO (basic_line msg).
Proof.
  intros [Hh|Hh]; [apply info_first, Hh|].
  destruct (info_wrote msg w) as (w' & E & L & W). exists w'.
  split; [exact E|]. split; [exact L|]. apply W, Hh.
Qed.


(** The whole scope around [event_wait], when the site starts and the
    root logger has the basic handler or none yet: the lines. *)
Lemma scope_lines P self incoming port use_ssl w :
  startup_ready P port use_ssl w ->
  root_handlers w = [] \/ root_handlers w = [basic_handler] ->
  exists o w',
    with_application_server P (application P self) port use_ssl
      (event_wait P (application P self) incoming) w = (o, w')
    /\ stderr w'
       = stderr w
         ++ lines_at (root_level w) Logging.INFO (basic_line (starting_message P port))
         ++ flat_map (request_lines P (root_level w) (heap w !! self)) incoming
         ++ lines_at (root_level w) Logging.INFO
              (basic_line (shutting_down_message P port))
    /\ files w' = files w
    /\ root_level w' = root_level w.
Proof.
  intros Hready Hroot.
  rewrite (scope_entered _ _ _ _ _ _ _ (startup_ok _ _ _ _ Hready)).
  set (w1 := listening_on port use_ssl w).
  unfold try_finally, bind at 1.
  destruct (info_start (starting_message P port) w1 Hroot)
    as (w2 & E2 & (_ & Hh2 & _ & Hl2 & _) & Hlv2 & Hr2 & Hf2 & He2).
  rewrite E2. unfold event_wait, bind at 1.
  destruct (serve_spec P self incoming w2)
    as (w3 & E3 & _ & _ & _ & _ & _ & _ & W3).
  { rewrite Hl2. cbn. destruct (listening w); discriminate. }
  rewrite E3. unfold raise.
  destruct (W3 Hr2) as (Hlv3 & Hr3 & Hf3 & He3).
  destruct (release_wrote P port w3) as (w4 & E4 & W4).
  destruct (W4 Hr3) as (Hlv4 & _ & Hf4 & He4).
  rewrite E4. eexists. exists w4. split; [reflexivity|].
  rewrite Hlv4, Hf4, He4, Hlv3, Hf3, He3, Hlv2, Hf2, He2, Hh2.
  change (heap w1) with (heap w). change (root_level w1) with (root_level w).
  change (stderr w1) with (stderr w). change (files w1) with (files w).
  rewrite <- !app_assoc. auto.
Qed.

(** Above INFO the lines of a request are those of its failure. *)
Lemma request_lines_above_info P root server request :
  Logging.INFO < root ->
  request_lines P root server request = failure_lines P root server request.
Proof.
  intros Hroot. unfold request_lines, lines_at.
  replace (root <=? Logging.INFO) with false by (symmetry; apply N.leb_gt, Hroot).
  destruct (is_ping request); cbn [app]; apply app_nil_r.
Qed.

Lemma served_lines_above_info P root server incoming :
  Logging.INFO < root ->
  flat_map (request_lines P root server) incoming
  = flat_map (failure_lines P root server) incoming.
Proof.
  intros Hroot. induction incoming as [|request rest IH]; [reflexivity|].
  cbn [flat_map]. rewrite IH, (request_lines_above_info _ _ _ _ Hroot). reflexivity.
Qed.

(** [int()] on the text of a literal: refused when it has more digits
    than the guard allows, read with the value of the literal else. *)
Lemma int_of_str_literal U m l :
  well_formed (is_space U) (digit_of U) l = true ->
  int_of_str U m (text l)
  = if exceeds_limit m (digit_count l) then None else Some (value (digit_of U) l).
Proof.
  intros Hwf. unfold int_of_str.
  rewrite transform_classified by (apply well_formed_classified, Hwf).
  rewrite <- text_map_literal by apply transform_char_fixes.
  rewrite parse_literal_limit by (rewrite well_formed_transform; exact Hwf).
  rewrite digit_count_map, value_transform. reflexivity.
Qed.

(** The magnitude of a run of digits is that of their values. *)
Lemma fold_place_values dg cs1 : forall cs2 a,
  List.map dg cs1 = List.map dg cs2 ->
  fold_left (place dg) cs1 a = fold_left (place dg) cs2 a.
Proof.
  induction cs1 as [|c1 cs1 IH]; intros [|c2 cs2] a H; try discriminate H;
    [reflexivity|].
  cbn [List.map] in H. injection H as Hc Hcs. cbn [fold_left].
  unfold place at 2 4. rewrite Hc. apply IH, Hcs.
Qed.

(** The header of a request that has [value] alone. *)
Lemma value_alone t :
  headers_get (req_headers (Sample.ping [(py "value", t)])) (py "value") = Some t.
Proof. reflexivity. Qed.

End ScopeFacts.

(* ===================================================================== *)
(** ** Further properties of the program *)
(* ===================================================================== *)

Module Coverage.
Import Web Main Frames EffectFacts FrameFacts ProgramFacts Sample.
Import Observations ServingFacts ScopeFacts.
Import PyInt Literal LiteralAux IntFacts.

(** X1. [handle_ping] writes its line before it reads the value. With
    the root logger at INFO or below and on the standard error stream,
    every call, whether it returns a response or raises, leaves the world
    as it was but for one line more, [INFO:root:Handling ping with value]
    followed by the text of the header, or by [None] when the header is
    missing; the outcome is that of [ping_outcome]. *)
Theorem ping_line_precedes_validation (P : Platform) (self : nat)
  (request : Request) (w : World) :
  logs_to_stderr w ->
  handle_ping P self request w
  = (ping_outcome P (heap w !! self) (headers_get (req_headers request) (py "value")),
     with_stderr
       (stderr w
        ++ [basic_line (py "Handling ping with value "
                        ++ format_value (headers_get (req_headers request) (py "value")))])
       (with_root_handlers [basic_handler] w)).
Proof.
  intros Hw. rewrite (handle_ping_to_stderr P self request w Hw). reflexivity.
Qed.

(** A ping without the header: the line says [None], then [int(None)]
    raises. *)
Lemma ping_line_precedes_validation_witness :
  handle_ping cpython 0 ping_bare serving_debug
  = (Raise TypeError,
     with_stderr [basic_line (py "Handling ping with value None")]
       (with_root_handlers [basic_handler] serving_debug)).
Proof.
  apply (ping_line_precedes_validation cpython 0 ping_bare serving_debug).
  split; [apply N.leb_le; reflexivity | left; reflexivity].
Defined.

(** X2. While the root logger is above INFO, as it is in a process that
    calls [run] without the set-up of the [__main__] block, a run whose
    site starts writes none of the INFO lines (start, pings, access
    records, shutdown), but it is not silent: [logging.info] has
    installed the handler of [basicConfig], and through it every ping
    whose handler raises leaves the ERROR record of aiohttp on the
    standard error stream, as long as the root logger lets ERROR
    through. These records, in the order of the requests, are all that
    is written; the files and the level are unchanged. *)
Theorem only_failures_are_logged_above_info (P : Platform) (incoming : list Request)
  (w : World) :
  Logging.INFO < root_level w ->
  root_handlers w = [] \/ root_handlers w = [basic_handler] ->
  static_dir_exists P ->
  tls_ready P w ->
  port_free P 443 = true ->
  listening w = [] ->
  stderr (snd (run P incoming w))
  = stderr w ++ flat_map (failure_lines P (root_level w) (Some Server_init)) incoming
  /\ files (snd (run P incoming w)) = files w
  /\ root_level (snd (run P incoming w)) = root_level w.
Proof.
  intros Hlevel Hroot Hdir Htls Hport Hnone. rewrite run_cases, Hdir.
  set (self := fresh (dom (heap w))).
  set (w0 := with_heap (<[self := Server_init]> (heap w)) w).
  assert (Hready : startup_ready P 443 true w0).
  { split; [intros _; exact Htls|]. split; [exact Hport|].
    change (listening w0) with (listening w). rewrite Hnone. apply not_elem_of_nil. }
  destruct (scope_lines P self incoming 443 true w0 Hready Hroot)
    as (o & w' & E & He & Hf & Hlv).
  rewrite E. cbn [snd]. rewrite He, Hf, Hlv.
  change (root_level w0) with (root_level w).
  assert (Hobj : heap w0 !! self = Some Server_init).
  { apply (lookup_insert_eq (M := gmap nat)). }
  rewrite Hobj. unfold lines_at.
  replace (root_level w <=? Logging.INFO) with false
    by (symmetry; apply N.leb_gt, Hlevel).
  cbn [app]. rewrite app_nil_r. split; [|split; reflexivity].
  change (stderr w0) with (stderr w).
  rewrite (served_lines_above_info _ _ _ _ Hlevel). reflexivity.
Qed.

(** A run from the world a process starts in, where the root logger
    warns: a ping that fails, then one that succeeds. *)
Lemma only_failures_are_logged_above_info_witness :
  stderr (snd (run cpython [ping_abc; ping_5] (initial_world Sample.env)))
  = [error_line ValueError]
  /\ files (snd (run cpython [ping_abc; ping_5] (initial_world Sample.env))) = ∅
  /\ root_level (snd (run cpython [ping_abc; ping_5] (initial_world Sample.env)))
     = Logging.WARNING.
Proof.
  apply (only_failures_are_logged_above_info cpython [ping_abc; ping_5]
           (initial_world Sample.env)).
  - reflexivity.
  - left. reflexivity.
  - reflexivity.
  - split; [reflexivity|].
    exists (py "/etc/ssl/site.pem"), (py "/etc/ssl/site.key"). repeat split; reflexivity.
  - reflexivity.
  - reflexivity.
Defined.

(** X3. The site starts exactly when it can: [startup] returns iff the
    TLS material loads (when TLS is asked for; without TLS the
    environment is not looked at) and the port is free and not held by
    this process. When it returns, the only change is the port bound and
    the event of it; when it raises, nothing has changed. *)
Theorem site_starts_iff_ready (P : Platform) (port : N) (use_ssl : bool) (w : World) :
  (startup_ready P port use_ssl w <-> exists w1, startup P port use_ssl w = (Ret tt, w1))
  /\ (forall w1, startup P port use_ssl w = (Ret tt, w1) ->
                 w1 = listening_on port use_ssl w)
  /\ (forall e w1, startup P port use_ssl w = (Raise e, w1) -> w1 = w).
Proof.
  split; [split|split].
  - intros Hready. eexists. apply startup_ok, Hready.
  - intros [w1 E]. apply (startup_inv _ _ _ _ _ E).
  - intros w1 E. apply (startup_inv _ _ _ _ _ E).
  - intros e w1 E. apply (startup_fails_in_place _ _ _ _ _ _ E).
Qed.

(** X4. The failures of the TLS set-up come in the order of the code,
    and each leaves the world untouched and the body of the scope unrun:
    the error of [ssl.create_default_context] first; then
    [KeyError('SSL_CERT_PATH')], also when the key path is missing too;
    then [KeyError('SSL_PRIVATE_KEY_PATH')]; then the error of
    [load_cert_chain]. A missing [SSL_CA_PATH] is no error of its own. *)
Theorem tls_errors_come_in_order (P : Platform) (A : Type) (app : Application)
  (port : N) (scope_body : M A) (w : World) :
  (forall e,
      ssl_create_default_context P (environ w !! py "SSL_CA_PATH") = Some e ->
      with_application_server P app port true scope_body w = (Raise e, w))
  /\ (ssl_create_default_context P (environ w !! py "SSL_CA_PATH") = None ->
      (environ w !! py "SSL_CERT_PATH" = None ->
       with_application_server P app port true scope_body w
       = (Raise (KeyError (py "SSL_CERT_PATH")), w))
      /\ (forall certfile,
             environ w !! py "SSL_CERT_PATH" = Some certfile ->
             environ w !! py "SSL_PRIVATE_KEY_PATH" = None ->
             with_application_server P app port true scope_body w
             = (Raise (KeyError (py "SSL_PRIVATE_KEY_PATH")), w))
      /\ (forall certfile keyfile e,
             environ w !! py "SSL_CERT_PATH" = Some certfile ->
             environ w !! py "SSL_PRIVATE_KEY_PATH" = Some keyfile ->
             ssl_load_cert_chain P certfile keyfile = Some e ->
             with_application_server P app port true scope_body w = (Raise e, w))).
Proof.
  assert (Hfail : forall e, tls_failure P w = Some e ->
                  with_application_server P app port true scope_body w = (Raise e, w)).
  { intros e He. apply (scope_not_entered P app port true scope_body w e w).
    rewrite startup_spec, He. reflexivity. }
  split; [|intros Hca; split; [|split]].
  - intros e Hca. apply Hfail. unfold tls_failure. rewrite Hca. reflexivity.
  - intros Hc. apply Hfail. unfold tls_failure. rewrite Hca, Hc. reflexivity.
  - intros c Hc Hk. apply Hfail. unfold tls_failure. rewrite Hca, Hc, Hk. reflexivity.
  - intros c k e Hc Hk He. apply Hfail. unfold tls_failure. rewrite Hca, Hc, Hk. exact He.
Qed.

(** With neither path configured the error names the certificate, and
    with an unreadable CA file the error is that of the context. *)
Lemma tls_errors_come_in_order_witness :
  with_application_server cpython (application cpython 0) 443 true
    (event_wait cpython (application cpython 0) [ping_5]) (initial_world ∅)
  = (Raise (KeyError (py "SSL_CERT_PATH")), initial_world ∅)
  /\ with_application_server cpython_bad_ca (application cpython_bad_ca 0) 443 true
       (event_wait cpython_bad_ca (application cpython_bad_ca 0) [ping_5])
       (initial_world env_ca_only)
     = (Raise (OSError (py "No such file or directory")), initial_world env_ca_only).
Proof.
  split.
  - apply (tls_errors_come_in_order cpython unit (application cpython 0) 443
             (event_wait cpython (application cpython 0) [ping_5]) (initial_world ∅));
      reflexivity.
  - apply (tls_errors_come_in_order cpython_bad_ca unit (application cpython_bad_ca 0) 443
             (event_wait cpython_bad_ca (application cpython_bad_ca 0) [ping_5])
             (initial_world env_ca_only)).
    reflexivity.
Defined.

(** X5. When the port cannot be bound (another process has it, or this
    process listens on it already), [with_application_server] raises
    [OSError] at [site.start()], before its [try]: the body does not run,
    neither the line of the start nor that of the shutdown is logged, the
    [finally] block does not run, and the world is as it was. *)
Theorem taken_port_is_refused_in_place (P : Platform) (A : Type) (app : Application)
  (port : N) (use_ssl : bool) (scope_body : M A) (w : World) :
  (use_ssl = true -> tls_ready P w) ->
  port_free P port = false \/ port ∈ listening w ->
  exists what,
    with_application_server P app port use_ssl scope_body w = (Raise (OSError what), w).
Proof.
  intros Htls Hport. eexists.
  apply (scope_not_entered P app port use_ssl scope_body w _ w).
  rewrite startup_spec.
  assert (Hnone : (if use_ssl then tls_failure P w else None) = None).
  { destruct use_ssl; [apply tls_ready_failure, Htls|]; reflexivity. }
  rewrite Hnone.
  assert (Hno : port_free P port && negb (bool_decide (port ∈ listening w)) = false).
  { destruct Hport as [Hp|Hp]; [rewrite Hp; reflexivity|].
    rewrite (bool_decide_eq_true_2 _ Hp). apply andb_false_r. }
  rewrite Hno. reflexivity.
Qed.

(** Port 443 is held by another process. *)
Lemma taken_port_is_refused_in_place_witness :
  exists what,
    with_application_server cpython_port_taken (application cpython_port_taken 0) 443 true
      (event_wait cpython_port_taken (application cpython_port_taken 0) [ping_5])
      serving_not_yet
    = (Raise (OSError what), serving_not_yet).
Proof.
  apply (taken_port_is_refused_in_place cpython_port_taken unit
           (application cpython_port_taken 0) 443 true
           (event_wait cpython_port_taken (application cpython_port_taken 0) [ping_5])
           serving_not_yet).
  - intros _. split; [reflexivity|].
    exists (py "/etc/ssl/site.pem"), (py "/etc/ssl/site.key"). repeat split; reflexivity.
  - left. reflexivity.
Defined.

(** X6. While a port is held, the loop answers every request, and each
    with the response it would get were it alone: no request raises out
    of the loop, the responses come one per request and in the order of
    the requests, and the response to a request does not depend on the
    requests answered before it. The server objects are not changed. *)
Theorem requests_are_answered_alone (P : Platform) (self : nat) (app : Application)
  (incoming : list Request) (w : World) :
  _make_app P self = Ret app ->
  listening w <> [] ->
  exists responses w',
    serve P app incoming w = (Ret responses, w')
    /\ Forall2 (fun request response =>
                  fst (handle_request P app request w) = Ret response)
               incoming responses
    /\ heap w' = heap w.
Proof.
  intros [_ ->]%make_app_returns Hl.
  destruct (serve_spec P self incoming w Hl) as (w' & E & _ & Hh & _).
  eexists. exists w'. split; [exact E|]. split; [|exact Hh].
  clear E. induction incoming as [|request rest IH]; cbn [List.map]; constructor.
  - destruct (handle_request_spec P self request w) as (w1 & E1 & _).
    rewrite E1. reflexivity.
  - exact IH.
Qed.

(** A ping that fails, then one that succeeds. *)
Lemma requests_are_answered_alone_witness :
  exists responses w',
    serve cpython (application cpython 0) [ping_abc; ping_5] serving = (Ret responses, w')
    /\ Forall2 (fun request response =>
                  fst (handle_request cpython (application cpython 0) request serving)
                  = Ret response)
               [ping_abc; ping_5] responses
    /\ heap w' = heap serving.
Proof.
  apply (requests_are_answered_alone cpython 0 (application cpython 0)
           [ping_abc; ping_5] serving).
  - reflexivity.
  - simpl. discriminate.
Defined.





(** X9. A run of the [__main__] block whose site cannot start ends with
    the error of the start and has logged nothing: no line on the
    standard error stream, no port bound, no event of the listener. *)
Theorem failed_start_logs_nothing (P : Platform) (incoming : list Request) (w : World) :
  ~ startup_ready P 443 true w ->
  exists e w',
    main P incoming w = (Raise e, w')
    /\ stderr w' = stderr w
    /\ listening w' = listening w
    /\ trace w' = trace w.
Proof.
  intros Hnot.
  set (w0 := with_files (<[py "log.log" := default [] (files w !! py "log.log")]> (files w))
               (with_root_level Logging.DEBUG w)).
  assert (E : main P incoming w = run P incoming w0) by reflexivity.
  rewrite E, run_cases.
  set (self := fresh (dom (heap w0))).
  set (w1 := with_heap (<[self := Server_init]> (heap w0)) w0).
  destruct (is_dir P (py "/home/ubuntu/theClimberDiary")).
  - destruct (startup P 443 true w1) as [[[]|e] w2] eqn:E1.
    + exfalso. apply Hnot. apply startup_inv in E1 as [Hready _]. exact Hready.
    + exists e, w1. rewrite (scope_not_entered _ _ _ _ _ _ _ _ E1). repeat split.
  - exists ValueError, w1. repeat split.
Qed.

(** The CA file named by [SSL_CA_PATH] cannot be read. *)
Lemma failed_start_logs_nothing_witness :
  exists e w',
    main cpython_bad_ca [ping_5] (initial_world env_ca_only) = (Raise e, w')
    /\ stderr w' = []
    /\ listening w' = []
    /\ trace w' = [].
Proof.
  apply (failed_start_logs_nothing cpython_bad_ca [ping_5] (initial_world env_ca_only)).
  intros [Htls _]. destruct (Htls eq_refl) as [Hca _]. discriminate Hca.
Defined.

(** X10. The router has the two routes of [_make_app] and no other: a
    GET request whose path is not /ping, not /page and not under /page/
    is answered 404 without any handler of the program running. What
    changes is the event of the response and the access record that
    aiohttp logs for the request, and nothing else: no line of
    [handle_ping] is written. The response carries no CORS header even
    when the request names an origin. The match is exact: /ping/ is no
    ping. *)
Theorem unrouted_path_is_answered_404 (P : Platform) (self : nat) (app : Application)
  (request : Request) (w : World) :
  _make_app P self = Ret app ->
  req_path request <> py "/ping" ->
  req_path request <> py "/page" ->
  (forall name, req_path request <> py "/page/" ++ name) ->
  exists r,
    handle_request P app request w
    = (Ret r,
       snd (Logging.log (py "aiohttp.access") Logging.INFO
              (AccessMessage (req_path request) 404) (responded 404 w)))
    /\ status r = 404
    /\ body r = BodyError
    /\ headers_get (resp_headers r) (py "Access-Control-Allow-Origin") = None.
Proof.
  intros [_ ->]%make_app_returns Hping Hpage Hunder.
  assert (Hno : is_ping request = false).
  { apply bool_decide_eq_false_2, Hping. }
  assert (Hstatic : matches (StaticResource (py "/page")) (req_path request) = false).
  { unfold matches, is_prefix, pystr_eqb. apply orb_false_iff. split.
    - apply bool_decide_eq_false_2. intros Htake. apply (Hunder (drop 6 (req_path request))).
      rewrite <- (take_drop 6 (req_path request)) at 1.
      change (length (py "/page" ++ py "/")) with 6%nat in Htake.
      rewrite Htake. reflexivity.
    - apply bool_decide_eq_false_2, Hpage. }
  exists (plain_answer P request).
  rewrite (handle_request_plain P self request w Hno).
  unfold plain_answer. rewrite Hstatic. repeat split.
Qed.

(** A request for /ping/ with an origin and a value, while the root
    logger is at DEBUG: the access record is the one line written. *)
Lemma unrouted_path_is_answered_404_witness :
  exists r,
    handle_request cpython (application cpython 0) ping_slash
      (with_root_handlers [basic_handler] serving_debug)
    = (Ret r,
       with_stderr [access_line (py "/ping/") 404]
         (responded 404 (with_root_handlers [basic_handler] serving_debug)))
    /\ status r = 404
    /\ body r = BodyError
    /\ headers_get (resp_headers r) (py "Access-Control-Allow-Origin") = None.
Proof.
  apply (unrouted_path_is_answered_404 cpython 0 (application cpython 0) ping_slash
           (with_root_handlers [basic_handler] serving_debug)).
  - reflexivity.
  - intros H. vm_compute in H. discriminate H.
  - intros H. vm_compute in H. discriminate H.
  - intros name H. vm_compute in H. discriminate H.
Defined.



(** X12. The body of a 200 answer of [handle_ping] is the canonical
    rendering of the sum of the number [int()] reads in the header
    [value] and Offset, and [int()] reads it back as that sum: sent
    again as the header [value], it is accepted and answered with the
    sum plus Offset, unless that result is longer than the guard
    allows. *)
Theorem answer_reads_back (P : Platform) (self : nat) (server : Server)
  (request : Request) (s : pystr) (r : Response) (w : World) :
  heap w !! self = Some server ->
  headers_get (req_headers request) (py "value") = Some s ->
  fst (handle_ping P self request w) = Ret r ->
  exists v,
    int_of_str (unicode P) (int_max_str_digits P) s = Some v
    /\ r = json_200 (v + _step server)
    /\ int_of_str (unicode P) (int_max_str_digits P) (decimal (v + _step server))
       = Some (v + _step server)%Z
    /\ forall next w',
         heap w' !! self = Some server ->
         headers_get (req_headers next) (py "value") = Some (decimal (v + _step server)) ->
         within_limit P (width (v + _step server + _step server)) ->
         fst (handle_ping P self next w') = Ret (json_200 (v + _step server + _step server)).
Proof.
  intros Hobj Hval Hret.
  destruct (handle_ping_outcome P self request w) as (w1 & E & _).
  rewrite E, Hobj, Hval in Hret. cbn [fst] in Hret. unfold ping_outcome in Hret.
  destruct (int_of_str (unicode P) (int_max_str_digits P) s) as [v|]; [|discriminate].
  unfold int_repr in Hret. cbv zeta in Hret.
  destruct (exceeds_limit (int_max_str_digits P)
              (N.of_nat (length (digits_of (Z.abs_N (v + _step server)))))) eqn:Hlim;
    [discriminate|].
  injection Hret as <-. exists v. split; [reflexivity|]. split; [reflexivity|]. split.
  - apply int_of_decimal. exact Hlim.
  - intros next w' Hobj' Hval' Hout.
    destruct (handle_ping_outcome P self next w') as (w2 & E2 & _).
    rewrite E2, Hobj', Hval'. cbn [fst]. unfold ping_outcome.
    rewrite (int_of_decimal _ _ _ Hlim), (int_repr_decimal _ _ Hout). reflexivity.
Qed.

(** [value:  +5 ] is read as 5 and answered 7, and 7 is read back. *)
Lemma answer_reads_back_witness :
  exists v,
    int_of_str ucd_excerpt 4300 (py " +5 ") = Some v
    /\ json_200 7 = json_200 (v + 2)
    /\ int_of_str ucd_excerpt 4300 (decimal (v + 2)) = Some (v + 2)%Z
    /\ forall next w',
         heap w' !! 0%nat = Some Server_init ->
         headers_get (req_headers next) (py "value") = Some (decimal (v + 2)) ->
         within_limit cpython (width (v + 2 + 2)) ->
         fst (handle_ping cpython 0 next w') = Ret (json_200 (v + 2 + 2)).
Proof.
  apply (answer_reads_back cpython 0 Server_init ping_spaced (py " +5 ") (json_200 7)
           serving); reflexivity.
Defined.

(** X13. The scope can be entered again once it has been left: after
    [with_application_server], however its body ended, the port is free
    of this process, so that a second start on the same port, with the
    environment unchanged, succeeds and binds the port. *)
Theorem scope_can_be_reentered (P : Platform) (A : Type) (app : Application)
  (port : N) (use_ssl : bool) (scope_body : M A) (w w1 : World) :
  startup P port use_ssl w = (Ret tt, w1) ->
  environ (snd (with_application_server P app port use_ssl scope_body w)) = environ w ->
  exists w5,
    startup P port use_ssl (snd (with_application_server P app port use_ssl scope_body w))
    = (Ret tt, w5)
    /\ listening w5 = [port].
Proof.
  intros Hstart. rewrite (scope_entered _ _ _ _ _ _ _ Hstart).
  apply startup_inv in Hstart as [(Htls & Hport & _) _].
  unfold try_finally.
  destruct ((Logging.info (starting_message P port);; scope_body) w1) as [o w3].
  destruct (release_spec P port w3) as (w4 & E4 & Hl4 & _).
  rewrite E4. cbn [snd]. intros Henv.
  assert (Hready : startup_ready P port use_ssl w4).
  { split; [|split; [exact Hport | rewrite Hl4; apply not_elem_of_nil]].
    intros Hssl. specialize (Htls Hssl). unfold tls_ready in *. rewrite Henv. exact Htls. }
  eexists. split; [apply startup_ok, Hready|]. cbn. rewrite Hl4. reflexivity.
Qed.

(** A run that answered a ping and was cancelled; then the start again. *)
Lemma scope_can_be_reentered_witness :
  exists w5,
    startup cpython 443 true
      (snd (with_application_server cpython (application cpython 0) 443 true
              (event_wait cpython (application cpython 0) [ping_5]) serving_not_yet))
    = (Ret tt, w5)
    /\ listening w5 = [443].
Proof.
  apply (scope_can_be_reentered cpython unit (application cpython 0) 443 true
           (event_wait cpython (application cpython 0) [ping_5]) serving_not_yet
           (listening_on 443 true serving_not_yet)).
  - reflexivity.
  - reflexivity.
Defined.

(** X14. A [value] that holds a character which is neither white space,
    nor a decimal digit, nor a sign, nor an underscore is not read by
    [int()]: [handle_ping] raises [ValueError], wherever the character
    stands. So no float, no exponent, no hexadecimal or other prefixed
    literal, no digit group separator but the underscore is accepted. *)
Theorem foreign_character_is_refused (P : Platform) (self : nat) (request : Request)
  (s : pystr) (c : N) (w : World) :
  headers_get (req_headers request) (py "value") = Some s ->
  In c s ->
  classified (is_space (unicode P)) (digit_of (unicode P)) c = false ->
  int_of_str (unicode P) (int_max_str_digits P) s = None
  /\ fst (handle_ping P self request w) = Raise ValueError.
Proof.
  intros Hval Hin Hc.
  assert (Hnone : int_of_str (unicode P) (int_max_str_digits P) s = None).
  { destruct (int_of_str (unicode P) (int_max_str_digits P) s) as [v|] eqn:Hint;
      [|reflexivity].
    apply int_of_str_reads in Hint as (n & (l & Htext & Hwf & _) & _).
    apply well_formed_classified in Hwf. rewrite Htext in Hwf.
    rewrite forallb_forall in Hwf. rewrite (Hwf c Hin) in Hc. discriminate Hc. }
  split; [exact Hnone|].
  destruct (handle_ping_outcome P self request w) as (w1 & E & _).
  rewrite E, Hval. cbn [fst]. unfold ping_outcome. rewrite Hnone. reflexivity.
Qed.

(** [value: 5.0], refused for its point. *)
Lemma foreign_character_is_refused_witness :
  int_of_str ucd_excerpt 4300 (py "5.0") = None
  /\ fst (handle_ping cpython 0 ping_float serving) = Raise ValueError.
Proof.
  apply (foreign_character_is_refused cpython 0 ping_float (py "5.0") 46 serving).
  - reflexivity.
  - right. left. reflexivity.
  - reflexivity.
Defined.



(** X16. [request.headers.get('value')] takes the first header whose
    name is [value] in any letter case: the outcome of [handle_ping] is
    that of the value of that header, whatever headers follow it, a
    second [value] included. *)
Theorem first_value_header_counts (P : Platform) (self : nat) (path : pystr)
  (before after : list (pystr * pystr)) (name s : pystr) (w : World) :
  lower name = py "value" ->
  Forall (fun h => lower (fst h) <> py "value") before ->
  fst (handle_ping P self
         {| req_path := path; req_headers := before ++ (name, s) :: after |} w)
  = ping_outcome P (heap w !! self) (Some s).
Proof.
  intros Hname Hbefore.
  destruct (handle_ping_outcome P self
              {| req_path := path; req_headers := before ++ (name, s) :: after |} w)
    as (w1 & E & _).
  rewrite E. cbn [fst req_headers]. f_equal. clear E.
  induction Hbefore as [|[n v] rest Hn _ IH]; cbn [app headers_get].
  - unfold pystr_eqb. rewrite Hname. reflexivity.
  - unfold pystr_eqb at 1. cbn [fst] in Hn.
    change (lower (py "value")) with (py "value").
    rewrite (bool_decide_eq_false_2 _ Hn). exact IH.
Qed.

(** [VALUE: 5] after an [Accept] header and before [value: abc]. *)
Lemma first_value_header_counts_witness :
  fst (handle_ping cpython 0 ping_twice serving) = Ret (json_200 7).
Proof.
  apply (first_value_header_counts cpython 0 (py "/ping") [(py "Accept", py "*/*")]
           [(py "value", py "abc")] (py "VALUE") (py "5") serving).
  - reflexivity.
  - constructor; [|constructor]. intros H. vm_compute in H. discriminate H.
Defined.

(** X17. No answer of the server allows credentials, and an answer to
    a request without [Origin] names no allowed origin: every GET
    request is answered (none raises out of the application), and the
    response has no [Access-Control-Allow-Credentials] header, on any
    route and for any outcome of the handler. *)
Theorem credentials_are_never_allowed (P : Platform) (self : nat) (app : Application)
  (request : Request) (w : World) :
  _make_app P self = Ret app ->
  exists r w',
    handle_request P app request w = (Ret r, w')
    /\ headers_get (resp_headers r) (py "Access-Control-Allow-Credentials") = None
    /\ (headers_get (req_headers request) (py "Origin") = None ->
        headers_get (resp_headers r) (py "Access-Control-Allow-Origin") = None).
Proof.
  intros [_ ->]%make_app_returns.
  destruct (handle_request_spec P self request w) as (w1 & E & _).
  eexists. eexists. split; [exact E|].
  unfold response_to, with_cors, plain_answer.
  destruct (is_ping request).
  - destruct (ping_outcome_cases P (heap w !! self)
                (headers_get (req_headers request) (py "value")))
      as [[t Ho]|[Ho|[Ho|Ho]]]; rewrite Ho;
      destruct (headers_get (req_headers request) (py "Origin"));
      split; first [reflexivity | discriminate | intros _; reflexivity].
  - destruct (matches _ _); [destruct (static_file P _ _)|];
      split; first [reflexivity | intros _; reflexivity].
Qed.

(** A ping from another origin. *)
Lemma credentials_are_never_allowed_witness :
  exists r w',
    handle_request cpython (application cpython 0) ping_5_cross serving = (Ret r, w')
    /\ headers_get (resp_headers r) (py "Access-Control-Allow-Credentials") = None
    /\ (headers_get (req_headers ping_5_cross) (py "Origin") = None ->
        headers_get (resp_headers r) (py "Access-Control-Allow-Origin") = None).
Proof.
  apply (credentials_are_never_allowed cpython 0 (application cpython 0) ping_5_cross
           serving).
  reflexivity.
Defined.

(** X18. How a number is spelled does not matter to [handle_ping]: two
    literals with the same digit values in the same order and the same
    sign (a plus counts as none) get the same outcome, whatever white
    space surrounds them, wherever single underscores stand between
    the digits, and whichever script the digits are of. *)
Theorem spelling_of_a_number_does_not_matter (P : Platform) (self : nat)
  (l1 l2 : Literal.Literal) (w : World) :
  well_formed (is_space (unicode P)) (digit_of (unicode P)) l1 = true ->
  well_formed (is_space (unicode P)) (digit_of (unicode P)) l2 = true ->
  List.map (digit_of (unicode P)) (digit_chars l1)
  = List.map (digit_of (unicode P)) (digit_chars l2) ->
  (sign l1 = Minus <-> sign l2 = Minus) ->
  fst (handle_ping P self (ping [(py "value", text l1)]) w)
  = fst (handle_ping P self (ping [(py "value", text l2)]) w).
Proof.
  intros Hwf1 Hwf2 Hdigits Hsign.
  destruct (handle_ping_outcome P self (ping [(py "value", text l1)]) w) as (w1 & E1 & _).
  destruct (handle_ping_outcome P self (ping [(py "value", text l2)]) w) as (w2 & E2 & _).
  rewrite E1, E2, !value_alone. cbn [fst]. unfold ping_outcome.
  rewrite (int_of_str_literal _ _ _ Hwf1), (int_of_str_literal _ _ _ Hwf2).
  assert (Hcount : digit_count l1 = digit_count l2).
  { unfold digit_count. f_equal.
    rewrite <- (length_map (digit_of (unicode P)) (digit_chars l1)), Hdigits.
    apply length_map. }
  assert (Hvalue : value (digit_of (unicode P)) l1 = value (digit_of (unicode P)) l2).
  { unfold value, magnitude. rewrite (fold_place_values _ _ _ 0 Hdigits).
    destruct (sign l1) eqn:S1; destruct (sign l2) eqn:S2; try reflexivity;
      first [ discriminate (proj1 Hsign eq_refl) | discriminate (proj2 Hsign eq_refl) ]. }
  rewrite Hcount, Hvalue. reflexivity.
Qed.

(** One thousand spelled out, and in plain digits. *)
Lemma spelling_of_a_number_does_not_matter_witness :
  fst (handle_ping cpython 0 (ping [(py "value", text thousand_spelled)]) serving)
  = fst (handle_ping cpython 0 (ping [(py "value", py "1000")]) serving).
Proof.
  apply (spelling_of_a_number_does_not_matter cpython 0 thousand_spelled thousand_plain
           serving).
  - reflexivity.
  - reflexivity.
  - reflexivity.
  - split; intros H; discriminate H.
Defined.

(** X19. On a machine without the directory of the static route,
    [_make_app] raises [ValueError] at [app.add_routes], so that [run]
    ends with that error right after the server object is made: before
    the TLS set-up, with no port bound, no event of the listener and no
    line logged, whatever the environment. *)
Theorem missing_directory_fails_first (P : Platform) (incoming : list Request)
  (w : World) :
  is_dir P (py "/home/ubuntu/theClimberDiary") = false ->
  (forall self, _make_app P self = Raise ValueError)
  /\ run P incoming w
     = (Raise ValueError,
        with_heap (<[fresh (dom (heap w)) := Server_init]> (heap w)) w).
Proof.
  intros Hdir. split.
  - intros self. rewrite make_app_cases, Hdir. reflexivity.
  - rewrite run_cases, Hdir. reflexivity.
Qed.

(** The machine without the directory, with valid TLS material. *)
Lemma missing_directory_fails_first_witness :
  (forall self, _make_app cpython_no_dir self = Raise ValueError)
  /\ run cpython_no_dir [ping_5] (initial_world Sample.env)
     = (Raise ValueError,
        with_heap (<[fresh (dom (heap (initial_world Sample.env))) := Server_init]>
                     (heap (initial_world Sample.env)))
                  (initial_world Sample.env)).
Proof.
  apply (missing_directory_fails_first cpython_no_dir [ping_5] (initial_world Sample.env)).
  reflexivity.
Defined.

End Coverage.
